(** * Re-Thread fabric exchange: service layer, radius filter and map filters

    A shallow embedding of the TypeScript sources:
    - [types.ts]                      the data model;
    - [services/firebaseService.ts]   the in-memory (mock) service layer, module [Mock];
    - the Firebase-backed service layer (auth, storage, Firestore, messaging);
    - [services/geoService.ts]        the mock geocoder, module [MockGeo];
    - [components/MapView.tsx]        the filter pipeline and the search handler.

    Conventions.
    - A TypeScript [number] is a value of an abstract type [num] with the
      operations of the class [JsNumber]; the code is embedded once, for every
      implementation of that class.  [Float_JsNumber] is the instance of the
      code: IEEE 754 binary64, with [Math.sin], [Math.cos] and [Math.atan2]
      left to the engine ([MathLib]) except where ECMAScript fixes their
      value.
    - An [async] function is a computation [M A]: it reads and writes a
      [World] (document store, console, clock, the replies of the vendor to
      come) and ends in [Ok] or in [Throw].  What was written before a throw
      stays written.
    - [console.log] lines carry no value and cannot throw; they are not
      recorded.  [console.warn] and [console.error] are. *)

From Stdlib Require Import ZArith Ascii Floats.
From Stdlib Require Uint63.
From stdpp Require Import gmap strings pretty list fin_maps.


(** ** Numbers *)

Class JsNumber (num : Type) := {
  (** the decimal literal [m]e-[e], as in [51.5074] = [lit 515074 4] *)
  lit : Z -> nat -> num;
  add : num -> num -> num;
  sub : num -> num -> num;
  mul : num -> num -> num;
  div : num -> num -> num;
  Math_PI : num;
  Math_sin : num -> num;
  Math_cos : num -> num;
  Math_sqrt : num -> num;
  Math_atan2 : num -> num -> num;
  (** the comparison [x <= y] *)
  le_num : num -> num -> bool;
}.

Declare Scope js_scope.
Delimit Scope js_scope with js.
Infix "+" := add : js_scope.
Infix "-" := sub : js_scope.
Infix "*" := mul : js_scope.
Infix "/" := div : js_scope.
Infix "<=?" := le_num : js_scope.

(** ** types.ts: closed enumerations *)

Inductive ListingType := FREE | SWAP | SALE.
Inductive Category := DENIM | YARN | COTTON | SILK | WOOL | LEATHER | OTHER.
Inductive PostType := OFFER | REQUEST.

#[global] Instance ListingType_eq_dec : EqDecision ListingType.
Proof. solve_decision. Defined.
#[global] Instance Category_eq_dec : EqDecision Category.
Proof. solve_decision. Defined.
#[global] Instance PostType_eq_dec : EqDecision PostType.
Proof. solve_decision. Defined.

Record User := mkUser {
  user_id : string;
  user_email : string;
  user_displayName : string;
}.

Record GalleryPost := mkGalleryPost {
  gallery_id : string;
  gallery_title : string;
  gallery_imageUrl : string;
  gallery_userId : string;
  gallery_user : option User;
  originalListingId : option string;
}.

(** A thrown JavaScript error: vendor errors carry a [code], errors made
    with [new Error(message)] do not. *)
Record JsError := mkJsError {
  err_code : option string;
  err_message : string;
}.

Definition new_Error (message : string) : JsError :=
  {| err_code := None; err_message := message |}.

Inductive LogEntry :=
  | console_warn (label : string) (e : JsError)
  | console_error (label : string) (e : JsError).

Inductive result (A : Type) :=
  | Ok (a : A)
  | Throw (e : JsError).
Arguments Ok {A} a.
Arguments Throw {A} e.

Section WithNumbers.
Context {num : Type} `{JsNumber num}.

Local Open Scope js_scope.

Record GeoPoint := mkGeoPoint {
  latitude : num;
  longitude : num;
}.

(** [Omit<Listing, 'id' | 'user'>]: what a caller supplies and what a
    [listings] document holds. *)
Record ListingData := mkListingData {
  title : string;
  description : string;
  postType : PostType;
  listingType : ListingType;
  category : Category;
  quantity : string;
  imageUrl : string;
  userId : string;
  location : GeoPoint;
  locationName : string;
}.

(** [Listing]: the fields of [ListingData] (reached through the coercion)
    with the document id and the denormalized user. *)
Record Listing := mkListing {
  listing_id : string;
  listing_data :> ListingData;
  user : option User;
}.

(** ** The Haversine distance (the same text in both service layers) *)

Definition toRad (x : num) : num := (x * Math_PI) / lit 180 0.

Definition haversineDistance (coords1 coords2 : GeoPoint) : num :=
  let R := lit 6371 0 in
  let dLat := toRad (latitude coords2 - latitude coords1) in
  let dLon := toRad (longitude coords2 - longitude coords1) in
  let lat1 := toRad (latitude coords1) in
  let lat2 := toRad (latitude coords2) in
  let a := Math_sin (dLat / lit 2 0) * Math_sin (dLat / lit 2 0) +
           Math_sin (dLon / lit 2 0) * Math_sin (dLon / lit 2 0) *
             Math_cos lat1 * Math_cos lat2 in
  let c := lit 2 0 * Math_atan2 (Math_sqrt a) (Math_sqrt (lit 1 0 - a)) in
  R * c.

(** The test of the radius filter: [distance <= radiusInKm]. *)
Definition withinRadius (center : GeoPoint) (radiusInKm : num) (p : GeoPoint) : bool :=
  haversineDistance center p <=? radiusInKm.

(** [{...listing, user: u}] *)
Definition setUser (u : option User) (l : Listing) : Listing :=
  {| listing_id := listing_id l; listing_data := listing_data l; user := u |}.

End WithNumbers.

Arguments GeoPoint num : clear implicits.
Arguments ListingData num : clear implicits.
Arguments Listing num : clear implicits.

(** ** services/firebaseService.ts: the in-memory service layer *)

Module Mock.
Section WithNumbers.
Context {num : Type} `{JsNumber num}.

Definition mockUsers : list User :=
  [ mkUser "user1" "crafter@example.com" "Alice";
    mkUser "user2" "designer@example.com" "Bob" ].

Definition mockListings : list (Listing num) :=
  [ mkListing "listing1"
      (mkListingData "Box of Denim Scraps"
         "Various sizes of blue denim, perfect for patchwork."
         OFFER FREE DENIM "5kg box" "https://picsum.photos/seed/denim/600/400"
         "user1" (mkGeoPoint (lit 5151 2) (lit (-1) 1)) "Central London") None;
    mkListing "listing2"
      (mkListingData "Leftover Wool Yarn" "Assorted colors of wool yarn."
         OFFER SWAP YARN "3 skeins" "https://picsum.photos/seed/yarn/600/400"
         "user2" (mkGeoPoint (lit 5152 2) (lit (-14) 2)) "Near Regent's Park") None;
    mkListing "listing3"
      (mkListingData "ISO: Silk remnants"
         "Looking for any color silk pieces for a project."
         REQUEST SWAP SILK "Any amount" "https://picsum.photos/seed/silk/600/400"
         "user1" (mkGeoPoint (lit 5149 2) (lit (-15) 2)) "Hyde Park Area") None ].

Definition mockGallery : list GalleryPost :=
  [ mkGalleryPost "gallery1" "Patchwork Denim Jacket"
      "https://picsum.photos/seed/jacket/600/800" "user1" None (Some "listing1");
    mkGalleryPost "gallery2" "Colorful Wool Scarf"
      "https://picsum.photos/seed/scarf/600/800" "user2" None (Some "listing2") ].

(** [mockUsers.find(u => u.id === id)] *)
Definition findUser (id : string) : option User :=
  List.find (fun u => bool_decide (user_id u = id)) mockUsers.

(** The functions below have no [try]/[catch].  The only mutable state of
    the module is the array [mockListings] ([createListing] pushes to it); it
    is passed in and, where written, returned. *)

Definition signIn (email pass : string) : result User :=
  match List.find (fun u => bool_decide (user_email u = email)) mockUsers with
  | None => Throw (new_Error "User not found")
  | Some user => Ok user
  end.

Definition signOut : result unit := Ok tt.

(** [randomSeed] stands for [Math.random().toString(36).substring(7)]. *)
Definition uploadImage (randomSeed : string) : result string :=
  Ok ("https://picsum.photos/seed/" +:+ randomSeed +:+ "/600/400").

Definition createListing (listings : list (Listing num)) (listingData : ListingData num)
    : result (Listing num) * list (Listing num) :=
  let newListing :=
    {| listing_id := "listing" +:+ pretty (length listings + 1)%nat;
       listing_data := listingData;
       user := findUser (userId listingData) |} in
  (Ok newListing, listings ++ [newListing]).

Definition getNearbyListings (listings : list (Listing num))
    (center : GeoPoint num) (radiusInKm : num) : list (Listing num) :=
  List.filter
    (fun listing : Listing num => withinRadius center radiusInKm (location listing))
    (List.map (fun listing : Listing num => setUser (findUser (userId listing)) listing)
       listings).

Definition getGalleryPosts : list GalleryPost :=
  List.map (fun post =>
      {| gallery_id := gallery_id post; gallery_title := gallery_title post;
         gallery_imageUrl := gallery_imageUrl post; gallery_userId := gallery_userId post;
         gallery_user := findUser (gallery_userId post);
         originalListingId := originalListingId post |})
    mockGallery.

End WithNumbers.
End Mock.

(** ** The vendor's side: Firestore documents, the world, the async monad *)

(** The user object of a vendor credential. *)
Record FirebaseUser := mkFirebaseUser {
  uid : string;
  fb_email : option string;
  fb_displayName : option string;
}.

Record UserDoc := mkUserDoc {
  ud_email : string;
  ud_displayName : string;
  ud_createdAt : N;
}.

Record GalleryDoc := mkGalleryDoc {
  gd_title : string;
  gd_imageUrl : string;
  gd_userId : string;
  gd_originalListingId : option string;
}.

Record ConversationDoc := mkConversationDoc {
  participantIds : list string;
  lastMessageText : string;
  updatedAt : N;
}.

Record MessageDoc := mkMessageDoc {
  senderId : string;
  text : string;
  createdAt : N;
}.

(** What the vendor answers to one awaited call: a failure or not, and the
    time the call took. *)
Record Reply := mkReply {
  fault : option JsError;
  elapsed : N;
}.

(** The parts of the vendor that are not stored in Firestore: the user of the
    credential a successful sign-in or sign-up returns, and the public URL of
    an object uploaded under a path. *)
Class Vendor := {
  credential : string -> string -> FirebaseUser;
  downloadURL : string -> string;
}.

Record File := mkFile { file_name : string }.

Section WithNumbers.
Context {num : Type} `{JsNumber num} `{Vendor}.

Record ListingDoc := mkListingDoc {
  doc_data : ListingData num;
  doc_createdAt : N;
  doc_updatedAt : option N;
}.

(** The document store: four collections and, under each conversation id,
    its [messages] sub-collection. *)
Record Firestore := mkFirestore {
  users : gmap string UserDoc;
  listings : gmap string ListingDoc;
  gallery : gmap string GalleryDoc;
  conversations : gmap string ConversationDoc;
  messages : gmap string (gmap string MessageDoc);
}.

Record World := mkWorld {
  db : Firestore;
  console : list LogEntry;
  clock : N;
  replies : list Reply;
}.

Definition M (A : Type) : Type := World -> result A * World.

Definition ret {A} (a : A) : M A := fun w => (Ok a, w).

Definition bind {A B} (c : M A) (k : A -> M B) : M B :=
  fun w => match c w with
           | (Ok a, w') => k a w'
           | (Throw e, w') => (Throw e, w')
           end.

Definition throw {A} (e : JsError) : M A := fun w => (Throw e, w).

(** [try { body } catch (error) { handler }] *)
Definition try_catch {A} (body : M A) (handler : JsError -> M A) : M A :=
  fun w => match body w with
           | (Ok a, w') => (Ok a, w')
           | (Throw e, w') => handler e w'
           end.

Definition get_db : M Firestore := fun w => (Ok (db w), w).

Definition put_db (d : Firestore) : M unit :=
  fun w => (Ok tt, {| db := d; console := console w; clock := clock w; replies := replies w |}).

Definition log (entry : LogEntry) : M unit :=
  fun w => (Ok tt, {| db := db w; console := console w ++ [entry];
                      clock := clock w; replies := replies w |}).

(** [Timestamp.now()] and [Date.now()] *)
Definition Timestamp_now : M N := fun w => (Ok (clock w), w).

(** One awaited vendor call: the next reply is consumed, its time elapses,
    and its fault, if any, is thrown.  With no reply left the call succeeds
    at once. *)
Definition vendor_call : M unit :=
  fun w => match replies w with
           | [] => (Ok tt, w)
           | r :: rs =>
               let w' := {| db := db w; console := console w;
                            clock := (clock w + elapsed r)%N; replies := rs |} in
               match fault r with
               | Some e => (Throw e, w')
               | None => (Ok tt, w')
               end
           end.

End WithNumbers.

Arguments ListingDoc num : clear implicits.
Arguments Firestore num : clear implicits.
Arguments World num : clear implicits.
Arguments M num A : clear implicits.

Notation "x <- c1 ;;; c2" := (bind c1 (fun x => c2))
  (at level 20, c1 at level 99, c2 at level 200, only parsing).
Notation "c1 ;;; c2" := (bind c1 (fun _ => c2))
  (at level 100, c2 at level 200, right associativity, only parsing).

(** ** Firestore calls

    Document ids are strings.  [doc(db, collection, id)] and
    [collection(db, 'conversations', id, 'messages')] throw, before any
    request, on the empty id, and an id with a slash names another path: the
    calls below stand for the code's on the ids that name a document
    ([validId], in the vocabulary), the only ids under which a store holds
    documents. *)

Section Firestore.
Context {num : Type} `{JsNumber num} `{Vendor}.

(** [collection(db, ...)]: how to read and replace one collection. *)
Record Collection (D : Type) := mkCollection {
  docs : Firestore num -> gmap string D;
  setDocs : gmap string D -> Firestore num -> Firestore num;
}.
Arguments docs {D} _ _.
Arguments setDocs {D} _ _ _.

Definition users_c : Collection UserDoc :=
  {| docs := users;
     setDocs := fun m d => {| users := m; listings := listings d; gallery := gallery d;
                              conversations := conversations d; messages := messages d |} |}.

Definition listings_c : Collection (ListingDoc num) :=
  {| docs := listings;
     setDocs := fun m d => {| users := users d; listings := m; gallery := gallery d;
                              conversations := conversations d; messages := messages d |} |}.

Definition gallery_c : Collection GalleryDoc :=
  {| docs := gallery;
     setDocs := fun m d => {| users := users d; listings := listings d; gallery := m;
                              conversations := conversations d; messages := messages d |} |}.

Definition conversations_c : Collection ConversationDoc :=
  {| docs := conversations;
     setDocs := fun m d => {| users := users d; listings := listings d; gallery := gallery d;
                              conversations := m; messages := messages d |} |}.

(** [collection(db, 'conversations', conversationId, 'messages')] *)
Definition messages_c (conversationId : string) : Collection MessageDoc :=
  {| docs := fun d => default ∅ (messages d !! conversationId);
     setDocs := fun m d => {| users := users d; listings := listings d; gallery := gallery d;
                              conversations := conversations d;
                              messages := <[conversationId := m]> (messages d) |} |}.

(** The id the vendor gives to an added document: one that no document of
    the collection has. *)
Definition autoId {D} (m : gmap string D) : string := fresh (dom m).

(** [getDocs(collection)]: the snapshot, as (id, data) pairs in the order of
    the store. *)
Definition getDocs {D} (c : Collection D) : M num (list (string * D)) :=
  vendor_call ;;;
  d <- get_db ;;;
  ret (map_to_list (docs c d)).

(** [getDocs(query(collection, where(...)))] *)
Definition getDocs_where {D} (c : Collection D) (test : D -> bool)
    : M num (list (string * D)) :=
  vendor_call ;;;
  d <- get_db ;;;
  ret (List.filter (fun '(_, data) => test data) (map_to_list (docs c d))).

(** [getDoc(doc(collection, id))]: [None] when [exists()] is false. *)
Definition getDoc {D} (c : Collection D) (id : string) : M num (option D) :=
  vendor_call ;;;
  d <- get_db ;;;
  ret (docs c d !! id).

Definition addDoc {D} (c : Collection D) (data : D) : M num string :=
  vendor_call ;;;
  d <- get_db ;;;
  let id := autoId (docs c d) in
  put_db (setDocs c (<[id := data]> (docs c d)) d) ;;;
  ret id.

Definition setDoc {D} (c : Collection D) (id : string) (data : D) : M num unit :=
  vendor_call ;;;
  d <- get_db ;;;
  put_db (setDocs c (<[id := data]> (docs c d)) d).

Definition deleteDoc {D} (c : Collection D) (id : string) : M num unit :=
  vendor_call ;;;
  d <- get_db ;;;
  put_db (setDocs c (delete id (docs c d)) d).

(** [updateDoc] changes the fields given and fails on a document that does
    not exist. *)
Definition updateDoc {D} (c : Collection D) (id : string) (update : D -> D)
    : M num unit :=
  vendor_call ;;;
  d <- get_db ;;;
  match docs c d !! id with
  | None => throw {| err_code := Some "not-found";
                     err_message := "No document to update" |}
  | Some data => put_db (setDocs c (<[id := update data]> (docs c d)) d)
  end.

(** Auth and storage calls. *)

Definition signInWithEmailAndPassword (email password : string) : M num FirebaseUser :=
  vendor_call ;;; ret (credential email password).

Definition firebaseSignOut : M num unit := vendor_call.

Definition createUserWithEmailAndPassword (email password : string) : M num FirebaseUser :=
  vendor_call ;;; ret (credential email password).

(** [updateProfile(user, { displayName })] sets the field on the user object. *)
Definition updateProfile (user : FirebaseUser) (displayName : string) : M num FirebaseUser :=
  vendor_call ;;;
  ret {| uid := uid user; fb_email := fb_email user; fb_displayName := Some displayName |}.

(** [uploadBytes(ref(storage, path), file)], giving back the path of the
    stored object. *)
Definition uploadBytes (path : string) (file : File) : M num string :=
  vendor_call ;;; ret path.

Definition getDownloadURL (path : string) : M num string :=
  vendor_call ;;; ret (downloadURL path).

(** [for (const x of xs) { body }], the body updating what the loop builds. *)
Fixpoint for_of {A S} (xs : list A) (body : A -> S -> M num S) (acc : S) : M num S :=
  match xs with
  | [] => ret acc
  | x :: xs' => acc' <- body x acc ;;; for_of xs' body acc'
  end.

End Firestore.

Arguments docs {num D} _ _.
Arguments setDocs {num D} _ _ _.

(** ** The Firebase-backed service layer *)

(** [a || b] on a string that may be [null]: [b] when [a] is [null] or empty. *)
Definition or_string (a : option string) (b : string) : string :=
  match a with
  | Some s => if bool_decide (s = "") then b else s
  | None => b
  end.

(** [s.split('@')[0]] *)
Fixpoint split_at_0 (s : string) : string :=
  match s with
  | EmptyString => EmptyString
  | String c s' => if bool_decide (c = "@"%char) then EmptyString else String c (split_at_0 s')
  end.

Definition convertFirebaseUser (firebaseUser : FirebaseUser) : User :=
  {| user_id := uid firebaseUser;
     user_email := or_string (fb_email firebaseUser) "";
     user_displayName :=
       or_string (fb_displayName firebaseUser)
         (or_string (split_at_0 <$> fb_email firebaseUser) "User") |}.

(** [error.code === c] *)
Definition code_is (error : JsError) (c : string) : bool :=
  bool_decide (err_code error = Some c).

Section Service.
Context {num : Type} `{JsNumber num} `{Vendor}.

Definition signIn (email password : string) : M num User :=
  try_catch
    (userCredential <- signInWithEmailAndPassword email password ;;;
     ret (convertFirebaseUser userCredential))
    (fun error =>
       log (console_error "Sign in error:" error) ;;;
       if code_is error "auth/user-not-found" || code_is error "auth/wrong-password"
       then throw (new_Error "Invalid email or password")
       else if code_is error "auth/invalid-email"
       then throw (new_Error "Invalid email address")
       else if code_is error "auth/user-disabled"
       then throw (new_Error "This account has been disabled")
       else if code_is error "auth/too-many-requests"
       then throw (new_Error "Too many failed login attempts. Please try again later")
       else throw (new_Error "Failed to sign in. Please try again")).

Definition signOut : M num unit :=
  try_catch firebaseSignOut
    (fun error =>
       log (console_error "Sign out error:" error) ;;;
       throw (new_Error "Failed to sign out")).

Definition signUp (email password displayName : string) : M num User :=
  try_catch
    (userCredential <- createUserWithEmailAndPassword email password ;;;
     user <- updateProfile userCredential displayName ;;;
     now <- Timestamp_now ;;;
     setDoc users_c (uid user)
       {| ud_email := email; ud_displayName := displayName; ud_createdAt := now |} ;;;
     ret (convertFirebaseUser user))
    (fun error =>
       log (console_error "Sign up error:" error) ;;;
       if code_is error "auth/email-already-in-use"
       then throw (new_Error "Email is already registered")
       else if code_is error "auth/invalid-email"
       then throw (new_Error "Invalid email address")
       else if code_is error "auth/weak-password"
       then throw (new_Error "Password should be at least 6 characters")
       else throw (new_Error "Failed to create account. Please try again")).

Definition uploadImage (file : File) : M num string :=
  try_catch
    (timestamp <- Timestamp_now ;;;
     let filename := pretty timestamp +:+ "_" +:+ file_name file in
     snapshot_ref <- uploadBytes ("listings/" +:+ filename) file ;;;
     downloadURL <- getDownloadURL snapshot_ref ;;;
     ret downloadURL)
    (fun error =>
       log (console_error "Upload error:" error) ;;;
       throw (new_Error "Failed to upload image. Please try again.")).

(** The block that four functions repeat: read [users/userId] inside an
    inner [try]; a failure is warned about under [label] and leaves [user]
    undefined. *)
Definition fetchUser (label : string) (userId : string) : M num (option User) :=
  try_catch
    (userDoc <- getDoc users_c userId ;;;
     ret (match userDoc with
          | Some userData =>
              Some {| user_id := userId; user_email := ud_email userData;
                      user_displayName := ud_displayName userData |}
          | None => None
          end))
    (fun error => log (console_warn label error) ;;; ret None).

(** The same block under [if (data.userId)]. *)
Definition fetchUser_if (label : string) (userId : string) : M num (option User) :=
  if bool_decide (userId = "") then ret None else fetchUser label userId.

Definition createListing (listingData : ListingData num) : M num (Listing num) :=
  try_catch
    (now <- Timestamp_now ;;;
     docRef_id <- addDoc listings_c
       {| doc_data := listingData; doc_createdAt := now; doc_updatedAt := None |} ;;;
     user <- fetchUser "Could not fetch user data:" (userId listingData) ;;;
     let newListing :=
       {| listing_id := docRef_id; listing_data := listingData; user := user |} in
     ret newListing)
    (fun error =>
       log (console_error "Error creating listing:" error) ;;;
       throw (new_Error "Failed to create listing. Please try again.")).

(** The [Listing] object the fetch functions push: the fields of the
    document, the id of the snapshot and the user. *)
Definition listingOf (id : string) (data : ListingData num) (user : option User)
    : Listing num :=
  {| listing_id := id;
     listing_data :=
       {| title := title data; description := description data;
          postType := postType data; listingType := listingType data;
          category := category data; quantity := quantity data;
          imageUrl := imageUrl data; userId := userId data;
          location := location data; locationName := locationName data |};
     user := user |}.

Definition getNearbyListings (center : GeoPoint num) (radiusInKm : num)
    : M num (list (Listing num)) :=
  try_catch
    (listingsSnapshot <- getDocs listings_c ;;;
     for_of listingsSnapshot
       (fun '(id, docSnapshot) listings =>
          let data := doc_data docSnapshot in
          if withinRadius center radiusInKm (location data) then
            user <- fetchUser_if "Could not fetch user data for listing:" (userId data) ;;;
            ret (listings ++ [listingOf id data user])
          else ret listings)
       [])
    (fun error =>
       log (console_error "Error fetching nearby listings:" error) ;;;
       throw (new_Error "Failed to fetch listings. Please try again.")).

Definition getGalleryPosts : M num (list GalleryPost) :=
  try_catch
    (gallerySnapshot <- getDocs gallery_c ;;;
     for_of gallerySnapshot
       (fun '(id, data) posts =>
          user <- fetchUser_if "Could not fetch user data for gallery post:" (gd_userId data) ;;;
          ret (posts ++ [ {| gallery_id := id; gallery_title := gd_title data;
                             gallery_imageUrl := gd_imageUrl data;
                             gallery_userId := gd_userId data;
                             gallery_user := user;
                             originalListingId := gd_originalListingId data |} ]))
       [])
    (fun error =>
       log (console_error "Error fetching gallery posts:" error) ;;;
       throw (new_Error "Failed to fetch gallery posts. Please try again.")).

Definition getListingsForUser (userId' : string) : M num (list (Listing num)) :=
  try_catch
    (listingsSnapshot <- getDocs_where listings_c
        (fun d => bool_decide (userId (doc_data d) = userId')) ;;;
     for_of listingsSnapshot
       (fun '(id, docSnapshot) listings =>
          let data := doc_data docSnapshot in
          user <- fetchUser_if "Could not fetch user data for listing:" (userId data) ;;;
          ret (listings ++ [listingOf id data user]))
       [])
    (fun error =>
       log (console_error "Error fetching user listings:" error) ;;;
       throw (new_Error "Failed to fetch your listings. Please try again.")).

Definition deleteListing (listingId : string) : M num unit :=
  try_catch
    (deleteDoc listings_c listingId)
    (fun error =>
       log (console_error "Error deleting listing:" error) ;;;
       throw (new_Error "Failed to delete listing. Please try again.")).

(** [Partial<Omit<Listing, 'id' | 'user'>>]: each field given or not. *)
Record ListingPatch := mkListingPatch {
  p_title : option string;
  p_description : option string;
  p_postType : option PostType;
  p_listingType : option ListingType;
  p_category : option Category;
  p_quantity : option string;
  p_imageUrl : option string;
  p_userId : option string;
  p_location : option (GeoPoint num);
  p_locationName : option string;
}.

(** The fields of [{...data, updatedAt}] written over a document. *)
Definition applyPatch (data : ListingPatch) (updatedAt : N) (d : ListingDoc num)
    : ListingDoc num :=
  let old := doc_data d in
  {| doc_data :=
       {| title := default (title old) (p_title data);
          description := default (description old) (p_description data);
          postType := default (postType old) (p_postType data);
          listingType := default (listingType old) (p_listingType data);
          category := default (category old) (p_category data);
          quantity := default (quantity old) (p_quantity data);
          imageUrl := default (imageUrl old) (p_imageUrl data);
          userId := default (userId old) (p_userId data);
          location := default (location old) (p_location data);
          locationName := default (locationName old) (p_locationName data) |};
     doc_createdAt := doc_createdAt d;
     doc_updatedAt := Some updatedAt |}.

Definition updateListing (listingId : string) (data : ListingPatch) : M num unit :=
  try_catch
    (now <- Timestamp_now ;;;
     updateDoc listings_c listingId (applyPatch data now))
    (fun error =>
       log (console_error "Error updating listing:" error) ;;;
       throw (new_Error "Failed to update listing. Please try again.")).

(** *** Messaging *)

(** [data.participantIds.includes(id)], also the test of
    [where('participantIds', 'array-contains', id)] *)
Definition includes (id : string) (data : ConversationDoc) : bool :=
  bool_decide (id ∈ participantIds data).

Definition getOrCreateConversation (user1Id user2Id : string) : M num string :=
  try_catch
    (conversationsSnapshot <- getDocs_where conversations_c (includes user1Id) ;;;
     match List.find (fun '(_, data) => includes user2Id data) conversationsSnapshot with
     | Some (id, _) => ret id
     | None =>
         now <- Timestamp_now ;;;
         newConversation_id <- addDoc conversations_c
           {| participantIds := [user1Id; user2Id];
              lastMessageText := "";
              updatedAt := now |} ;;;
         ret newConversation_id
     end)
    (fun error =>
       log (console_error "Error getting or creating conversation:" error) ;;;
       throw (new_Error "Failed to start conversation. Please try again.")).

Definition sendMessage (conversationId senderId' text' : string) : M num unit :=
  try_catch
    (now <- Timestamp_now ;;;
     addDoc (messages_c conversationId)
       {| senderId := senderId'; text := text'; createdAt := now |} ;;;
     now' <- Timestamp_now ;;;
     updateDoc conversations_c conversationId
       (fun c => {| participantIds := participantIds c;
                    lastMessageText := text';
                    updatedAt := now' |}))
    (fun error =>
       log (console_error "Error sending message:" error) ;;;
       throw (new_Error "Failed to send message. Please try again.")).

End Service.

Arguments ListingPatch num : clear implicits.

(** ** services/geoService.ts: the mock geocoder *)

Module MockGeo.

(** [toLowerCase] on the ASCII letters; other characters are kept.  (No
    character outside ASCII lower-cases to a letter of the two city names.) *)
Definition toLowerCase_char (c : ascii) : ascii :=
  let n := N_of_ascii c in
  if (65 <=? n)%N && (n <=? 90)%N then ascii_of_N (n + 32) else c.

Fixpoint toLowerCase (s : string) : string :=
  match s with
  | EmptyString => EmptyString
  | String c s' => String (toLowerCase_char c) (toLowerCase s')
  end.

(** [s.includes(sub)] *)
Fixpoint String_includes (s sub : string) : bool :=
  String.prefix sub s ||
  match s with
  | EmptyString => false
  | String _ s' => String_includes s' sub
  end.

Section WithNumbers.
Context {num : Type} `{JsNumber num}.

Definition London : GeoPoint num :=
  {| latitude := lit 515074 4; longitude := lit (-1278) 4 |}.
Definition Manchester : GeoPoint num :=
  {| latitude := lit 534808 4; longitude := lit (-22426) 4 |}.
Definition Birmingham : GeoPoint num :=
  {| latitude := lit 524862 4; longitude := lit (-18904) 4 |}.

(** The promise [geocode] returns, settled. *)
Definition geocode (postcode : string) : result (GeoPoint num) :=
  if String_includes (toLowerCase postcode) "london" then Ok London
  else if String_includes (toLowerCase postcode) "manchester" then Ok Manchester
  else Ok Birmingham.

End WithNumbers.
End MockGeo.

(** ** components/MapView.tsx *)

Module MapView.
Section WithNumbers.
Context {num : Type} `{JsNumber num}.

(** The component's state; a filter set to ['all'] is [None]. *)
Record State := mkState {
  listings : list (Listing num);
  filteredListings : list (Listing num);
  center : GeoPoint num;
  searchQuery : string;
  isLoading : bool;
  error : option string;
  categoryFilter : option Category;
  listingTypeFilter : option ListingType;
  postTypeFilter : option PostType;
}.

Definition initialState : State :=
  {| listings := []; filteredListings := [];
     center := {| latitude := lit 515074 4; longitude := lit (-1278) 4 |};
     searchQuery := "London"; isLoading := true; error := None;
     categoryFilter := None; listingTypeFilter := None;
     postTypeFilter := Some OFFER |}.

(** The third filter's callback:
    [l.postType !== PostType.OFFER || l.listingType === listingTypeFilter] *)
Definition listingTypeTest (f : ListingType) (l : Listing num) : bool :=
  negb (bool_decide (postType l = OFFER)) || bool_decide (listingType l = f).

(** The body of the filtering effect: the value given to
    [setFilteredListings]. *)
Definition applyFilters (listings : list (Listing num))
    (postTypeFilter : option PostType) (categoryFilter : option Category)
    (listingTypeFilter : option ListingType) : list (Listing num) :=
  let result := listings in
  let result :=
    match postTypeFilter with
    | Some f => List.filter (fun l : Listing num => bool_decide (postType l = f)) result
    | None => result
    end in
  let result :=
    match categoryFilter with
    | Some f => List.filter (fun l : Listing num => bool_decide (category l = f)) result
    | None => result
    end in
  let result :=
    match listingTypeFilter with
    | Some f => List.filter (listingTypeTest f) result
    | None => result
    end in
  result.

Definition filterEffect (s : State) : State :=
  {| listings := listings s;
     filteredListings :=
       applyFilters (listings s) (postTypeFilter s) (categoryFilter s) (listingTypeFilter s);
     center := center s; searchQuery := searchQuery s; isLoading := isLoading s;
     error := error s; categoryFilter := categoryFilter s;
     listingTypeFilter := listingTypeFilter s; postTypeFilter := postTypeFilter s |}.

(** [handleSearch], over the geocoder it imports. *)
Definition handleSearch (geocode : string -> result (GeoPoint num)) (s : State) : State :=
  if bool_decide (searchQuery s = "") then s
  else
    match geocode (searchQuery s) with
    | Ok newLocation =>
        {| listings := listings s; filteredListings := filteredListings s;
           center := newLocation; searchQuery := searchQuery s; isLoading := true;
           error := error s; categoryFilter := categoryFilter s;
           listingTypeFilter := listingTypeFilter s; postTypeFilter := postTypeFilter s |}
    | Throw _ =>
        {| listings := listings s; filteredListings := filteredListings s;
           center := center s; searchQuery := searchQuery s; isLoading := false;
           error := Some "Could not find that location. Please try another.";
           categoryFilter := categoryFilter s;
           listingTypeFilter := listingTypeFilter s; postTypeFilter := postTypeFilter s |}
    end.

End WithNumbers.
End MapView.

(** ** IEEE 754 binary64: the numbers of the code *)

(** ECMAScript leaves [Math.sin], [Math.cos] and [Math.atan2] to the engine
    ("an implementation-approximated Number value"), except at some
    arguments, where it fixes the result: [Math.sin(+0)] is [+0],
    [Math.cos(+0)] is [1], and [Math.atan2(+0, x)] is [+0] for [x > 0]. *)
Class MathLib := {
  js_sin : float -> float;
  js_cos : float -> float;
  js_atan2 : float -> float -> float;
  js_sin_0 : js_sin 0%float = 0%float;
  js_cos_0 : js_cos 0%float = 1%float;
  js_atan2_0 : forall x : float, (0 <? x)%float = true -> js_atan2 0%float x = 0%float;
}.

(** The integer [z] as a number; exact below 2^53. *)
Definition Z2float (z : Z) : float :=
  match z with
  | Z0 => 0%float
  | Zpos _ => of_uint63 (Uint63.of_Z z)
  | Zneg p => (- of_uint63 (Uint63.of_Z (Zpos p)))%float
  end.

(** [Math.PI] *)
Definition PI64 : float := 0x1.921fb54442d18p+1%float.

(** A decimal literal denotes the nearest number, which is what the
    division of [m] by [10^e] rounds to while both are exact (a literal of
    the code has at most six digits).  The arithmetic operations, the square
    root and the comparison are those of IEEE 754, rounding to nearest;
    [x <= y] is false when a NaN is involved. *)
#[global] Instance Float_JsNumber `{MathLib} : JsNumber float := {
  lit m e := (Z2float m / Z2float (10 ^ Z.of_nat e))%float;
  add := PrimFloat.add;
  sub := PrimFloat.sub;
  mul := PrimFloat.mul;
  div := PrimFloat.div;
  Math_PI := PI64;
  Math_sin := js_sin;
  Math_cos := js_cos;
  Math_sqrt := PrimFloat.sqrt;
  Math_atan2 := js_atan2;
  le_num := PrimFloat.leb;
}.

(** ** services/geoService.ts: the Nominatim geocoder *)

Module Nominatim.

(** One entry of the answer of the search API. *)
Record Place := mkPlace { lat : string; lon : string }.

(** What [response.json()] settles to: a rejection, [null] or an array. *)
Inductive Json :=
  | json_rejects (e : JsError)
  | json_null
  | json_array (data : list Place).

(** What [fetch] settles to: a rejection, or a response with its [ok] flag
    and its body. *)
Inductive Fetched :=
  | fetch_rejects (e : JsError)
  | fetch_response (ok : bool) (body : Json).

Section WithNumbers.
Context {num : Type}.
Variable parseFloat : string -> num.
Variable encodeURIComponent : string -> string.
Variable fetch : string -> Fetched.

Definition url (query : string) : string :=
  "https://nominatim.openstreetmap.org/search?format=json&q=" +:+
  encodeURIComponent query +:+ "&limit=1".

Definition geocode (query : string) : M num (GeoPoint num) :=
  try_catch
    (match fetch (url query) with
     | fetch_rejects e => throw e
     | fetch_response ok body =>
         if negb ok then throw (new_Error "Geocoding request failed")
         else
           match body with
           | json_rejects e => throw e
           | json_null => throw (new_Error "Location not found")
           | json_array [] => throw (new_Error "Location not found")
           | json_array (result :: _) =>
               ret {| latitude := parseFloat (lat result);
                      longitude := parseFloat (lon result) |}
           end
     end)
    (fun error =>
       log (console_error "Geocoding error:" error) ;;;
       throw (new_Error "Failed to geocode location. Please try a different search term.")).

End WithNumbers.
End Nominatim.

(** ** components/MapView.tsx: fetching and deleting

    In the handlers of the components, [err instanceof Error ? err.message :
    fallback] is [err_message err]: every value thrown in this model is an
    [Error], so the fallback text is never shown. *)

Module MapViewActions.
Section WithNumbers.
Context {num : Type} `{JsNumber num} `{Vendor}.
Import MapView.

Local Abbreviation State := (@MapView.State num).

Definition setListings (v : list (Listing num)) (s : State) : State :=
  {| listings := v; filteredListings := filteredListings s; center := center s;
     searchQuery := searchQuery s; isLoading := isLoading s; error := error s;
     categoryFilter := categoryFilter s; listingTypeFilter := listingTypeFilter s;
     postTypeFilter := postTypeFilter s |}.

Definition setIsLoading (v : bool) (s : State) : State :=
  {| listings := listings s; filteredListings := filteredListings s; center := center s;
     searchQuery := searchQuery s; isLoading := v; error := error s;
     categoryFilter := categoryFilter s; listingTypeFilter := listingTypeFilter s;
     postTypeFilter := postTypeFilter s |}.

Definition setError (v : option string) (s : State) : State :=
  {| listings := listings s; filteredListings := filteredListings s; center := center s;
     searchQuery := searchQuery s; isLoading := isLoading s; error := v;
     categoryFilter := categoryFilter s; listingTypeFilter := listingTypeFilter s;
     postTypeFilter := postTypeFilter s |}.

Definition fetchListings (location : GeoPoint num) (s : State) : M num State :=
  let s := setError None (setIsLoading true s) in
  s <- try_catch
         (nearbyListings <- getNearbyListings location (lit 15 0) ;;;
          ret (setListings nearbyListings s))
         (fun err => ret (setError (Some "Failed to fetch listings. Please try again.") s)) ;;;
  ret (setIsLoading false s).

(** [handleDelete] of a marker; [confirmed] is the answer to
    [window.confirm].  The second component is the text given to [alert],
    if any. *)
Definition handleDelete (confirmed : bool) (listing : Listing num) (s : State)
    : M num (State * option string) :=
  if negb confirmed then ret (s, None)
  else
    try_catch
      (deleteListing (listing_id listing) ;;;
       s <- fetchListings (center s) s ;;;
       ret (s, None))
      (fun error => ret (s, Some (err_message error))).

End WithNumbers.
End MapViewActions.

(** ** components/IsoBoard.tsx *)

Module IsoBoard.
Section WithNumbers.
Context {num : Type} `{JsNumber num} `{Vendor}.

(** The component's state and, last, the texts given to [alert]. *)
Record State := mkState {
  requests : list (Listing num);
  isLoading : bool;
  error : option string;
  sendingMessageId : option string;
  alerts : list string;
}.

Definition fetchRequests (s : State) : M num State :=
  let s := {| requests := requests s; isLoading := true; error := None;
              sendingMessageId := sendingMessageId s; alerts := alerts s |} in
  s <- try_catch
         (allListings <- getNearbyListings {| latitude := lit 0 0; longitude := lit 0 0 |}
                           (lit 20000 0) ;;;
          let isoRequests :=
            List.filter (fun l : Listing num => bool_decide (postType l = REQUEST))
              allListings in
          ret {| requests := isoRequests; isLoading := isLoading s; error := error s;
                 sendingMessageId := sendingMessageId s; alerts := alerts s |})
         (fun err =>
            ret {| requests := requests s; isLoading := isLoading s;
                   error := Some "Failed to load requests.";
                   sendingMessageId := sendingMessageId s; alerts := alerts s |}) ;;;
  ret {| requests := requests s; isLoading := false; error := error s;
         sendingMessageId := sendingMessageId s; alerts := alerts s |}.

Definition alert (msg : string) (s : State) : State :=
  {| requests := requests s; isLoading := isLoading s; error := error s;
     sendingMessageId := sendingMessageId s; alerts := alerts s ++ [msg] |}.

Definition setSendingMessageId (v : option string) (s : State) : State :=
  {| requests := requests s; isLoading := isLoading s; error := error s;
     sendingMessageId := v; alerts := alerts s |}.

Definition handleHelp (user : option User) (request : Listing num) (s : State)
    : M num State :=
  match user with
  | None => ret (alert "Please sign in to send messages" s)
  | Some user =>
      if bool_decide (user_id user = userId request)
      then ret (alert "You cannot message yourself!" s)
      else
        let s := setSendingMessageId (Some (listing_id request)) s in
        s <- try_catch
               (convoId <- getOrCreateConversation (user_id user) (userId request) ;;;
                sendMessage convoId (user_id user)
                  ("Hi, I can help with your request for: " +:+ title request) ;;;
                ret (alert
                  "Message sent! They will be able to see your message in their conversations."
                  s))
               (fun error => ret (alert (err_message error) s)) ;;;
        ret (setSendingMessageId None s)
  end.

End WithNumbers.
End IsoBoard.

(** ** components/NewListingForm.tsx and components/EditListingForm.tsx *)

Module NewListingForm.
Section WithNumbers.
Context {num : Type} `{JsNumber num} `{Vendor}.

(** The geocoder the form imports. *)
Variable geocode : string -> M num (GeoPoint num).

Record State := mkState {
  title : string;
  description : string;
  postType : PostType;
  listingType : ListingType;
  category : Category;
  quantity : string;
  locationName : string;
  imageFile : option File;
  isLoading : bool;
  error : option string;
}.

Definition setStatus (loading : bool) (err : option string) (s : State) : State :=
  {| title := title s; description := description s; postType := postType s;
     listingType := listingType s; category := category s; quantity := quantity s;
     locationName := locationName s; imageFile := imageFile s;
     isLoading := loading; error := err |}.

(** The object given to [createListing]: the fields of the form, the URL of
    the uploaded image, the id of the user and the geocoded point. *)
Definition listingData (user : User) (s : State) (imageUrl : string)
    (geoPoint : GeoPoint num) : ListingData num :=
  mkListingData (title s) (description s) (postType s) (listingType s) (category s)
    (quantity s) imageUrl (user_id user) geoPoint (locationName s).

(** [handleSubmit]; the second component tells whether [onListingCreated]
    was called. *)
Definition handleSubmit (user : User) (s : State) : M num (State * bool) :=
  match imageFile s with
  | None =>
      ret (setStatus (isLoading s) (Some "Please fill all fields and add an image.") s,
           false)
  | Some imageFile =>
      let s := setStatus true None s in
      r <- try_catch
             (geoPoint <- geocode (locationName s) ;;;
              imageUrl <- uploadImage imageFile ;;;
              createListing (listingData user s imageUrl geoPoint) ;;;
              ret (s, true))
             (fun err =>
                log (console_error "" err) ;;;
                ret (setStatus (isLoading s) (Some "An error occurred. Please try again.") s,
                     false)) ;;;
      ret (setStatus false (error r.1) r.1, r.2)
  end.

End WithNumbers.
End NewListingForm.

Module EditListingForm.
Section WithNumbers.
Context {num : Type} `{JsNumber num} `{Vendor}.

Variable geocode : string -> M num (GeoPoint num).

Record State := mkState {
  title : string;
  description : string;
  postType : PostType;
  listingType : ListingType;
  category : Category;
  quantity : string;
  locationName : string;
  isLoading : bool;
  error : option string;
}.

Definition setStatus (loading : bool) (err : option string) (s : State) : State :=
  {| title := title s; description := description s; postType := postType s;
     listingType := listingType s; category := category s; quantity := quantity s;
     locationName := locationName s; isLoading := loading; error := err |}.

(** The fields given to [updateListing]: no [imageUrl], no [userId]. *)
Definition patch (s : State) (geoPoint : GeoPoint num) : ListingPatch num :=
  {| p_title := Some (title s); p_description := Some (description s);
     p_postType := Some (postType s); p_listingType := Some (listingType s);
     p_category := Some (category s); p_quantity := Some (quantity s);
     p_imageUrl := None; p_userId := None;
     p_location := Some geoPoint; p_locationName := Some (locationName s) |}.

(** [handleSubmit]; the second component tells whether [onListingUpdated]
    was called. *)
Definition handleSubmit (listingId : string) (s : State) : M num (State * bool) :=
  let s := setStatus true None s in
  r <- try_catch
         (geoPoint <- geocode (locationName s) ;;;
          updateListing listingId (patch s geoPoint) ;;;
          ret (s, true))
         (fun err =>
            log (console_error "" err) ;;;
            ret (setStatus (isLoading s) (Some "An error occurred. Please try again.") s,
                 false)) ;;;
  ret (setStatus false (error r.1) r.1, r.2).

End WithNumbers.
End EditListingForm.

(** ** components/Auth.tsx and App.tsx *)

Module Auth.
Section WithNumbers.
Context {num : Type} `{Vendor}.

Record State := mkState {
  isSignUp : bool;
  email : string;
  password : string;
  displayName : string;
  isLoading : bool;
  error : string;
}.

Definition setStatus (loading : bool) (err : string) (s : State) : State :=
  {| isSignUp := isSignUp s; email := email s; password := password s;
     displayName := displayName s; isLoading := loading; error := err |}.

(** [handleLogin] and [handleSignUp]; the second component is the user
    given to [onLogin], if it was called. *)
Definition handleLogin (s : State) : M num (State * option User) :=
  let s := setStatus true "" s in
  r <- try_catch
         (user <- signIn (email s) (password s) ;;;
          ret (s, Some user))
         (fun err => ret (setStatus (isLoading s) (err_message err) s, None)) ;;;
  ret (setStatus false (error r.1) r.1, r.2).

Definition handleSignUp (s : State) : M num (State * option User) :=
  let s := setStatus true "" s in
  r <- try_catch
         (user <- signUp (email s) (password s) (displayName s) ;;;
          ret (s, Some user))
         (fun err => ret (setStatus (isLoading s) (err_message err) s, None)) ;;;
  ret (setStatus false (error r.1) r.1, r.2).

End WithNumbers.
End Auth.

Module App.
Section WithNumbers.
Context {num : Type} `{Vendor}.

(** [handleSignOut], on the [user] of the state: there is no [try] around
    the call. *)
Definition handleSignOut (user : option User) : M num (option User) :=
  signOut ;;;
  ret None.

End WithNumbers.
End App.

(** ** components/Profile.tsx *)

Module Profile.
Section WithNumbers.
Context {num : Type} `{JsNumber num} `{Vendor}.

Record State := mkState {
  listings : list (Listing num);
  isLoading : bool;
  error : option string;
}.

Definition fetchUserListings (user : User) (s : State) : M num State :=
  let s := {| listings := listings s; isLoading := true; error := None |} in
  s <- try_catch
         (userListings <- getListingsForUser (user_id user) ;;;
          ret {| listings := userListings; isLoading := isLoading s; error := error s |})
         (fun err =>
            ret {| listings := listings s; isLoading := isLoading s;
                   error := Some (err_message err) |}) ;;;
  ret {| listings := listings s; isLoading := false; error := error s |}.

End WithNumbers.
End Profile.

(** ** components/MessagesView.tsx: the age of a message *)

Module MessagesView.
Section WithLocale.

(** [date.toLocaleDateString('en-GB', { day: 'numeric', month: 'short' })],
    on the milliseconds of the date. *)
Variable toLocaleDateString : Z -> string.

(** [formatTimestamp]: [timestamp] is the time of the message in
    milliseconds, [None] when there is none; [now] is [new Date().getTime()]. *)
Definition formatTimestamp (timestamp : option Z) (now : Z) : string :=
  match timestamp with
  | None => ""
  | Some date =>
      let diff := (now - date)%Z in
      if (diff <? 60000)%Z then "Just now"
      else if (diff <? 3600000)%Z then
        let minutes := (diff / 60000)%Z in
        pretty minutes +:+ "m ago"
      else if (diff <? 86400000)%Z then
        let hours := (diff / 3600000)%Z in
        pretty hours +:+ "h ago"
      else if (diff <? 604800000)%Z then
        let days := (diff / 86400000)%Z in
        pretty days +:+ "d ago"
      else toLocaleDateString date
  end.

End WithLocale.
End MessagesView.

(** * Vocabulary of the statements *)

Section Vocabulary.
Context {num : Type} `{JsNumber num} `{Vendor}.

(** ** Worlds and runs *)

(** No reply to come carries a fault. *)
Definition no_faults (w : World num) : Prop :=
  Forall (fun r => fault r = None) (replies w).

(** The fault of the next reply, if any. *)
Definition first_fault (w : World num) : option JsError :=
  match replies w with
  | [] => None
  | r :: _ => fault r
  end.

(** The world after one vendor call. *)
Definition tick (w : World num) : World num :=
  match replies w with
  | [] => w
  | r :: rs => {| db := db w; console := console w;
                  clock := (clock w + elapsed r)%N; replies := rs |}
  end.

Definition with_db (d : Firestore num) (w : World num) : World num :=
  {| db := d; console := console w; clock := clock w; replies := replies w |}.

Definition logged (entry : LogEntry) (w : World num) : World num :=
  {| db := db w; console := console w ++ [entry]; clock := clock w; replies := replies w |}.

(** How a guarded function ends when its body throws [e]: the error is
    logged under [label] and a new one with [msg] is thrown. *)
Definition failed {A} (label msg : string) (e : JsError) (w : World num)
    : result A * World num :=
  (Throw (new_Error msg), logged (console_error label e) w).

Definition not_found : JsError :=
  {| err_code := Some "not-found"; err_message := "No document to update" |}.

(** ** Error reports *)

(** Every message a function of the Firebase-backed service layer throws. *)
Definition userMessages : list string :=
  [ "Invalid email or password"; "Invalid email address";
    "This account has been disabled";
    "Too many failed login attempts. Please try again later";
    "Failed to sign in. Please try again"; "Failed to sign out";
    "Email is already registered"; "Password should be at least 6 characters";
    "Failed to create account. Please try again";
    "Failed to upload image. Please try again.";
    "Failed to create listing. Please try again.";
    "Failed to fetch listings. Please try again.";
    "Failed to fetch gallery posts. Please try again.";
    "Failed to fetch your listings. Please try again.";
    "Failed to delete listing. Please try again.";
    "Failed to update listing. Please try again.";
    "Failed to start conversation. Please try again.";
    "Failed to send message. Please try again." ].

(** A run either succeeds or throws a new [Error] (no code) with one of the
    messages, the last line on the console being a [console.error]. *)
Definition reports {A} (out : result A * World num) : Prop :=
  match out with
  | (Ok _, _) => True
  | (Throw e, w') =>
      (exists msg, e = new_Error msg /\ msg ∈ userMessages) /\
      exists label cause, last (console w') = Some (console_error label cause)
  end.

(** ** Conversations and messages *)

(** The first conversation of the store, in snapshot order, that holds both
    ids. *)
Definition existing (a b : string) (m : gmap string ConversationDoc)
    : option (string * ConversationDoc) :=
  List.find (fun '(_, data) => includes a data && includes b data) (map_to_list m).

Definition newConversation (a b : string) (now : N) : ConversationDoc :=
  {| participantIds := [a; b]; lastMessageText := ""; updatedAt := now |}.

Definition newMessage (senderId' text' : string) (now : N) : MessageDoc :=
  {| senderId := senderId'; text := text'; createdAt := now |}.

Definition touched (text' : string) (now : N) (c : ConversationDoc) : ConversationDoc :=
  {| participantIds := participantIds c; lastMessageText := text'; updatedAt := now |}.

(** ** Listings *)

(** What identifies a listing: its id and its stored fields. *)
Definition key (l : Listing num) : string * ListingData num :=
  (listing_id l, listing_data l).

Definition doc_key (d : string * ListingDoc num) : string * ListingData num :=
  (d.1, doc_data d.2).

Definition doc_within (center : GeoPoint num) (radiusInKm : num)
    (d : string * ListingDoc num) : bool :=
  withinRadius center radiusInKm (location (doc_data d.2)).

(** The body of the loop of [getNearbyListings]. *)
Definition nearbyBody (center : GeoPoint num) (radiusInKm : num)
    : string * ListingDoc num -> list (Listing num) -> M num (list (Listing num)) :=
  fun '(id, docSnapshot) listings =>
    let data := doc_data docSnapshot in
    if withinRadius center radiusInKm (location data) then
      user <- fetchUser_if "Could not fetch user data for listing:" (userId data) ;;;
      ret (listings ++ [listingOf id data user])
    else ret listings.

Definition isRequest (l : Listing num) : bool := bool_decide (postType l = REQUEST).

(** What the deal-type test decides, by post type. *)
Definition dealTypeTest (f : ListingType) (l : Listing num) : bool :=
  match postType l with
  | REQUEST => true
  | OFFER => bool_decide (listingType l = f)
  end.

End Vocabulary.

(** A case-insensitive substring match: some substring of [q] and [city] have
    the same lower-casing. *)
Definition contains_ignoring_case (q city : string) : Prop :=
  exists pre mid post,
    q = pre +:+ mid +:+ post /\ MockGeo.toLowerCase mid = MockGeo.toLowerCase city.

(** ** Sample data *)

Module Sample.

Definition vendor : Vendor :=
  {| credential email _ :=
       {| uid := "uid-" +:+ email; fb_email := Some email; fb_displayName := None |};
     downloadURL path := "https://storage.example/" +:+ path |}.

(** A Math library that answers where ECMAScript fixes the answer, and at
    two further arguments what the engines in use answer:
    [Math.sin(Math.PI / 2)] is [1] and [Math.atan2(1, 0)] is [Math.PI / 2].
    Elsewhere it gives no number. *)
Definition sin_table (x : float) : float :=
  if PrimFloat.Leibniz.eqb x 0 then 0
  else if PrimFloat.Leibniz.eqb x (PI64 / 2) then 1
  else nan.

Definition cos_table (x : float) : float :=
  if PrimFloat.Leibniz.eqb x 0 then 1 else nan.

Definition atan2_table (y x : float) : float :=
  if PrimFloat.Leibniz.eqb y 0 && (0 <? x)%float then 0
  else if PrimFloat.Leibniz.eqb y 1 && PrimFloat.Leibniz.eqb x 0 then PI64 / 2
  else nan.

Definition math : MathLib.
Proof.
  refine {| js_sin := sin_table; js_cos := cos_table; js_atan2 := atan2_table;
            js_sin_0 := eq_refl; js_cos_0 := eq_refl |}.
  intros x Hx. unfold atan2_table. rewrite Hx. reflexivity.
Defined.

Definition emptyStore : Firestore float :=
  {| users := ∅; listings := ∅; gallery := ∅; conversations := ∅; messages := ∅ |}.

(** One conversation, between alice and bob. *)
Definition chatStore : Firestore float :=
  {| users := ∅; listings := ∅; gallery := ∅;
     conversations :=
       {[ "c1" := {| participantIds := ["alice"; "bob"];
                     lastMessageText := "hi"; updatedAt := 5%N |} ]};
     messages := ∅ |}.

Definition world (d : Firestore float) (rs : list Reply) : World float :=
  {| db := d; console := []; clock := 1000%N; replies := rs |}.

Definition emailInUse : JsError :=
  {| err_code := Some "auth/email-already-in-use";
     err_message := "Firebase: Error (auth/email-already-in-use)." |}.

Definition unavailable : JsError :=
  {| err_code := Some "unavailable"; err_message := "The service is unavailable" |}.

(** Latitude 0, longitude 0, and the point opposite to it. *)
Definition origin : GeoPoint float := {| latitude := 0%float; longitude := 0%float |}.
Definition antipode : GeoPoint float := {| latitude := 0%float; longitude := 180%float |}.

Definition denim (p : GeoPoint float) : ListingData float :=
  {| title := "Box of Denim Scraps"; description := "Various sizes of blue denim";
     postType := OFFER; listingType := FREE; category := DENIM; quantity := "5kg box";
     imageUrl := "https://picsum.photos/seed/denim/600/400"; userId := "user1";
     location := p; locationName := "Central London" |}.

Definition denimListing (p : GeoPoint float) : Listing float :=
  {| listing_id := "listing1"; listing_data := denim p; user := None |}.

End Sample.

(** ** More vocabulary: profiles, worlds after several calls, invariants *)

Section Vocabulary2.
Context {num : Type} `{JsNumber num} `{Vendor}.

(** The user a listing function attaches: the profile stored under the id. *)
Definition profile (m : gmap string UserDoc) (id : string) : option User :=
  (fun userData => {| user_id := id; user_email := ud_email userData;
                      user_displayName := ud_displayName userData |}) <$> m !! id.

(** The same under [if (data.userId)]. *)
Definition profile_if (m : gmap string UserDoc) (id : string) : option User :=
  if bool_decide (id = "") then None else profile m id.

(** The world after [n] vendor calls. *)
Fixpoint ticks (n : nat) (w : World num) : World num :=
  match n with
  | O => w
  | S n => ticks n (tick w)
  end.

(** Two distinct users share at most one conversation. *)
Definition unique_conversations (m : gmap string ConversationDoc) : Prop :=
  forall (a b i j : string) (c d : ConversationDoc),
    a <> b -> m !! i = Some c -> m !! j = Some d ->
    a ∈ participantIds c -> b ∈ participantIds c ->
    a ∈ participantIds d -> b ∈ participantIds d ->
    i = j.

(** A computation that never changes the document store. *)
Definition readonly {A} (c : M num A) : Prop :=
  forall w, db (c w).2 = db w.

(** A computation that changes the document store only if it succeeds. *)
Definition all_or_nothing {A} (c : M num A) : Prop :=
  forall w, match c w with
            | (Throw _, w') => db w' = db w
            | (Ok _, _) => True
            end.

Definition never_throws {A} (c : M num A) : Prop :=
  forall w, exists a, (c w).1 = Ok a.

(** The listing a fetch function builds from a document when every profile
    read succeeds. *)
Definition listingOfDoc (m : gmap string UserDoc) (d : string * ListingDoc num)
    : Listing num :=
  listingOf d.1 (doc_data d.2) (profile_if m (userId (doc_data d.2))).

(** The gallery post [getGalleryPosts] builds from a document when the
    profile read succeeds, and a post with its user left out. *)
Definition postOfDoc (m : gmap string UserDoc) (d : string * GalleryDoc) : GalleryPost :=
  {| gallery_id := d.1; gallery_title := gd_title d.2; gallery_imageUrl := gd_imageUrl d.2;
     gallery_userId := gd_userId d.2; gallery_user := profile_if m (gd_userId d.2);
     originalListingId := gd_originalListingId d.2 |}.

Definition withoutUser (p : GalleryPost) : GalleryPost :=
  {| gallery_id := gallery_id p; gallery_title := gallery_title p;
     gallery_imageUrl := gallery_imageUrl p; gallery_userId := gallery_userId p;
     gallery_user := None; originalListingId := originalListingId p |}.

(** The array of the mock after [createListing] was called with each of
    [datas] in turn. *)
Definition created (listings : list (Listing num)) (datas : list (ListingData num))
    : list (Listing num) :=
  foldl (fun ls d => (Mock.createListing ls d).2) listings datas.

(** The tests of the first two filters of the map view; a filter set to
    ['all'] passes every listing. *)
Definition passesPostType (f : option PostType) (l : Listing num) : bool :=
  match f with Some p => bool_decide (postType l = p) | None => true end.

Definition passesCategory (f : option Category) (l : Listing num) : bool :=
  match f with Some c => bool_decide (category l = c) | None => true end.

(** The first fault among the next [k] vendor calls, with the world after
    the call that met it. *)
Fixpoint faultWithin (k : nat) (w : World num) : option (JsError * World num) :=
  match k with
  | O => None
  | S k =>
      match first_fault w with
      | Some e => Some (e, tick w)
      | None => faultWithin k (tick w)
      end
  end.

(** A run from [w] that caught [cause]: it logged it with [console.error]
    under [label], last, and threw a new [Error] with [msg]. *)
Definition rethrown {A} (label msg : string) (cause : JsError) (w : World num)
    (out : result A * World num) : Prop :=
  exists w' : World num,
    out = (Throw (new_Error msg), w') /\
    console w' = console w ++ [console_error label cause].

(** The ids the mock gives: listing1, listing2, ... *)
Definition mockIds (n : nat) : list string :=
  (fun i : nat => "listing" +:+ pretty i) <$> seq 1 n.

End Vocabulary2.

(** The message [signIn] gives for a vendor error, and the one [signUp]
    gives. *)
Definition signInMessage (error : JsError) : string :=
  if code_is error "auth/user-not-found" || code_is error "auth/wrong-password"
  then "Invalid email or password"
  else if code_is error "auth/invalid-email" then "Invalid email address"
  else if code_is error "auth/user-disabled" then "This account has been disabled"
  else if code_is error "auth/too-many-requests"
  then "Too many failed login attempts. Please try again later"
  else "Failed to sign in. Please try again".

Definition signUpMessage (error : JsError) : string :=
  if code_is error "auth/email-already-in-use" then "Email is already registered"
  else if code_is error "auth/invalid-email" then "Invalid email address"
  else if code_is error "auth/weak-password"
  then "Password should be at least 6 characters"
  else "Failed to create account. Please try again".

(** The ids that name a document of a collection.  [doc] and [collection]
    of the SDK throw on the empty id, and an id with a slash names another
    path; the store of the model stands for the code's on these ids. *)
Fixpoint hasSlash (s : string) : bool :=
  match s with
  | EmptyString => false
  | String c s' => bool_decide (c = "/"%char) || hasSlash s'
  end.

Definition validId (id : string) : bool :=
  negb (bool_decide (id = "")) && negb (hasSlash id).

(** Plus or minus zero, in binary64. *)
Definition zeroish (x : float) : Prop := exists s, Prim2SF x = S754_zero s.

Module Cases.

Definition silk (p : GeoPoint float) : ListingData float :=
  {| title := "ISO: Silk remnants"; description := "Looking for any color silk pieces";
     postType := REQUEST; listingType := SWAP; category := SILK; quantity := "Any amount";
     imageUrl := "https://picsum.photos/seed/silk/600/400"; userId := "bob";
     location := p; locationName := "Hyde Park Area" |}.

Definition alice : User :=
  {| user_id := "alice"; user_email := "alice@example.com"; user_displayName := "Alice" |}.

(** Bob's request, placed at the antipode, as it is stored and as it is
    fetched. *)
Definition silkDoc : ListingDoc float :=
  {| doc_data := silk Sample.antipode; doc_createdAt := 7%N; doc_updatedAt := None |}.

Definition silkListing : Listing float :=
  {| listing_id := "l1"; listing_data := silk Sample.antipode; user := None |}.

(** A store with that one listing and Bob's profile. *)
Definition listingStore : Firestore float :=
  {| users := {[ "bob" := {| ud_email := "bob@example.com"; ud_displayName := "Bob";
                             ud_createdAt := 1%N |} ]};
     listings := {[ "l1" := silkDoc ]};
     gallery := ∅; conversations := ∅; messages := ∅ |}.

(** A store with Bob's profile and an offer of his at latitude 0,
    longitude 0. *)
Definition nearDoc : ListingDoc float :=
  {| doc_data := silk Sample.origin; doc_createdAt := 3%N; doc_updatedAt := None |}.

Definition nearStore : Firestore float :=
  {| users := {[ "bob" := {| ud_email := "bob@example.com"; ud_displayName := "Bob";
                             ud_createdAt := 1%N |} ]};
     listings := {[ "l0" := nearDoc ]};
     gallery := ∅; conversations := ∅; messages := ∅ |}.

Definition bob : User :=
  {| user_id := "bob"; user_email := "bob@example.com"; user_displayName := "Bob" |}.

(** A store with Bob's profile and one gallery post of his. *)
Definition scarf : GalleryDoc :=
  {| gd_title := "Colorful Wool Scarf"; gd_imageUrl := "https://picsum.photos/seed/scarf/600/800";
     gd_userId := "bob"; gd_originalListingId := Some "l0" |}.

Definition galleryStore : Firestore float :=
  {| users := {[ "bob" := {| ud_email := "bob@example.com"; ud_displayName := "Bob";
                             ud_createdAt := 1%N |} ]};
     listings := ∅; gallery := {[ "g1" := scarf ]}; conversations := ∅; messages := ∅ |}.

(** Two conversations of alice: with bob and with carol. *)
Definition twoChats : Firestore float :=
  {| users := ∅; listings := ∅; gallery := ∅;
     conversations :=
       <["c2" := {| participantIds := ["alice"; "carol"];
                    lastMessageText := ""; updatedAt := 6%N |}]>
         {[ "c1" := {| participantIds := ["alice"; "bob"];
                       lastMessageText := "hi"; updatedAt := 5%N |} ]};
     messages := ∅ |}.

Definition wrongPassword : JsError :=
  {| err_code := Some "auth/wrong-password";
     err_message := "Firebase: Error (auth/wrong-password)." |}.

(** A patch that changes the title only. *)
Definition retitle : ListingPatch float :=
  {| p_title := Some "ISO: Silk, any colour"; p_description := None; p_postType := None;
     p_listingType := None; p_category := None; p_quantity := None; p_imageUrl := None;
     p_userId := None; p_location := None; p_locationName := None |}.

Definition photo : File := {| file_name := "silk.jpg" |}.

(** The sign-up form of Auth, filled in. *)
Definition signUpForm : Auth.State :=
  Auth.mkState true "alice@example.com" "secret1" "Alice" false "".

(** Bob's gallery post as it is fetched. *)
Definition scarfPost : GalleryPost :=
  {| gallery_id := "g1"; gallery_title := "Colorful Wool Scarf";
     gallery_imageUrl := "https://picsum.photos/seed/scarf/600/800";
     gallery_userId := "bob"; gallery_user := Some bob;
     originalListingId := Some "l0" |}.

(** The forms, filled in. *)
Definition newForm : NewListingForm.State :=
  NewListingForm.mkState "Linen offcuts" "Two metres of undyed linen" OFFER FREE OTHER
    "2m" "London" (Some photo) false None.

Definition editForm : EditListingForm.State :=
  EditListingForm.mkState "ISO: Silk, any colour" "Looking for any color silk pieces"
    REQUEST SWAP SILK "Any amount" "London" false None.

Definition board : IsoBoard.State (num := float) :=
  {| IsoBoard.requests := []; IsoBoard.isLoading := true; IsoBoard.error := None;
     IsoBoard.sendingMessageId := None; IsoBoard.alerts := [] |}.

Definition profilePage : Profile.State (num := float) :=
  {| Profile.listings := []; Profile.isLoading := true; Profile.error := None |}.

(** Two answers of the search API: one place, and none; and a reader of the
    two numbers of the first. *)
Definition found : string -> Nominatim.Fetched :=
  fun _ => Nominatim.fetch_response true
             (Nominatim.json_array [ {| Nominatim.lat := "51.5"; Nominatim.lon := "-0.125" |} ]).

Definition notFound : string -> Nominatim.Fetched :=
  fun _ => Nominatim.fetch_response true (Nominatim.json_array []).

(** [encodeURIComponent] where it matters here: on a query with no reserved
    character. *)
Definition unreserved (query : string) : string := query.

Definition readFloat (s : string) : float :=
  if bool_decide (s = "51.5") then 51.5%float
  else if bool_decide (s = "-0.125") then (-0.125)%float
  else nan.

End Cases.

(** * Properties *)

(** ** List helpers *)

Section ListFacts.
Context {A : Type}.
Implicit Types (f g : A -> bool) (l : list A).

Lemma filter_sublist f l : sublist (List.filter f l) l.
Proof.
  induction l as [|x l IH]; simpl; [constructor|].
  destruct (f x); [by apply sublist_skip | by apply sublist_cons].
Qed.

Lemma filter_andb f g l :
  List.filter g (List.filter f l) = List.filter (fun x => f x && g x) l.
Proof.
  induction l as [|x l IH]; simpl; [done|].
  destruct (f x); simpl; [destruct (g x); by rewrite IH | done].
Qed.

Lemma find_filter f g l :
  List.find g (List.filter f l) = List.find (fun x => f x && g x) l.
Proof.
  induction l as [|x l IH]; simpl; [done|].
  destruct (f x) eqn:Ef; simpl; [|exact IH].
  destruct (g x); [done | exact IH].
Qed.

Lemma find_ext' f g l : (forall x, f x = g x) -> List.find f l = List.find g l.
Proof.
  intros E. induction l as [|x l IH]; simpl; [done|]. by rewrite E, IH.
Qed.

End ListFacts.

(** ** The filters of the map view *)

Section MapViewFacts.
Context {num : Type} `{JsNumber num}.
Import MapView.

Lemma listingTypeTest_cases (f : ListingType) (l : Listing num) :
  listingTypeTest f l = dealTypeTest f l.
Proof.
  unfold listingTypeTest, dealTypeTest. by destruct (postType l).
Qed.

Lemma applyFilters_listingType (ls : list (Listing num)) pf cf f :
  applyFilters ls pf cf (Some f) =
  List.filter (listingTypeTest f) (applyFilters ls pf cf None).
Proof. reflexivity. Qed.

Lemma applyFilters_filter (ls : list (Listing num)) pf cf lf :
  applyFilters ls pf cf lf =
  List.filter
    (fun l : Listing num =>
       passesPostType pf l && passesCategory cf l &&
       match lf with Some f => listingTypeTest f l | None => true end) ls.
Proof.
  assert (Hall : forall xs : list (Listing num),
            List.filter (fun _ => true) xs = xs).
  { induction xs as [|x xs IH]; [done|]. cbn. by rewrite IH. }
  unfold applyFilters, passesPostType, passesCategory.
  destruct pf as [p|], cf as [c|], lf as [f|]; rewrite ?filter_andb;
    first [ apply List.filter_ext; intros l; cbn;
            by rewrite ?andb_true_r, ?andb_assoc
          | symmetry; etrans; [|apply Hall]; apply List.filter_ext; by intros l ].
Qed.

(** C4. In the filter pipeline of MapView the deal-type (listingType) filter
    passes every listing whose postType is request, whatever its listingType,
    and compares listingType with the filter value on offers only.  So every
    request of the input that passes the post-type and the category filter
    is retained, in order, whatever the deal-type filter is: with these two
    filters set to all, every request of the input is in the output.  Of the
    offers that pass them, those with the listingType asked for are
    retained. *)
Theorem listingType_filter_ignores_requests
    (ls : list (Listing num)) (pf : option PostType) (cf : option Category) :
  (forall (f : ListingType) (l : Listing num),
      listingTypeTest f l =
      match postType l with
      | REQUEST => true
      | OFFER => bool_decide (listingType l = f)
      end) /\
  (forall lf : option ListingType,
      List.filter isRequest (applyFilters ls pf cf lf) =
      List.filter isRequest (applyFilters ls pf cf None)) /\
  (forall f : ListingType,
      applyFilters ls pf cf (Some f) =
      List.filter (dealTypeTest f) (applyFilters ls pf cf None)) /\
  (forall lf : option ListingType,
      List.filter isRequest (applyFilters ls pf cf lf) =
      List.filter
        (fun l : Listing num => isRequest l && passesPostType pf l && passesCategory cf l)
        ls) /\
  (forall lf : option ListingType,
      List.filter isRequest (applyFilters ls None None lf) = List.filter isRequest ls) /\
  (forall (lf : option ListingType) (l : Listing num),
      l ∈ applyFilters ls pf cf lf /\ postType l = REQUEST <->
      l ∈ ls /\ postType l = REQUEST /\
      passesPostType pf l = true /\ passesCategory cf l = true) /\
  (forall f : ListingType,
      List.filter (fun l : Listing num => negb (isRequest l)) (applyFilters ls pf cf (Some f)) =
      List.filter
        (fun l : Listing num =>
           negb (isRequest l) && passesPostType pf l && passesCategory cf l &&
           bool_decide (listingType l = f))
        ls).
Proof.
  assert (Hreq : forall (q : option PostType) (c : option Category)
                        (lf : option ListingType),
    List.filter isRequest (applyFilters ls q c lf) =
    List.filter
      (fun l : Listing num => isRequest l && passesPostType q l && passesCategory c l) ls).
  { intros q c lf. rewrite applyFilters_filter, filter_andb.
    apply List.filter_ext. intros l. unfold isRequest.
    destruct lf as [f|]; [rewrite listingTypeTest_cases; unfold dealTypeTest|];
      destruct (postType l); cbn;
      destruct (passesPostType q l), (passesCategory c l); cbn;
      rewrite ?andb_false_r, ?andb_true_r; done. }
  split; [|split; [|split; [|split; [|split; [|split]]]]].
  - intros f l. apply listingTypeTest_cases.
  - intros lf. by rewrite !Hreq.
  - intros f. rewrite applyFilters_listingType.
    apply List.filter_ext, listingTypeTest_cases.
  - apply Hreq.
  - intros lf. rewrite Hreq. apply List.filter_ext. intros l.
    by rewrite !andb_true_r.
  - intros lf l.
    assert (Hin : l ∈ List.filter isRequest (applyFilters ls pf cf lf) <->
                  l ∈ applyFilters ls pf cf lf /\ postType l = REQUEST).
    { rewrite !list_elem_of_In, List.filter_In. unfold isRequest.
      by rewrite bool_decide_eq_true. }
    rewrite <- Hin, Hreq, !list_elem_of_In, List.filter_In. unfold isRequest.
    rewrite !andb_true_iff, bool_decide_eq_true. tauto.
  - intros f. rewrite applyFilters_filter, filter_andb.
    apply List.filter_ext. intros l. rewrite listingTypeTest_cases.
    unfold dealTypeTest, isRequest.
    destruct (postType l); cbn;
      destruct (passesPostType pf l), (passesCategory cf l); cbn;
      rewrite ?andb_false_r, ?andb_true_r; done.
Qed.

End MapViewFacts.

(** ** The mock geocoder *)

Section StringFacts.
Import MockGeo.

Lemma prefix_app (a s : string) :
  String.prefix a s = true <-> exists post, s = a +:+ post.
Proof.
  revert s. induction a as [|c a IH]; intros [|d s]; simpl.
  - split; [intros _; by exists EmptyString | reflexivity].
  - split; [intros _; by exists (String d s) | reflexivity].
  - split; [done | intros [? [=]]].
  - destruct (Ascii.ascii_dec c d) as [->|Hne].
    + rewrite IH. split; intros [post E]; exists post; [by rewrite E | by injection E].
    + split; [done | intros [post [=]]; done].
Qed.

Lemma String_includes_app (s sub : string) :
  String_includes s sub = true <-> exists pre post, s = pre +:+ sub +:+ post.
Proof.
  induction s as [|c s IH]; cbn [String_includes].
  - rewrite orb_false_r, prefix_app. split.
    + intros [post E]. by exists EmptyString, post.
    + intros [pre [post E]]. destruct pre; [by exists post | done].
  - rewrite orb_true_iff, prefix_app, IH. split.
    + intros [[post E] | [pre [post E]]].
      * by exists EmptyString, post.
      * exists (String c pre), post. simpl. by rewrite E.
    + intros [[|d pre] [post E]].
      * left. by exists post.
      * right. exists pre, post. simpl in E. by injection E.
Qed.

Lemma toLowerCase_app (a b : string) :
  toLowerCase (a +:+ b) = toLowerCase a +:+ toLowerCase b.
Proof. induction a as [|c a IH]; simpl; [done | by rewrite IH]. Qed.

Lemma toLowerCase_split (q a b : string) :
  toLowerCase q = a +:+ b ->
  exists qa qb, q = qa +:+ qb /\ toLowerCase qa = a /\ toLowerCase qb = b.
Proof.
  revert q. induction a as [|c a IH]; intros q E; simpl in E.
  - by exists EmptyString, q.
  - destruct q as [|d q]; [done|]. simpl in E. injection E as Ec E.
    destruct (IH q E) as (qa & qb & -> & Ea & Eb).
    exists (String d qa), qb. simpl. by rewrite Ec, Ea.
Qed.

Lemma contains_ignoring_case_includes (q city : string) :
  contains_ignoring_case q city <->
  String_includes (toLowerCase q) (toLowerCase city) = true.
Proof.
  rewrite String_includes_app. split.
  - intros (pre & mid & post & -> & E).
    exists (toLowerCase pre), (toLowerCase post).
    by rewrite !toLowerCase_app, E.
  - intros (pre & post & E).
    destruct (toLowerCase_split _ _ _ E) as (qa & qb & -> & _ & Eb).
    destruct (toLowerCase_split _ _ _ Eb) as (qm & qp & -> & Em & _).
    by exists qa, qm, qp.
Qed.

End StringFacts.

Section GeocodeFacts.
Context {num : Type} `{JsNumber num}.
Import MockGeo.

(** C7. The mock geocoder resolves every query by case-insensitive substring
    match against three cities: a query containing london gives latitude
    51.5074, longitude -0.1278; otherwise one containing manchester gives
    53.4808, -2.2426; otherwise the result is Birmingham, 52.4862, -1.8904. *)
Theorem geocode_three_cities (q : string) :
  (contains_ignoring_case q "london" ->
     geocode q = Ok {| latitude := lit 515074 4; longitude := lit (-1278) 4 |}) /\
  (~ contains_ignoring_case q "london" -> contains_ignoring_case q "manchester" ->
     geocode q = Ok {| latitude := lit 534808 4; longitude := lit (-22426) 4 |}) /\
  (~ contains_ignoring_case q "london" -> ~ contains_ignoring_case q "manchester" ->
     geocode q = Ok {| latitude := lit 524862 4; longitude := lit (-18904) 4 |}).
Proof.
  rewrite !contains_ignoring_case_includes. unfold geocode.
  change (toLowerCase "london") with "london".
  change (toLowerCase "manchester") with "manchester".
  destruct (String_includes (toLowerCase q) "london");
    destruct (String_includes (toLowerCase q) "manchester"); naive_solver.
Qed.

(** C10. The mock geocoder is total and never throws: every query, the
    empty one and those naming no city included, resolves to a point,
    Birmingham unless the lower-cased query includes london or manchester;
    so [handleSearch] over this geocoder never takes
    its failure branch: it never sets the error message, and it either
    returns at once on an empty query or leaves the spinner on. *)
Theorem geocode_total :
  (forall q : string, exists p : GeoPoint num,
      geocode q = Ok p /\ (p = London \/ p = Manchester \/ p = Birmingham)) /\
  geocode "" = Ok Birmingham /\
  (forall q : string,
      geocode q = Ok Birmingham \/
      String_includes (toLowerCase q) "london" = true \/
      String_includes (toLowerCase q) "manchester" = true) /\
  (forall s : MapView.State,
      MapView.error (MapView.handleSearch geocode s) = MapView.error s /\
      (MapView.handleSearch geocode s = s \/
       MapView.isLoading (MapView.handleSearch geocode s) = true)).
Proof.
  assert (Ht : forall q : string, exists p : GeoPoint num,
      geocode q = Ok p /\ (p = London \/ p = Manchester \/ p = Birmingham)).
  { intros q. unfold geocode.
    destruct (String_includes _ "london"); [eauto|].
    destruct (String_includes _ "manchester"); eauto 6. }
  split; [exact Ht|]. split; [reflexivity|]. split.
  { intros q. unfold geocode.
    destruct (String_includes _ "london"); [by right; left|].
    destruct (String_includes _ "manchester"); [by right; right | by left]. }
  intros s. unfold MapView.handleSearch.
  destruct (bool_decide (MapView.searchQuery s = "")); [by split; [|left]|].
  destruct (Ht (MapView.searchQuery s)) as (p & -> & _). simpl. by split; [|right].
Qed.

End GeocodeFacts.


(** ** Runs without vendor failure *)

Section Runs.
Context {num : Type} `{JsNumber num} `{Vendor}.

Lemma vendor_call_ok (w : World num) :
  no_faults w -> vendor_call w = (Ok tt, tick w).
Proof.
  unfold no_faults, vendor_call, tick. destruct (replies w) as [|r rs]; [done|].
  intros Hf. apply Forall_cons in Hf as [-> _]. done.
Qed.

Lemma no_faults_tick (w : World num) : no_faults w -> no_faults (tick w).
Proof.
  unfold no_faults, tick. destruct (replies w) as [|r rs] eqn:E; [by rewrite E|].
  simpl. by intros [_ ?]%Forall_cons.
Qed.

Lemma no_faults_with_db d (w : World num) : no_faults w -> no_faults (with_db d w).
Proof. done. Qed.

Lemma db_tick (w : World num) : db (tick w) = db w.
Proof. unfold tick. by destruct (replies w). Qed.

Lemma console_tick (w : World num) : console (tick w) = console w.
Proof. unfold tick. by destruct (replies w). Qed.

(** *** Conversations *)

Lemma getOrCreateConversation_run (a b : string) (w : World num) :
  no_faults w ->
  getOrCreateConversation a b w =
  match existing a b (conversations (db w)) with
  | Some (id, _) => (Ok id, tick w)
  | None =>
      let id := autoId (conversations (db w)) in
      (Ok id,
       with_db (setDocs conversations_c
                  (<[id := newConversation a b (clock (tick w))]> (conversations (db w)))
                  (db w))
         (tick (tick w)))
  end.
Proof.
  intros Hw. unfold getOrCreateConversation, try_catch, getDocs_where, bind at 1 2 3.
  rewrite (vendor_call_ok w Hw). unfold get_db, ret. rewrite db_tick. simpl docs.
  rewrite find_filter. unfold existing.
  rewrite (find_ext' _ (fun '(_, data) => includes a data && includes b data))
    by (by intros [i d]).
  destruct (List.find _ _) as [[id c]|]; [done|].
  unfold bind, Timestamp_now, addDoc, bind.
  rewrite (vendor_call_ok _ (no_faults_tick _ Hw)).
  unfold get_db, put_db, ret. rewrite !db_tick. reflexivity.
Qed.

Lemma existing_Some a b m id c :
  existing a b m = Some (id, c) ->
  m !! id = Some c /\ a ∈ participantIds c /\ b ∈ participantIds c.
Proof.
  intros [Hin Ht]%List.find_some.
  apply list_elem_of_In, elem_of_map_to_list in Hin.
  apply andb_true_iff in Ht as [Ha Hb].
  by apply bool_decide_eq_true in Ha, Hb.
Qed.

Lemma existing_None a b m id c :
  existing a b m = None -> m !! id = Some c ->
  a ∈ participantIds c -> b ∈ participantIds c -> False.
Proof.
  intros Hn Hl Ha Hb.
  pose proof (List.find_none _ _ Hn (id, c)) as Hf. simpl in Hf.
  unfold includes in Hf. rewrite !bool_decide_eq_true_2 in Hf by done.
  discriminate Hf. by apply list_elem_of_In, elem_of_map_to_list.
Qed.

Lemma existing_sym a b m : existing a b m = existing b a m.
Proof. apply find_ext'. intros [i d]. apply andb_comm. Qed.

Lemma existing_insert a b m id c :
  existing a b m = None -> a ∈ participantIds c -> b ∈ participantIds c ->
  existing a b (<[id := c]> m) = Some (id, c).
Proof.
  intros Hn Ha Hb. destruct (existing a b (<[id := c]> m)) as [[i x]|] eqn:E.
  - apply existing_Some in E as (Hl & Hxa & Hxb).
    destruct (decide (i = id)) as [->|Hne].
    + rewrite lookup_insert_eq in Hl. by injection Hl as ->.
    + rewrite lookup_insert_ne in Hl by done.
      destruct (existing_None _ _ _ _ _ Hn Hl Hxa Hxb).
  - destruct (existing_None a b _ id c E); [apply lookup_insert_eq|done..].
Qed.

Lemma autoId_fresh {D} (m : gmap string D) : m !! autoId m = None.
Proof. apply not_elem_of_dom, is_fresh. Qed.

(** C3. With no vendor failure, getOrCreateConversation queries the
    conversations that contain the first id and scans them for one that also
    contains the second.  If there is one it returns the id of the first such
    and the store is unchanged; otherwise it inserts one conversation under an
    id that was free, with participantIds exactly the two ids in the order
    given and an empty lastMessageText, changes nothing else, and returns the
    new id. *)
Theorem getOrCreateConversation_finds_or_inserts
    (user1Id user2Id : string) (w : World num) :
  no_faults w ->
  exists id w',
    getOrCreateConversation user1Id user2Id w = (Ok id, w') /\
    ((exists c,
        List.find (fun '(_, data) => bool_decide (user2Id ∈ participantIds data))
          (List.filter (fun '(_, data) => bool_decide (user1Id ∈ participantIds data))
             (map_to_list (conversations (db w)))) = Some (id, c) /\
        conversations (db w) !! id = Some c /\
        user1Id ∈ participantIds c /\ user2Id ∈ participantIds c /\
        db w' = db w)
     \/
     ((forall id' c, conversations (db w) !! id' = Some c ->
          ~ (user1Id ∈ participantIds c /\ user2Id ∈ participantIds c)) /\
      conversations (db w) !! id = None /\
      exists now,
        db w' =
          {| users := users (db w); listings := listings (db w);
             gallery := gallery (db w);
             conversations :=
               <[id := {| participantIds := [user1Id; user2Id];
                          lastMessageText := "";
                          updatedAt := now |}]> (conversations (db w));
             messages := messages (db w) |})).
Proof.
  intros Hw. rewrite (getOrCreateConversation_run _ _ _ Hw).
  destruct (existing user1Id user2Id (conversations (db w))) as [[id c]|] eqn:E.
  - exists id, (tick w). split; [done|]. left. exists c.
    destruct (existing_Some _ _ _ _ _ E) as (Hl & Ha & Hb).
    rewrite db_tick. repeat split; try done.
    rewrite find_filter. rewrite <- E. apply find_ext'. by intros [i d].
  - eexists _, _. split; [reflexivity|]. right. split; [|split].
    + intros id' c Hl [Ha Hb]. exact (existing_None _ _ _ _ _ E Hl Ha Hb).
    + apply autoId_fresh.
    + by eexists.
Qed.

(** C2. With no vendor failure and nothing else writing in between, a call
    of getOrCreateConversation with a pair of ids followed by a call with the
    same pair, in the other order or in the same one, returns the same
    conversation id; the later call inserts nothing. *)
Theorem getOrCreateConversation_either_order (a b : string) (w : World num) :
  no_faults w ->
  exists id w1,
    getOrCreateConversation a b w = (Ok id, w1) /\
    (exists w2, getOrCreateConversation b a w1 = (Ok id, w2) /\ db w2 = db w1) /\
    (exists w2, getOrCreateConversation a b w1 = (Ok id, w2) /\ db w2 = db w1).
Proof.
  intros Hw. rewrite (getOrCreateConversation_run a b w Hw).
  destruct (existing a b (conversations (db w))) as [[id c]|] eqn:E.
  - exists id, (tick w). split; [done|].
    pose proof (no_faults_tick _ Hw) as Hw1.
    rewrite !(getOrCreateConversation_run _ _ _ Hw1), <- (existing_sym a b).
    rewrite !db_tick, E. split; exists (tick (tick w)); by rewrite !db_tick.
  - eexists _, _. split; [reflexivity|].
    set (w1 := with_db _ _).
    assert (Hw1 : no_faults w1) by apply no_faults_with_db, no_faults_tick, no_faults_tick, Hw.
    rewrite !(getOrCreateConversation_run _ _ _ Hw1), <- (existing_sym a b).
    assert (E1 : existing a b (conversations (db w1)) =
                 Some (autoId (conversations (db w)),
                       newConversation a b (clock (tick w)))).
    { apply existing_insert; [done| |]; simpl; set_solver. }
    rewrite E1. split; exists (tick w1); by rewrite db_tick.
Qed.

(** *** Sending a message *)

Lemma vendor_call_eq (w : World num) :
  vendor_call w =
  (match first_fault w with Some e => Throw e | None => Ok tt end, tick w).
Proof.
  unfold vendor_call, first_fault, tick. destruct (replies w) as [|r rs]; [done|].
  by destruct (fault r).
Qed.

Lemma addDoc_eq {D} (c : Collection D) (data : D) (w : World num) :
  addDoc c data w =
  match first_fault w with
  | Some e => (Throw e, tick w)
  | None =>
      (Ok (autoId (docs c (db w))),
       with_db (setDocs c (<[autoId (docs c (db w)) := data]> (docs c (db w))) (db w))
         (tick w))
  end.
Proof.
  unfold addDoc, bind. rewrite vendor_call_eq.
  destruct (first_fault w); [done|]. unfold get_db, put_db, ret. by rewrite db_tick.
Qed.

Lemma updateDoc_eq {D} (c : Collection D) (id : string) (f : D -> D) (w : World num) :
  updateDoc c id f w =
  match first_fault w with
  | Some e => (Throw e, tick w)
  | None =>
      match docs c (db w) !! id with
      | None => (Throw {| err_code := Some "not-found";
                          err_message := "No document to update" |}, tick w)
      | Some data =>
          (Ok tt, with_db (setDocs c (<[id := f data]> (docs c (db w))) (db w)) (tick w))
      end
  end.
Proof.
  unfold updateDoc, bind. rewrite vendor_call_eq.
  destruct (first_fault w); [done|]. unfold get_db. rewrite db_tick.
  by destruct (docs c (db w) !! id).
Qed.

Lemma sendMessage_run (conversationId senderId' text' : string) (w : World num) :
  sendMessage conversationId senderId' text' w =
  let fail := failed "Error sending message:" "Failed to send message. Please try again." in
  match first_fault w with
  | Some e => fail e (tick w)
  | None =>
      let old := default ∅ (messages (db w) !! conversationId) in
      let w1 :=
        with_db (setDocs (messages_c conversationId)
                   (<[autoId old := newMessage senderId' text' (clock w)]> old) (db w))
          (tick w) in
      match first_fault w1 with
      | Some e => fail e (tick w1)
      | None =>
          match conversations (db w) !! conversationId with
          | None => fail not_found (tick w1)
          | Some c =>
              (Ok tt,
               with_db (setDocs conversations_c
                          (<[conversationId := touched text' (clock w1) c]>
                             (conversations (db w)))
                          (db w1))
                 (tick w1))
          end
      end
  end.
Proof.
  unfold sendMessage, try_catch, bind, Timestamp_now.
  rewrite addDoc_eq. destruct (first_fault w); [reflexivity|].
  rewrite updateDoc_eq. cbv zeta.
  destruct (first_fault (with_db _ (tick w))); [reflexivity|].
  cbn [db with_db docs setDocs conversations_c messages_c conversations].
  destruct (conversations (db w) !! conversationId); reflexivity.
Qed.

(** C8. When sendMessage succeeds, the conversation existed, exactly one
    message with the given senderId and text (created at the time of the
    call) was added under an id that was free to the messages sub-collection
    of that conversation, and the conversation's lastMessageText is the text
    and its updatedAt the time at which the update was issued; its
    participantIds, every other conversation, every other sub-collection and
    the users, listings and gallery collections are as before.  And it does
    succeed when neither vendor call fails and the conversation exists. *)
Theorem sendMessage_effect (conversationId senderId' text' : string) (w : World num) :
  (forall w' : World num,
     sendMessage conversationId senderId' text' w = (Ok tt, w') ->
     let old := default ∅ (messages (db w) !! conversationId) in
     exists c : ConversationDoc,
       conversations (db w) !! conversationId = Some c /\
       old !! autoId old = None /\
       db w' =
         {| users := users (db w); listings := listings (db w);
            gallery := gallery (db w);
            conversations :=
              <[conversationId := {| participantIds := participantIds c;
                                     lastMessageText := text';
                                     updatedAt := clock (tick w) |}]>
                (conversations (db w));
            messages :=
              <[conversationId := <[autoId old := {| senderId := senderId';
                                                    text := text';
                                                    createdAt := clock w |}]> old]>
                (messages (db w)) |} /\
       (forall id, id <> conversationId ->
          conversations (db w') !! id = conversations (db w) !! id /\
          messages (db w') !! id = messages (db w) !! id) /\
       console w' = console w) /\
  (first_fault w = None -> first_fault (tick w) = None ->
   is_Some (conversations (db w) !! conversationId) ->
   exists w' : World num, sendMessage conversationId senderId' text' w = (Ok tt, w')).
Proof.
  rewrite sendMessage_run. cbv zeta. split.
  - intros w'. destruct (first_fault w); [done|].
    destruct (first_fault (with_db _ _)); [done|].
    destruct (conversations (db w) !! conversationId) as [c|] eqn:Ec; [|done].
    intros [= <-]. exists c. split; [done|]. split; [apply autoId_fresh|].
    split; [reflexivity|]. split.
    + intros id Hne. cbn. split; apply lookup_insert_ne; by intros ->.
    + cbn [console with_db]. rewrite console_tick. apply console_tick.
  - intros -> F2 [c ->].
    replace (first_fault (with_db _ (tick w))) with (first_fault (tick w)) by done.
    rewrite F2. by eexists.
Qed.

End Runs.

(** ** Error handling of the service layer *)

Section ErrorFacts.
Context {num : Type} `{JsNumber num} `{Vendor}.

Lemma try_catch_reports {A} (body : M num A) (handler : JsError -> M num A) label :
  (forall e w, exists msg, msg ∈ userMessages /\
      handler e w = (Throw (new_Error msg), logged (console_error label e) w)) ->
  forall w, reports (try_catch body handler w).
Proof.
  intros Hh w. unfold try_catch. destruct (body w) as [[a|e] w']; [exact I|].
  destruct (Hh e w') as (msg & Hin & ->). split; [by exists msg|].
  exists label, e. simpl. apply last_snoc.
Qed.

Ltac in_messages := rewrite list_elem_of_In; simpl; tauto.

Ltac rethrows :=
  intros ? ?; unfold bind, log, throw; simpl;
  repeat match goal with |- context [if ?b then _ else _] => destruct b end;
  eexists; (split; [|reflexivity]); in_messages.

Lemma fetchUser_returns label userId (w : World num) :
  exists u w', fetchUser label userId w = (Ok u, w').
Proof.
  unfold fetchUser, try_catch, getDoc, bind, vendor_call, get_db, ret, log.
  destruct (replies w) as [|r rs]; simpl; [eauto|].
  destruct (fault r); simpl; eauto.
Qed.

(** Whatever the function and the world, what is thrown is a new Error with
    one of the fixed messages, after a console.error. *)
Lemma every_call_reports :
  (forall email password (w : World num), reports (signIn email password w)) /\
  (forall w : World num, reports (signOut w)) /\
  (forall email password displayName (w : World num),
      reports (signUp email password displayName w)) /\
  (forall file (w : World num), reports (uploadImage file w)) /\
  (forall listingData (w : World num), reports (createListing listingData w)) /\
  (forall center radiusInKm (w : World num),
      reports (getNearbyListings center radiusInKm w)) /\
  (forall w : World num, reports (getGalleryPosts w)) /\
  (forall userId (w : World num), reports (getListingsForUser userId w)) /\
  (forall listingId (w : World num), reports (deleteListing listingId w)) /\
  (forall listingId data (w : World num), reports (updateListing listingId data w)) /\
  (forall user1Id user2Id (w : World num),
      reports (getOrCreateConversation user1Id user2Id w)) /\
  (forall conversationId senderId text (w : World num),
      reports (sendMessage conversationId senderId text w)) /\
  (forall label userId (w : World num),
      exists u w', fetchUser label userId w = (Ok u, w')) /\
  (forall email pass : string,
      Mock.signIn email pass = Throw (new_Error "User not found") \/
      exists u, Mock.signIn email pass = Ok u) /\
  Mock.signOut = Ok tt /\
  (forall seed : string, exists url, Mock.uploadImage seed = Ok url) /\
  (forall (ls : list (Listing num)) data, exists l, (Mock.createListing ls data).1 = Ok l).
Proof.
  repeat match goal with |- _ /\ _ => split end;
    try (intros; eapply try_catch_reports; rethrows).
  - apply fetchUser_returns.
  - intros email pass. unfold Mock.signIn. destruct (List.find _ _); eauto.
  - reflexivity.
  - intros seed. by eexists.
  - intros ls data. by eexists.
Qed.

(** C6. When the vendor's sign-up call fails with the code
    auth/email-already-in-use, signUp logs the error and throws an Error whose
    message is Email is already registered, which is not the fallback
    Failed to create account. Please try again; nothing is stored. *)
Theorem signUp_email_already_in_use email password displayName
    (w : World num) (r : Reply) (rs : list Reply) (e : JsError) :
  replies w = r :: rs ->
  fault r = Some e ->
  err_code e = Some "auth/email-already-in-use" ->
  exists w',
    signUp email password displayName w =
      (Throw (new_Error "Email is already registered"), w') /\
    console w' = console w ++ [console_error "Sign up error:" e] /\
    db w' = db w /\
    new_Error "Email is already registered" <>
      new_Error "Failed to create account. Please try again".
Proof.
  intros Hr Hf Hc.
  unfold signUp, try_catch, bind, createUserWithEmailAndPassword, bind, vendor_call.
  rewrite Hr, Hf. simpl. unfold code_is. rewrite Hc. simpl.
  eexists. split; [reflexivity|]. done.
Qed.

End ErrorFacts.



(** ** The radius filter *)

Section Nearby.
Context {num : Type} `{JsNumber num} `{Vendor}.

Lemma key_listingOf id (data : ListingData num) u : key (listingOf id data u) = (id, data).
Proof. by destruct data. Qed.

Lemma fetchUser_if_returns label userId (w : World num) :
  exists u w', fetchUser_if label userId w = (Ok u, w') /\ db w' = db w.
Proof.
  unfold fetchUser_if. destruct (bool_decide _); [by exists None, w|].
  unfold fetchUser, try_catch, getDoc, bind. rewrite vendor_call_eq.
  destruct (first_fault w); unfold log, get_db, ret; simpl;
    eexists _, _; (split; [reflexivity|]); simpl; apply db_tick.
Qed.

Lemma nearby_loop center radiusInKm (snapshot : list (string * ListingDoc num)) :
  forall (acc : list (Listing num)) (w : World num),
  exists ls w',
    for_of snapshot (nearbyBody center radiusInKm) acc w = (Ok (acc ++ ls), w') /\
    key <$> ls = doc_key <$> List.filter (doc_within center radiusInKm) snapshot /\
    db w' = db w.
Proof.
  induction snapshot as [|[id d] snapshot IH]; intros acc w.
  - exists [], w. by rewrite app_nil_r.
  - cbn [for_of List.filter]. unfold bind at 1, nearbyBody at 1, doc_within at 1.
    cbn [fst snd].
    destruct (withinRadius center radiusInKm (location (doc_data d))).
    + unfold bind at 1.
      destruct (fetchUser_if_returns "Could not fetch user data for listing:"
                  (userId (doc_data d)) w) as (u & w1 & -> & Hdb).
      unfold ret at 1.
      destruct (IH (acc ++ [listingOf id (doc_data d) u]) w1) as (ls & w' & -> & Hk & Hdb').
      exists (listingOf id (doc_data d) u :: ls), w'.
      rewrite <- app_assoc. split; [done|]. split; [|congruence].
      rewrite !fmap_cons, Hk, key_listingOf. done.
    + unfold ret at 1. apply IH.
Qed.

Lemma getDocs_eq {D} (c : Collection D) (w : World num) :
  getDocs c w =
  (match first_fault w with
   | Some e => Throw e
   | None => Ok (map_to_list (docs c (db w)))
   end, tick w).
Proof.
  unfold getDocs, bind. rewrite vendor_call_eq.
  destruct (first_fault w); [done|]. unfold get_db, ret. by rewrite db_tick.
Qed.

Lemma getNearbyListings_run center radiusInKm (w : World num) :
  match first_fault w with
  | Some e =>
      getNearbyListings center radiusInKm w =
        failed "Error fetching nearby listings:"
          "Failed to fetch listings. Please try again." e (tick w)
  | None =>
      exists ls w',
        getNearbyListings center radiusInKm w = (Ok ls, w') /\
        key <$> ls =
          doc_key <$> List.filter (doc_within center radiusInKm)
                        (map_to_list (listings (db w))) /\
        db w' = db w
  end.
Proof.
  change (getNearbyListings center radiusInKm) with
    (try_catch
       (bind (getDocs listings_c)
          (fun snapshot => for_of snapshot (nearbyBody center radiusInKm) []))
       (fun error =>
          log (console_error "Error fetching nearby listings:" error) ;;;
          throw (new_Error "Failed to fetch listings. Please try again."))).
  destruct (first_fault w) eqn:F; unfold try_catch; unfold bind at 1;
    rewrite getDocs_eq, F; [done|].
  cbn [docs listings_c].
  destruct (nearby_loop center radiusInKm (map_to_list (listings (db w))) [] (tick w))
    as (ls & w' & E & Hk & Hdb).
  exists ls, w'. rewrite E. by rewrite Hdb, db_tick.
Qed.


Lemma Mock_getNearbyListings_eq (ls : list (Listing num)) center radiusInKm :
  Mock.getNearbyListings ls center radiusInKm =
  (fun l : Listing num => setUser (Mock.findUser (userId l)) l) <$>
    List.filter (fun l : Listing num => withinRadius center radiusInKm (location l)) ls.
Proof.
  unfold Mock.getNearbyListings. induction ls as [|l ls IH]; [done|].
  cbn [List.map List.filter]. cbn [location listing_data setUser].
  destruct (withinRadius center radiusInKm (location l)); [|exact IH].
  rewrite fmap_cons. by f_equal.
Qed.

Lemma doc_key_lookup (m : gmap string (ListingDoc num)) id data (P : ListingData num -> bool) :
  (id, data) ∈ doc_key <$> List.filter (fun d => P (doc_data d.2)) (map_to_list m) <->
  exists d, m !! id = Some d /\ doc_data d = data /\ P data = true.
Proof.
  rewrite list_elem_of_fmap. split.
  - intros ([i d] & Heq & Hin). unfold doc_key in Heq. cbn [fst snd] in Heq.
    injection Heq as -> ->.
    apply list_elem_of_In, List.filter_In in Hin as [Hin HP].
    apply list_elem_of_In, elem_of_map_to_list in Hin. by exists d.
  - intros (d & Hl & <- & HP). exists (id, d). split; [done|].
    apply list_elem_of_In, List.filter_In. split; [|done].
    by apply list_elem_of_In, elem_of_map_to_list.
Qed.

(** C9. The list getNearbyListings returns is a subsequence of the fetched
    listings in their order: nothing is reordered, duplicated or made up.  In
    the mock it is a sublist of the listings with their users attached; in the
    Firebase-backed version it succeeds unless the fetch of the collection
    fails, the (id, fields) pairs of the result are a sublist of those of the
    snapshot, and no id occurs twice. *)
Theorem getNearbyListings_subsequence (center : GeoPoint num) (radiusInKm : num) :
  (forall mockListings : list (Listing num),
     sublist (Mock.getNearbyListings mockListings center radiusInKm)
       ((fun l : Listing num => setUser (Mock.findUser (userId l)) l) <$> mockListings) /\
     sublist (key <$> Mock.getNearbyListings mockListings center radiusInKm)
       (key <$> mockListings)) /\
  (forall w : World num,
     match getNearbyListings center radiusInKm w with
     | (Ok ls, _) =>
         sublist (key <$> ls) (doc_key <$> map_to_list (listings (db w))) /\
         NoDup (listing_id <$> ls)
     | (Throw _, _) => is_Some (first_fault w)
     end).
Proof.
  split.
  - intros ls. rewrite Mock_getNearbyListings_eq. split.
    + apply fmap_sublist, filter_sublist.
    + rewrite <- list_fmap_compose.
      rewrite (list_fmap_ext _ key) by done.
      apply fmap_sublist, filter_sublist.
  - intros w. pose proof (getNearbyListings_run center radiusInKm w) as Hrun.
    destruct (first_fault w) as [e|].
    + rewrite Hrun. by eexists.
    + destruct Hrun as (ls & w' & -> & Hk & _).
      assert (Hs : sublist (key <$> ls) (doc_key <$> map_to_list (listings (db w)))).
      { rewrite Hk. apply fmap_sublist, filter_sublist. }
      split; [done|].
      replace (listing_id <$> ls) with ((key <$> ls).*1)
        by (by rewrite <- list_fmap_compose).
      eapply sublist_NoDup; [|apply fmap_sublist, Hs].
      rewrite <- list_fmap_compose.
      rewrite (list_fmap_ext _ fst (map_to_list (listings (db w)))) by (by intros ? []).
      apply NoDup_fst_map_to_list.
Qed.

End Nearby.


(** ** The radius filter in binary64 *)

Section FloatFacts.
Context `{MathLib}.
Local Open Scope float_scope.

(** A finite number is a zero or has a mantissa. *)
Lemma finite_cases (x : float) :
  is_finite x = true ->
  (exists s, Prim2SF x = S754_zero s) \/ (exists s m e, Prim2SF x = S754_finite s m e).
Proof.
  unfold is_finite, is_nan, is_infinity. rewrite !FloatAxioms.eqb_spec, abs_spec.
  destruct (Prim2SF x) as [s|s| |s m e]; cbn; try discriminate; eauto.
  destruct s; discriminate.
Qed.

Lemma sub_diag_finite (x : float) : is_finite x = true -> x - x = 0.
Proof.
  intros Hx. apply Prim2SF_inj. rewrite FloatAxioms.sub_spec.
  destruct (finite_cases x Hx) as [[s ->]|(s & m & e & ->)].
  - by destruct s.
  - unfold SF64sub, SFsub. rewrite Z.sub_diag. reflexivity.
Qed.

Lemma zeroish_mul (x y : float) : zeroish x -> is_finite y = true -> zeroish (x * y).
Proof.
  intros [s Hx] Hy. unfold zeroish. rewrite FloatAxioms.mul_spec, Hx.
  destruct (finite_cases y Hy) as [[t ->]|(t & m & e & ->)]; by eexists.
Qed.

Lemma add_zeroish (x : float) : zeroish x -> 0 + x = 0.
Proof.
  intros [s Hx]. apply Prim2SF_inj. rewrite FloatAxioms.add_spec, Hx. by destruct s.
Qed.

Lemma zeroish_0 : zeroish 0.
Proof. by exists false. Qed.

Lemma withinRadius_leb (center p : GeoPoint float) (radiusInKm : float) :
  withinRadius center radiusInKm p = (haversineDistance center p <=? radiusInKm).
Proof. reflexivity. Qed.

Lemma toRad_0 : toRad (num := float) 0 = 0.
Proof. reflexivity. Qed.

(** At a center with finite coordinates whose latitude has a finite cosine,
    the distance of the center to itself is computed as 0. *)
Lemma haversineDistance_same (c : GeoPoint float) :
  is_finite (latitude c) = true -> is_finite (longitude c) = true ->
  is_finite (js_cos (toRad (latitude c))) = true ->
  haversineDistance c c = 0.
Proof.
  intros Hlat Hlon Hcos. unfold haversineDistance.
  cbn [sub Float_JsNumber]. rewrite (sub_diag_finite _ Hlat), (sub_diag_finite _ Hlon).
  rewrite toRad_0. cbv zeta.
  change (0 / lit 2 0)%js with 0. cbn [Math_sin Math_cos Float_JsNumber].
  rewrite js_sin_0.
  change (0 * 0 + 0 * 0 * js_cos (toRad (latitude c)) * js_cos (toRad (latitude c)))%js
    with (0 + 0 * js_cos (toRad (latitude c)) * js_cos (toRad (latitude c))).
  rewrite (add_zeroish _ (zeroish_mul _ _ (zeroish_mul _ _ zeroish_0 Hcos) Hcos)).
  cbn [Math_sqrt Math_atan2 mul Float_JsNumber].
  change (sqrt 0) with 0. change (sqrt (lit 1 0 - 0)%js) with 1.
  rewrite js_atan2_0 by reflexivity. reflexivity.
Qed.

(** The distance from (0, 0) to the opposite point, (0, 180), on an engine
    where [Math.sin(Math.PI / 2)] is [1] and [Math.atan2(1, 0)] is
    [Math.PI / 2]. *)
Lemma haversineDistance_antipode :
  js_sin (PI64 / 2) = 1 -> js_atan2 1 0 = PI64 / 2 ->
  haversineDistance Sample.origin Sample.antipode = 0x1.38bc58e10e572p+14.
Proof.
  intros Hsin Hatan. unfold haversineDistance, Sample.origin, Sample.antipode.
  cbn [latitude longitude]. cbv zeta.
  change (toRad (0 - 0)%js) with 0. change (toRad (180 - 0)%js) with PI64.
  change (toRad (num := float) 0) with 0.
  change (0 / lit 2 0)%js with 0. change (PI64 / lit 2 0)%js with (PI64 / 2).
  cbn [Math_sin Math_cos Float_JsNumber]. rewrite js_sin_0, js_cos_0, Hsin.
  change (0 * 0 + 1 * 1 * 1 * 1)%js with 1.
  cbn [Math_sqrt Math_atan2 mul Float_JsNumber].
  change (sqrt 1) with 1. change (sqrt (lit 1 0 - 1)%js) with 0.
  rewrite Hatan. reflexivity.
Qed.

End FloatFacts.

Section RadiusFilter.
Local Open Scope float_scope.


End RadiusFilter.

(** * Examples

    The theorems above at sample inputs. *)

Section Examples.
Import Sample.
#[local] Existing Instance Sample.vendor.
#[local] Existing Instance Sample.math.
Local Open Scope float_scope.

(** A decimal literal stands for the nearest number, as in the code. *)
Set Warnings "-inexact-float".




Lemma getOrCreateConversation_either_order_witness :
  no_faults (world chatStore []) /\
  exists id w1 w2,
    getOrCreateConversation "bob" "carol" (world chatStore []) = (Ok id, w1) /\
    getOrCreateConversation "carol" "bob" w1 = (Ok id, w2).
Proof.
  assert (Hw : no_faults (world chatStore [])) by constructor.
  split; [exact Hw|].
  destruct (getOrCreateConversation_either_order "bob" "carol" _ Hw)
    as (id & w1 & E1 & (w2 & E2 & _) & _).
  by exists id, w1, w2.
Defined.

Lemma getOrCreateConversation_finds_or_inserts_witness :
  no_faults (world chatStore []) /\
  exists id w',
    getOrCreateConversation "alice" "bob" (world chatStore []) = (Ok id, w').
Proof.
  assert (Hw : no_faults (world chatStore [])) by constructor.
  split; [exact Hw|].
  destruct (getOrCreateConversation_finds_or_inserts "alice" "bob" _ Hw)
    as (id & w' & E & _).
  by exists id, w'.
Defined.

Lemma signUp_email_already_in_use_witness :
  exists w' : World float,
    signUp "alice@example.com" "secret1" "Alice"
      (world emptyStore [mkReply (Some emailInUse) 120]) =
    (Throw (new_Error "Email is already registered"), w').
Proof.
  destruct (signUp_email_already_in_use "alice@example.com" "secret1" "Alice"
              (world emptyStore [mkReply (Some emailInUse) 120])
              (mkReply (Some emailInUse) 120) [] emailInUse eq_refl eq_refl eq_refl)
    as (w' & E & _).
  by exists w'.
Defined.

Lemma city_coordinates :
  MockGeo.London = {| latitude := 51.5074; longitude := -0.1278 |} /\
  MockGeo.Manchester = {| latitude := 53.4808; longitude := -2.2426 |} /\
  MockGeo.Birmingham = {| latitude := 52.4862; longitude := -1.8904 |}.
Proof. repeat split; reflexivity. Qed.

Lemma geocode_three_cities_witness :
  MockGeo.geocode "Greater LONDON" =
    Ok {| latitude := 51.5074; longitude := -0.1278 |} /\
  MockGeo.geocode "manchester M1" =
    Ok {| latitude := 53.4808; longitude := -2.2426 |} /\
  MockGeo.geocode "B1 1AA" =
    Ok {| latitude := 52.4862; longitude := -1.8904 |}.
Proof.
  destruct city_coordinates as (<- & <- & <-).
  split; [|split].
  - apply (geocode_three_cities "Greater LONDON").
    by exists "Greater ", "LONDON", "".
  - apply (geocode_three_cities "manchester M1").
    + rewrite contains_ignoring_case_includes. by vm_compute.
    + by exists "", "manchester", " M1".
  - apply (geocode_three_cities "B1 1AA");
      rewrite contains_ignoring_case_includes; by vm_compute.
Defined.

Lemma sendMessage_effect_witness :
  exists w' : World float,
    sendMessage "c1" "alice" "hello" (world chatStore []) = (Ok tt, w') /\
    (exists c, conversations (db w') !! "c1" = Some c /\ lastMessageText c = "hello").
Proof.
  destruct (sendMessage_effect "c1" "alice" "hello" (world chatStore [])) as [Heff Hok].
  destruct Hok as [w' E]; [reflexivity | reflexivity | by eexists |].
  exists w'. split; [exact E|].
  destruct (Heff w' E) as (c & _ & _ & Hdb & _).
  rewrite Hdb. eexists. split; [apply lookup_insert_eq | reflexivity].
Defined.

End Examples.

(** * More properties *)

(** ** Runs, call by call *)

Section Calls.
Context {num : Type} `{JsNumber num} `{Vendor}.

Lemma first_fault_no_faults (w : World num) : no_faults w -> first_fault w = None.
Proof.
  unfold no_faults, first_fault. destruct (replies w) as [|r rs]; [done|].
  by intros [? _]%Forall_cons.
Qed.

Lemma tick_with_db d (w : World num) : tick (with_db d w) = with_db d (tick w).
Proof.
  unfold tick, with_db. cbn [replies].
  destruct (replies w) eqn:E; cbn [db console clock replies]; by rewrite ?E.
Qed.

Lemma tick_logged entry (w : World num) : tick (logged entry w) = logged entry (tick w).
Proof.
  unfold tick, logged. cbn [replies].
  destruct (replies w) eqn:E; cbn [db console clock replies]; by rewrite ?E.
Qed.

Lemma no_faults_logged entry (w : World num) : no_faults w -> no_faults (logged entry w).
Proof. done. Qed.

Lemma clock_tick (w : World num) : (clock w <= clock (tick w))%N.
Proof. unfold tick. destruct (replies w); cbn [clock]; lia. Qed.

Lemma db_ticks n (w : World num) : db (ticks n w) = db w.
Proof. revert w. induction n as [|n IH]; intros w; [done|]. cbn. by rewrite IH, db_tick. Qed.

Lemma console_ticks n (w : World num) : console (ticks n w) = console w.
Proof.
  revert w. induction n as [|n IH]; intros w; [done|]. cbn. by rewrite IH, console_tick.
Qed.

Lemma no_faults_ticks n (w : World num) : no_faults w -> no_faults (ticks n w).
Proof.
  revert w. induction n as [|n IH]; intros w Hw; [done|]. cbn.
  by apply IH, no_faults_tick.
Qed.

Lemma ticks_S n (w : World num) : ticks n (tick w) = ticks (S n) w.
Proof. done. Qed.

Lemma getDoc_eq {D} (c : Collection D) (id : string) (w : World num) :
  getDoc c id w =
  (match first_fault w with
   | Some e => Throw e
   | None => Ok (docs c (db w) !! id)
   end, tick w).
Proof.
  unfold getDoc, bind. rewrite vendor_call_eq.
  destruct (first_fault w); [done|]. unfold get_db, ret. by rewrite db_tick.
Qed.

Lemma getDocs_where_eq {D} (c : Collection D) (test : D -> bool) (w : World num) :
  getDocs_where c test w =
  (match first_fault w with
   | Some e => Throw e
   | None => Ok (List.filter (fun '(_, data) => test data) (map_to_list (docs c (db w))))
   end, tick w).
Proof.
  unfold getDocs_where, bind. rewrite vendor_call_eq.
  destruct (first_fault w); [done|]. unfold get_db, ret. by rewrite db_tick.
Qed.

Lemma setDoc_eq {D} (c : Collection D) (id : string) (data : D) (w : World num) :
  setDoc c id data w =
  match first_fault w with
  | Some e => (Throw e, tick w)
  | None => (Ok tt, with_db (setDocs c (<[id := data]> (docs c (db w))) (db w)) (tick w))
  end.
Proof.
  unfold setDoc, bind. rewrite vendor_call_eq.
  destruct (first_fault w); [done|]. unfold get_db, put_db. by rewrite db_tick.
Qed.

Lemma deleteDoc_eq {D} (c : Collection D) (id : string) (w : World num) :
  deleteDoc c id w =
  match first_fault w with
  | Some e => (Throw e, tick w)
  | None => (Ok tt, with_db (setDocs c (delete id (docs c (db w))) (db w)) (tick w))
  end.
Proof.
  unfold deleteDoc, bind. rewrite vendor_call_eq.
  destruct (first_fault w); [done|]. unfold get_db, put_db. by rewrite db_tick.
Qed.

Lemma fetchUser_eq label (userId : string) (w : World num) :
  fetchUser label userId w =
  match first_fault w with
  | Some e => (Ok None, logged (console_warn label e) (tick w))
  | None => (Ok (profile (users (db w)) userId), tick w)
  end.
Proof.
  unfold fetchUser, try_catch, bind. rewrite getDoc_eq.
  destruct (first_fault w); [done|]. unfold ret, profile. cbn [docs users_c].
  by destruct (users (db w) !! userId).
Qed.

Lemma fetchUser_if_eq label (userId : string) (w : World num) :
  no_faults w ->
  fetchUser_if label userId w =
  (Ok (profile_if (users (db w)) userId),
   if bool_decide (userId = "") then w else tick w).
Proof.
  intros Hw. unfold fetchUser_if, profile_if. destruct (bool_decide (userId = "")); [done|].
  by rewrite fetchUser_eq, first_fault_no_faults.
Qed.

(** The loop of the two listing fetchers when nothing fails: every document
    kept by [keep] gives its listing, in order, and only time passes. *)
Lemma listing_loop_ok label (keep : ListingDoc num -> bool)
    (snapshot : list (string * ListingDoc num)) :
  forall (acc : list (Listing num)) (w : World num),
  no_faults w ->
  exists n,
    for_of snapshot
      (fun '(id, docSnapshot) listings =>
         let data := doc_data docSnapshot in
         if keep docSnapshot then
           user <- fetchUser_if label (userId data) ;;;
           ret (listings ++ [listingOf id data user])
         else ret listings)
      acc w =
    (Ok (acc ++ (listingOfDoc (users (db w)) <$>
                   List.filter (fun d => keep d.2) snapshot)),
     ticks n w).
Proof.
  set (body := fun '(id, docSnapshot) listings => _).
  induction snapshot as [|[id d] snapshot IH]; intros acc w Hw.
  - exists O. cbn. by rewrite app_nil_r.
  - cbn [for_of List.filter snd]. unfold bind at 1. unfold body at 1. cbv beta iota zeta.
    destruct (keep d).
    + unfold bind at 1. rewrite (fetchUser_if_eq _ _ _ Hw). unfold ret at 1.
      set (w1 := if bool_decide _ then w else tick w).
      assert (Hw1 : no_faults w1).
      { unfold w1. destruct (bool_decide _); [done | by apply no_faults_tick]. }
      assert (Hdb : db w1 = db w).
      { unfold w1. destruct (bool_decide _); [done | apply db_tick]. }
      destruct (IH (acc ++ [listingOf id (doc_data d) (profile_if (users (db w))
                                                         (userId (doc_data d)))]) w1 Hw1)
        as [n E].
      rewrite E, Hdb, <- app_assoc.
      unfold w1. destruct (bool_decide _); [by exists n | by exists (S n)].
    + unfold ret at 1. apply IH, Hw.
Qed.

End Calls.

(** ** What a failed call leaves behind *)

Section Atomicity.
Context {num : Type} `{JsNumber num} `{Vendor}.

Lemma readonly_ret {A} (a : A) : readonly (num := num) (ret a).
Proof. done. Qed.

Lemma readonly_throw {A} e : readonly (num := num) (throw (A := A) e).
Proof. done. Qed.

Lemma readonly_log entry : readonly (num := num) (log entry).
Proof. done. Qed.

Lemma readonly_now : readonly (num := num) Timestamp_now.
Proof. done. Qed.

Lemma readonly_vendor_call : readonly (num := num) vendor_call.
Proof. intros w. rewrite vendor_call_eq. apply db_tick. Qed.

Lemma readonly_bind {A B} (c : M num A) (k : A -> M num B) :
  readonly c -> (forall a, readonly (k a)) -> readonly (bind c k).
Proof.
  intros Hc Hk w. unfold bind. specialize (Hc w).
  destruct (c w) as [[a|e] w']; [|done]. rewrite <- Hc. apply Hk.
Qed.

Lemma readonly_try_catch {A} (body : M num A) (handler : JsError -> M num A) :
  readonly body -> (forall e, readonly (handler e)) -> readonly (try_catch body handler).
Proof.
  intros Hb Hh w. unfold try_catch. specialize (Hb w).
  destruct (body w) as [[a|e] w']; [done|]. rewrite <- Hb. apply Hh.
Qed.

Lemma readonly_for_of {A S} (xs : list A) (body : A -> S -> M num S) (acc : S) :
  (forall x s, readonly (body x s)) -> readonly (for_of xs body acc).
Proof.
  intros Hb. revert acc. induction xs as [|x xs IH]; intros acc; [done|].
  cbn [for_of]. apply readonly_bind; [apply Hb | apply IH].
Qed.

Lemma readonly_getDocs {D} (c : Collection D) : readonly (num := num) (getDocs c).
Proof. intros w. rewrite getDocs_eq. apply db_tick. Qed.

Lemma readonly_getDocs_where {D} (c : Collection D) test :
  readonly (num := num) (getDocs_where c test).
Proof. intros w. rewrite getDocs_where_eq. apply db_tick. Qed.

Lemma readonly_getDoc {D} (c : Collection D) id : readonly (num := num) (getDoc c id).
Proof. intros w. rewrite getDoc_eq. apply db_tick. Qed.

Lemma readonly_fetchUser label userId : readonly (num := num) (fetchUser label userId).
Proof.
  intros w. rewrite fetchUser_eq. destruct (first_fault w); cbn; apply db_tick.
Qed.

Lemma readonly_fetchUser_if label userId : readonly (num := num) (fetchUser_if label userId).
Proof.
  unfold fetchUser_if. destruct (bool_decide _); [done | apply readonly_fetchUser].
Qed.

Lemma never_throws_ret {A} (a : A) : never_throws (num := num) (ret a).
Proof. intros w. by exists a. Qed.

Lemma never_throws_bind {A B} (c : M num A) (k : A -> M num B) :
  never_throws c -> (forall a, never_throws (k a)) -> never_throws (bind c k).
Proof.
  intros Hc Hk w. unfold bind. destruct (Hc w) as [a Ha].
  destruct (c w) as [[a'|e] w']; [apply Hk | done].
Qed.

Lemma never_throws_fetchUser label userId :
  never_throws (num := num) (fetchUser label userId).
Proof. intros w. rewrite fetchUser_eq. destruct (first_fault w); by eexists. Qed.

Lemma all_or_nothing_readonly {A} (c : M num A) : readonly c -> all_or_nothing c.
Proof. intros Hc w. specialize (Hc w). by destruct (c w) as [[a|e] w']. Qed.

Lemma all_or_nothing_bind_l {A B} (c : M num A) (k : A -> M num B) :
  readonly c -> (forall a, all_or_nothing (k a)) -> all_or_nothing (bind c k).
Proof.
  intros Hc Hk w. unfold bind. specialize (Hc w).
  destruct (c w) as [[a|e] w']; [|done]. specialize (Hk a w').
  destruct (k a w') as [[b|e] w'']; [done|]. cbn in Hc. congruence.
Qed.

Lemma all_or_nothing_bind_r {A B} (c : M num A) (k : A -> M num B) :
  all_or_nothing c -> (forall a, never_throws (k a)) -> all_or_nothing (bind c k).
Proof.
  intros Hc Hk w. unfold bind. specialize (Hc w).
  destruct (c w) as [[a|e] w']; [|done]. destruct (Hk a w') as [b Hb].
  destruct (k a w') as [[b'|e] w'']; [done | done].
Qed.

Lemma all_or_nothing_try_catch {A} (body : M num A) (handler : JsError -> M num A) :
  all_or_nothing body -> (forall e, readonly (handler e)) ->
  all_or_nothing (try_catch body handler).
Proof.
  intros Hb Hh w. unfold try_catch. specialize (Hb w).
  destruct (body w) as [[a|e] w']; [done|]. specialize (Hh e w').
  destruct (handler e w') as [[a|e'] w'']; [done|]. cbn in Hh. congruence.
Qed.

Lemma all_or_nothing_addDoc {D} (c : Collection D) data :
  all_or_nothing (num := num) (addDoc c data).
Proof. intros w. rewrite addDoc_eq. destruct (first_fault w); [apply db_tick | done]. Qed.

Lemma all_or_nothing_setDoc {D} (c : Collection D) id data :
  all_or_nothing (num := num) (setDoc c id data).
Proof. intros w. rewrite setDoc_eq. destruct (first_fault w); [apply db_tick | done]. Qed.

Lemma all_or_nothing_deleteDoc {D} (c : Collection D) id :
  all_or_nothing (num := num) (deleteDoc c id).
Proof. intros w. rewrite deleteDoc_eq. destruct (first_fault w); [apply db_tick | done]. Qed.

Lemma all_or_nothing_updateDoc {D} (c : Collection D) id f :
  all_or_nothing (num := num) (updateDoc c id f).
Proof.
  intros w. rewrite updateDoc_eq. destruct (first_fault w); [apply db_tick|].
  destruct (docs c (db w) !! id); [done | apply db_tick].
Qed.

(** The handler every service function ends with. *)
Lemma readonly_rethrow {A} label msg (e : JsError) :
  readonly (num := num) (log (console_error label e) ;;; throw (A := A) (new_Error msg)).
Proof. done. Qed.

End Atomicity.

Create HintDb store.

#[local] Hint Resolve readonly_ret readonly_throw readonly_log readonly_now
  readonly_vendor_call readonly_getDocs readonly_getDocs_where readonly_getDoc
  readonly_fetchUser readonly_fetchUser_if never_throws_ret never_throws_fetchUser
  all_or_nothing_addDoc all_or_nothing_setDoc all_or_nothing_deleteDoc
  all_or_nothing_updateDoc : store.

Section AtomicityOfServices.
Context {num : Type} `{JsNumber num} `{Vendor}.

Ltac readonly_steps :=
  repeat first
    [ match goal with
      | |- readonly (try_catch _ _) => apply readonly_try_catch
      | |- readonly (bind _ _) => apply readonly_bind
      | |- readonly (for_of _ _ _) => apply readonly_for_of
      | |- readonly (if ?b then _ else _) => destruct b
      end
    | progress intros
    | progress cbv zeta
    | match goal with x : (_ * _)%type |- _ => destruct x; cbv beta iota end
    | solve [auto with store] ].

Lemma readonly_signIn email password : readonly (num := num) (signIn email password).
Proof. unfold signIn, signInWithEmailAndPassword. readonly_steps. Qed.

Lemma readonly_signOut : readonly (num := num) signOut.
Proof. unfold signOut, firebaseSignOut. readonly_steps. Qed.

Lemma readonly_uploadImage file : readonly (num := num) (uploadImage file).
Proof. unfold uploadImage, uploadBytes, getDownloadURL. readonly_steps. Qed.

Lemma readonly_getNearbyListings center radiusInKm :
  readonly (getNearbyListings center radiusInKm).
Proof. unfold getNearbyListings. readonly_steps. Qed.

Lemma readonly_getGalleryPosts : readonly (num := num) getGalleryPosts.
Proof. unfold getGalleryPosts. readonly_steps. Qed.

Lemma readonly_getListingsForUser userId :
  readonly (num := num) (getListingsForUser userId).
Proof. unfold getListingsForUser. readonly_steps. Qed.

(** X1. The functions that only read never change the document store,
    whether they succeed or throw: signIn, signOut, uploadImage,
    getNearbyListings, getGalleryPosts and getListingsForUser. *)
Theorem readers_never_write :
  (forall email password, readonly (num := num) (signIn email password)) /\
  readonly (num := num) signOut /\
  (forall file, readonly (num := num) (uploadImage file)) /\
  (forall center radiusInKm, readonly (getNearbyListings center radiusInKm)) /\
  readonly (num := num) getGalleryPosts /\
  (forall userId, readonly (num := num) (getListingsForUser userId)).
Proof.
  split; [exact readonly_signIn|]. split; [exact readonly_signOut|].
  split; [exact readonly_uploadImage|]. split; [exact readonly_getNearbyListings|].
  split; [exact readonly_getGalleryPosts | exact readonly_getListingsForUser].
Qed.

Ltac handler_readonly := intros; readonly_steps.

Lemma all_or_nothing_signUp email password displayName :
  all_or_nothing (num := num) (signUp email password displayName).
Proof.
  unfold signUp, createUserWithEmailAndPassword, updateProfile.
  apply all_or_nothing_try_catch; [|handler_readonly].
  apply all_or_nothing_bind_l; [readonly_steps|]. intros cred.
  apply all_or_nothing_bind_l; [readonly_steps|]. intros user.
  apply all_or_nothing_bind_l; [readonly_steps|]. intros now.
  apply all_or_nothing_bind_r; auto with store.
Qed.

Lemma all_or_nothing_createListing (listingData : ListingData num) :
  all_or_nothing (createListing listingData).
Proof.
  unfold createListing.
  apply all_or_nothing_try_catch; [|handler_readonly].
  apply all_or_nothing_bind_l; [readonly_steps|]. intros now.
  apply all_or_nothing_bind_r; [auto with store|]. intros id.
  apply never_throws_bind; auto with store.
Qed.

Lemma all_or_nothing_deleteListing listingId :
  all_or_nothing (num := num) (deleteListing listingId).
Proof.
  unfold deleteListing.
  apply all_or_nothing_try_catch; [auto with store | handler_readonly].
Qed.

Lemma all_or_nothing_updateListing listingId (data : ListingPatch num) :
  all_or_nothing (updateListing listingId data).
Proof.
  unfold updateListing.
  apply all_or_nothing_try_catch; [|handler_readonly].
  apply all_or_nothing_bind_l; [readonly_steps|]. intros now. auto with store.
Qed.

Lemma all_or_nothing_getOrCreateConversation user1Id user2Id :
  all_or_nothing (num := num) (getOrCreateConversation user1Id user2Id).
Proof.
  unfold getOrCreateConversation.
  apply all_or_nothing_try_catch; [|handler_readonly].
  apply all_or_nothing_bind_l; [readonly_steps|]. intros snapshot.
  destruct (List.find _ snapshot) as [[id c]|].
  - apply all_or_nothing_readonly. readonly_steps.
  - apply all_or_nothing_bind_l; [readonly_steps|]. intros now.
    apply all_or_nothing_bind_r; auto with store.
Qed.

(** X2. The functions that write are all-or-nothing on the document store,
    sendMessage apart: when signUp, createListing, deleteListing,
    updateListing or getOrCreateConversation throws, the store is as it was
    before the call. *)
Theorem writers_all_or_nothing :
  (forall email password displayName,
      all_or_nothing (num := num) (signUp email password displayName)) /\
  (forall listingData : ListingData num, all_or_nothing (createListing listingData)) /\
  (forall listingId, all_or_nothing (num := num) (deleteListing listingId)) /\
  (forall listingId (data : ListingPatch num), all_or_nothing (updateListing listingId data)) /\
  (forall user1Id user2Id,
      all_or_nothing (num := num) (getOrCreateConversation user1Id user2Id)).
Proof.
  split; [exact all_or_nothing_signUp|]. split; [exact all_or_nothing_createListing|].
  split; [exact all_or_nothing_deleteListing|].
  split; [exact all_or_nothing_updateListing | exact all_or_nothing_getOrCreateConversation].
Qed.

(** X3. sendMessage is not all-or-nothing.  For an id that names a
    conversation document (not empty, no slash): when the message is added
    and the update of the conversation then fails, because the conversation
    does not exist or because the vendor fails the second call, sendMessage
    throws its message and the added message stays in the sub-collection. *)
Theorem sendMessage_leaves_message_behind
    (conversationId senderId' text' : string) (w : World num) :
  validId conversationId = true ->
  first_fault w = None ->
  is_Some (first_fault (tick w)) \/ conversations (db w) !! conversationId = None ->
  let old := default ∅ (messages (db w) !! conversationId) in
  exists w' : World num,
    sendMessage conversationId senderId' text' w =
      (Throw (new_Error "Failed to send message. Please try again."), w') /\
    old !! autoId old = None /\
    messages (db w') !! conversationId =
      Some (<[autoId old := {| senderId := senderId'; text := text';
                               createdAt := clock w |}]> old) /\
    conversations (db w') = conversations (db w).
Proof.
  intros _ F1 Hfail old. rewrite sendMessage_run, F1. cbv zeta. fold old.
  replace (first_fault (with_db _ (tick w))) with (first_fault (tick w)) by done.
  assert (Hmsg : forall (e : JsError) (w1 : World num),
    db w1 = setDocs (messages_c conversationId)
              (<[autoId old := newMessage senderId' text' (clock w)]> old) (db w) ->
    exists w' : World num,
      failed (A := unit) "Error sending message:"
        "Failed to send message. Please try again." e w1 =
        (Throw (new_Error "Failed to send message. Please try again."), w') /\
      old !! autoId old = None /\
      messages (db w') !! conversationId =
        Some (<[autoId old := {| senderId := senderId'; text := text';
                                 createdAt := clock w |}]> old) /\
      conversations (db w') = conversations (db w)).
  { intros e w1 Hdb. eexists. split; [reflexivity|]. split; [apply autoId_fresh|].
    cbn [db logged]. rewrite Hdb. cbn. split; [apply lookup_insert_eq | done]. }
  destruct (first_fault (tick w)) as [e|] eqn:F2.
  - apply Hmsg. by rewrite db_tick.
  - destruct Hfail as [[? [=]]|Hnone]. rewrite Hnone. apply Hmsg. by rewrite db_tick.
Qed.

End AtomicityOfServices.

(** ** The listing functions, run *)

Section ListingRuns.
Context {num : Type} `{JsNumber num} `{Vendor}.

Lemma createListing_ok (listingData : ListingData num) (w : World num) :
  no_faults w ->
  createListing listingData w =
  (Ok {| listing_id := autoId (listings (db w)); listing_data := listingData;
         user := profile (users (db w)) (userId listingData) |},
   with_db (setDocs listings_c
              (<[autoId (listings (db w)) :=
                   {| doc_data := listingData; doc_createdAt := clock w;
                      doc_updatedAt := None |}]> (listings (db w)))
              (db w))
     (ticks 2 w)).
Proof.
  intros Hw. unfold createListing, try_catch, bind at 1 2, Timestamp_now.
  rewrite addDoc_eq, (first_fault_no_faults _ Hw). unfold bind at 1.
  rewrite fetchUser_eq.
  replace (first_fault (with_db _ (tick w))) with (first_fault (tick w)) by done.
  rewrite (first_fault_no_faults _ (no_faults_tick _ Hw)).
  unfold ret. rewrite tick_with_db. reflexivity.
Qed.

Lemma deleteListing_eq (listingId : string) (w : World num) :
  deleteListing listingId w =
  match first_fault w with
  | Some e =>
      failed "Error deleting listing:" "Failed to delete listing. Please try again."
        e (tick w)
  | None =>
      (Ok tt,
       with_db (setDocs listings_c (delete listingId (listings (db w))) (db w)) (tick w))
  end.
Proof.
  unfold deleteListing, try_catch. rewrite deleteDoc_eq. by destruct (first_fault w).
Qed.

Lemma updateListing_eq (listingId : string) (data : ListingPatch num) (w : World num) :
  updateListing listingId data w =
  let fail := failed "Error updating listing:" "Failed to update listing. Please try again." in
  match first_fault w with
  | Some e => fail e (tick w)
  | None =>
      match listings (db w) !! listingId with
      | None => fail not_found (tick w)
      | Some d =>
          (Ok tt,
           with_db (setDocs listings_c
                      (<[listingId := applyPatch data (clock w) d]> (listings (db w)))
                      (db w))
             (tick w))
      end
  end.
Proof.
  unfold updateListing, try_catch, bind, Timestamp_now. rewrite updateDoc_eq.
  destruct (first_fault w); [done|]. cbn [docs listings_c].
  by destruct (listings (db w) !! listingId).
Qed.

Lemma filter_all {A} (l : list A) : List.filter (fun _ => true) l = l.
Proof. induction l as [|x l IH]; [done|]. cbn. by rewrite IH. Qed.

Lemma getListingsForUser_ok (userId' : string) (w : World num) :
  no_faults w ->
  exists n,
    getListingsForUser userId' w =
    (Ok (listingOfDoc (users (db w)) <$>
           List.filter (fun d => bool_decide (userId (doc_data d.2) = userId'))
             (map_to_list (listings (db w)))),
     ticks n w).
Proof.
  intros Hw. unfold getListingsForUser, try_catch, bind at 1.
  rewrite getDocs_where_eq, (first_fault_no_faults _ Hw). cbn [docs listings_c].
  set (snapshot := List.filter _ _).
  destruct (listing_loop_ok "Could not fetch user data for listing:" (fun _ => true)
              snapshot [] (tick w) (no_faults_tick _ Hw)) as [n E].
  exists (S n). cbv beta iota zeta in E |- *. rewrite E, db_tick. cbn [app ticks].
  rewrite filter_all. unfold snapshot. do 3 f_equal.
  apply List.filter_ext. by intros [i d].
Qed.

Lemma getNearbyListings_ok (center : GeoPoint num) (radiusInKm : num) (w : World num) :
  no_faults w ->
  exists n,
    getNearbyListings center radiusInKm w =
    (Ok (listingOfDoc (users (db w)) <$>
           List.filter (doc_within center radiusInKm) (map_to_list (listings (db w)))),
     ticks n w).
Proof.
  intros Hw. unfold getNearbyListings, try_catch, bind at 1.
  rewrite getDocs_eq, (first_fault_no_faults _ Hw). cbn [docs listings_c].
  destruct (listing_loop_ok "Could not fetch user data for listing:"
              (fun d => withinRadius center radiusInKm (location (doc_data d)))
              (map_to_list (listings (db w))) [] (tick w) (no_faults_tick _ Hw)) as [n E].
  exists (S n). cbv beta iota zeta in E |- *. rewrite E, db_tick. reflexivity.
Qed.

End ListingRuns.

(** ** Listings: create, fetch, update, delete *)

Section ListingFacts.
Context {num : Type} `{JsNumber num} `{Vendor}.

Lemma key_listingOfDoc (m : gmap string UserDoc) (d : string * ListingDoc num) :
  key (listingOfDoc m d) = doc_key d.
Proof. destruct d as [i d]. apply key_listingOf. Qed.

Lemma user_listingOfDoc (m : gmap string UserDoc) (d : string * ListingDoc num) :
  user (listingOfDoc m d) = profile_if m (userId (doc_data d.2)).
Proof. done. Qed.

Lemma listing_data_listingOf id (data : ListingData num) u :
  listing_data (listingOf id data u) = data.
Proof. by destruct data. Qed.

(** X4. With no vendor failure createListing stores the data, stamped with
    the time of the call, under an id that was free, changes nothing else
    and returns the listing with that id; getListingsForUser for the owner
    then returns it. *)
Theorem createListing_then_listed (listingData : ListingData num) (w : World num) :
  no_faults w ->
  exists (l : Listing num) (w1 : World num) (ls : list (Listing num)) (w2 : World num),
    createListing listingData w = (Ok l, w1) /\
    listing_data l = listingData /\
    listings (db w) !! listing_id l = None /\
    db w1 =
      {| users := users (db w);
         listings := <[listing_id l := {| doc_data := listingData;
                                          doc_createdAt := clock w;
                                          doc_updatedAt := None |}]> (listings (db w));
         gallery := gallery (db w); conversations := conversations (db w);
         messages := messages (db w) |} /\
    getListingsForUser (userId listingData) w1 = (Ok ls, w2) /\
    key l ∈ key <$> ls.
Proof.
  intros Hw. rewrite (createListing_ok _ _ Hw).
  set (w1 := with_db _ _).
  assert (Hw1 : no_faults w1) by apply no_faults_with_db, (no_faults_ticks 2), Hw.
  destruct (getListingsForUser_ok (userId listingData) w1 Hw1) as [n E].
  eexists _, w1, _, _. split; [reflexivity|]. split; [done|].
  split; [apply autoId_fresh|]. split; [done|]. split; [exact E|].
  rewrite <- list_fmap_compose.
  apply list_elem_of_fmap.
  exists (autoId (listings (db w)),
          {| doc_data := listingData; doc_createdAt := clock w; doc_updatedAt := None |}).
  split; [unfold compose; by rewrite (key_listingOfDoc _ (_, _))|].
  apply list_elem_of_In, List.filter_In. split.
  - apply list_elem_of_In, elem_of_map_to_list. cbn. apply lookup_insert_eq.
  - by apply bool_decide_eq_true.
Qed.

(** X5. getListingsForUser, when no vendor call fails, returns one listing
    for each stored listing whose userId is the id asked for, and no other,
    in snapshot order and with no id twice, each carrying the profile stored
    under that id.  When the query fails it throws its message and returns
    nothing. *)
Theorem getListingsForUser_exact (userId' : string) (w : World num) :
  (no_faults w ->
   exists (ls : list (Listing num)) (w' : World num),
     getListingsForUser userId' w = (Ok ls, w') /\
     key <$> ls =
       doc_key <$> List.filter (fun d => bool_decide (userId (doc_data d.2) = userId'))
                     (map_to_list (listings (db w))) /\
     (forall id data,
        (id, data) ∈ key <$> ls <->
        exists d, listings (db w) !! id = Some d /\ doc_data d = data /\
                  userId data = userId') /\
     (forall l, l ∈ ls -> user l = profile_if (users (db w)) userId') /\
     NoDup (listing_id <$> ls)) /\
  (forall e, first_fault w = Some e ->
     getListingsForUser userId' w =
       failed "Error fetching user listings:"
         "Failed to fetch your listings. Please try again." e (tick w)).
Proof.
  split.
  - intros Hw. destruct (getListingsForUser_ok userId' w Hw) as [n E].
    eexists _, _. split; [exact E|].
    assert (Hk : key <$> (listingOfDoc (users (db w)) <$>
                   List.filter (fun d => bool_decide (userId (doc_data d.2) = userId'))
                     (map_to_list (listings (db w)))) =
                 doc_key <$> List.filter
                     (fun d => bool_decide (userId (doc_data d.2) = userId'))
                     (map_to_list (listings (db w)))).
    { rewrite <- list_fmap_compose. apply list_fmap_ext. intros i d _.
      apply key_listingOfDoc. }
    split; [exact Hk|]. split; [|split].
    + intros id data. rewrite Hk.
      pose proof (doc_key_lookup (listings (db w)) id data
                    (fun data => bool_decide (userId data = userId'))) as Hl.
      cbv beta in Hl. rewrite Hl. by setoid_rewrite bool_decide_eq_true.
    + intros l (d & -> & Hin)%list_elem_of_fmap.
      apply list_elem_of_In, List.filter_In in Hin as [_ Hu].
      apply bool_decide_eq_true in Hu. by rewrite user_listingOfDoc, Hu.
    + replace (listing_id <$> _) with ((key <$> (listingOfDoc (users (db w)) <$>
          List.filter (fun d => bool_decide (userId (doc_data d.2) = userId'))
            (map_to_list (listings (db w))))).*1)
        by (by rewrite <- !list_fmap_compose).
      rewrite Hk. eapply sublist_NoDup;
        [|apply fmap_sublist, fmap_sublist, filter_sublist].
      rewrite <- list_fmap_compose.
      rewrite (list_fmap_ext _ fst (map_to_list (listings (db w)))) by (by intros ? []).
      apply NoDup_fst_map_to_list.
  - intros e F. unfold getListingsForUser, try_catch, bind at 1.
    by rewrite getDocs_where_eq, F.
Qed.

(** X6. deleteListing of an id that names a document (not empty, no slash),
    when the vendor does not fail, removes the listing and nothing else; on
    such an id that is not stored it succeeds and leaves the store as it
    was; and deleting a listing just created restores the store. *)
Theorem deleteListing_removes (listingId : string) (w : World num) :
  (validId listingId = true -> first_fault w = None ->
   exists w' : World num,
     deleteListing listingId w = (Ok tt, w') /\
     db w' =
       {| users := users (db w); listings := delete listingId (listings (db w));
          gallery := gallery (db w); conversations := conversations (db w);
          messages := messages (db w) |} /\
     (listings (db w) !! listingId = None -> db w' = db w)) /\
  (no_faults w ->
   forall listingData : ListingData num,
   exists (l : Listing num) (w1 w2 : World num),
     createListing listingData w = (Ok l, w1) /\
     deleteListing (listing_id l) w1 = (Ok tt, w2) /\
     db w2 = db w).
Proof.
  split.
  - intros _ F. rewrite deleteListing_eq, F. eexists. split; [reflexivity|].
    split; [done|]. intros Hn. cbn. rewrite (delete_id _ _ Hn). by destruct (db w).
  - intros Hw listingData. rewrite (createListing_ok _ _ Hw).
    eexists _, _, _. split; [reflexivity|].
    rewrite deleteListing_eq.
    replace (first_fault (with_db _ (ticks 2 w))) with (first_fault (ticks 2 w)) by done.
    rewrite (first_fault_no_faults _ (no_faults_ticks 2 _ Hw)).
    split; [reflexivity|]. cbn.
    rewrite delete_insert_id by apply autoId_fresh. by destruct (db w).
Qed.

(** X7. updateListing on an id that is not stored throws its message and
    changes nothing.  On a stored listing it writes the given fields over the
    listing and stamps updatedAt with the time of the call: a field that is
    not given, the creation time and every other document stay as they
    were. *)
Theorem updateListing_patches (listingId : string) (data : ListingPatch num)
    (w : World num) :
  first_fault w = None ->
  match listings (db w) !! listingId with
  | None =>
      exists w' : World num,
        updateListing listingId data w =
          (Throw (new_Error "Failed to update listing. Please try again."), w') /\
        db w' = db w
  | Some d =>
      exists (w' : World num) (d' : ListingDoc num),
        updateListing listingId data w = (Ok tt, w') /\
        listings (db w') = <[listingId := d']> (listings (db w)) /\
        users (db w') = users (db w) /\ gallery (db w') = gallery (db w) /\
        conversations (db w') = conversations (db w) /\
        messages (db w') = messages (db w) /\
        doc_createdAt d' = doc_createdAt d /\
        doc_updatedAt d' = Some (clock w) /\
        title (doc_data d') = default (title (doc_data d)) (p_title data) /\
        description (doc_data d') =
          default (description (doc_data d)) (p_description data) /\
        postType (doc_data d') = default (postType (doc_data d)) (p_postType data) /\
        listingType (doc_data d') =
          default (listingType (doc_data d)) (p_listingType data) /\
        category (doc_data d') = default (category (doc_data d)) (p_category data) /\
        quantity (doc_data d') = default (quantity (doc_data d)) (p_quantity data) /\
        imageUrl (doc_data d') = default (imageUrl (doc_data d)) (p_imageUrl data) /\
        userId (doc_data d') = default (userId (doc_data d)) (p_userId data) /\
        location (doc_data d') = default (location (doc_data d)) (p_location data) /\
        locationName (doc_data d') =
          default (locationName (doc_data d)) (p_locationName data)
  end.
Proof.
  intros F. rewrite updateListing_eq, F. cbv zeta.
  destruct (listings (db w) !! listingId) as [d|].
  - eexists _, _. split; [reflexivity|]. cbn. repeat split.
  - eexists. split; [reflexivity|]. cbn. apply db_tick.
Qed.


End ListingFacts.

(** ** Conversations over several calls *)

Section ConversationFacts.
Context {num : Type} `{JsNumber num} `{Vendor}.

Lemma getOrCreateConversation_eq (a b : string) (w : World num) :
  getOrCreateConversation a b w =
  let fail := failed "Error getting or creating conversation:"
                "Failed to start conversation. Please try again." in
  match first_fault w with
  | Some e => fail e (tick w)
  | None =>
      match existing a b (conversations (db w)) with
      | Some (id, _) => (Ok id, tick w)
      | None =>
          match first_fault (tick w) with
          | Some e => fail e (tick (tick w))
          | None =>
              let id := autoId (conversations (db w)) in
              (Ok id,
               with_db (setDocs conversations_c
                          (<[id := newConversation a b (clock (tick w))]>
                             (conversations (db w)))
                          (db w))
                 (tick (tick w)))
          end
      end
  end.
Proof.
  unfold getOrCreateConversation, try_catch. unfold bind at 1.
  rewrite getDocs_where_eq. destruct (first_fault w); [done|].
  cbn [docs conversations_c]. rewrite find_filter. unfold existing.
  rewrite (find_ext' _ (fun '(_, data) => includes a data && includes b data))
    by (by intros [i d]).
  destruct (List.find _ _) as [[id c]|]; [done|].
  unfold bind at 1, Timestamp_now. unfold bind at 1. rewrite addDoc_eq.
  destruct (first_fault (tick w)); [done|]. unfold ret. by rewrite !db_tick.
Qed.

Lemma both_of_pair (a b x y : string) (l : list string) :
  x <> y -> x ∈ [a; b] -> y ∈ [a; b] -> x ∈ l -> y ∈ l -> a ∈ l /\ b ∈ l.
Proof.
  intros Hxy Hx Hy Hxl Hyl.
  apply list_elem_of_In in Hx, Hy. cbn in Hx, Hy.
  destruct Hx as [<-|[<-|[]]], Hy as [<-|[<-|[]]]; done.
Qed.

Lemma unique_insert_new (m : gmap string ConversationDoc) (a b id : string) now :
  unique_conversations m ->
  existing a b m = None ->
  unique_conversations (<[id := newConversation a b now]> m).
Proof.
  intros Hu Hn x y i j c d Hxy Hi Hj Hxc Hyc Hxd Hyd.
  destruct (decide (i = id)) as [->|Hi'], (decide (j = id)) as [->|Hj']; [done|..].
  - rewrite lookup_insert_eq in Hi. injection Hi as <-.
    rewrite lookup_insert_ne in Hj by done.
    destruct (both_of_pair a b x y (participantIds d) Hxy Hxc Hyc Hxd Hyd) as [Ha Hb].
    destruct (existing_None a b m j d Hn Hj Ha Hb).
  - rewrite lookup_insert_eq in Hj. injection Hj as <-.
    rewrite lookup_insert_ne in Hi by done.
    destruct (both_of_pair a b x y (participantIds c) Hxy Hxd Hyd Hxc Hyc) as [Ha Hb].
    destruct (existing_None a b m i c Hn Hi Ha Hb).
  - rewrite lookup_insert_ne in Hi, Hj by done. by eapply (Hu x y i j c d).
Qed.

Lemma unique_touch (m : gmap string ConversationDoc) (id : string) c text' now :
  unique_conversations m ->
  m !! id = Some c ->
  unique_conversations (<[id := touched text' now c]> m).
Proof.
  intros Hu Hc x y i j c1 c2 Hxy Hi Hj Hx1 Hy1 Hx2 Hy2.
  assert (Hold : forall k e, <[id := touched text' now c]> m !! k = Some e ->
            exists e', m !! k = Some e' /\ participantIds e' = participantIds e).
  { intros k e Hk. destruct (decide (k = id)) as [->|Hne].
    - rewrite lookup_insert_eq in Hk. injection Hk as <-. by exists c.
    - rewrite lookup_insert_ne in Hk by done. by exists e. }
  destruct (Hold i c1 Hi) as (e1 & He1 & P1), (Hold j c2 Hj) as (e2 & He2 & P2).
  apply (Hu x y i j e1 e2); by rewrite ?P1, ?P2.
Qed.

(** X9. Both conversation functions keep the store free of duplicates: if no
    two distinct users share more than one conversation before a call of
    getOrCreateConversation or of sendMessage, none do after it, whatever
    the arguments and whether the call succeeds or throws. *)
Theorem conversations_stay_unique (w : World num) :
  unique_conversations (conversations (db w)) ->
  (forall user1Id user2Id,
     unique_conversations
       (conversations (db (getOrCreateConversation user1Id user2Id w).2))) /\
  (forall conversationId senderId' text',
     unique_conversations
       (conversations (db (sendMessage conversationId senderId' text' w).2))).
Proof.
  intros Hu. split.
  - intros a b. rewrite getOrCreateConversation_eq. cbv zeta.
    destruct (first_fault w); [by cbn; rewrite db_tick|].
    destruct (existing a b (conversations (db w))) as [[id c]|] eqn:E;
      [by cbn; rewrite db_tick|].
    destruct (first_fault (tick w)); [by cbn; rewrite !db_tick|].
    cbn. by apply unique_insert_new.
  - intros cid s t. rewrite sendMessage_run. cbv zeta.
    destruct (first_fault w); [by cbn; rewrite db_tick|].
    destruct (first_fault (with_db _ _)); [by cbn; rewrite db_tick|].
    destruct (conversations (db w) !! cid) as [c|] eqn:Ec; [|by cbn; rewrite db_tick].
    cbn. by apply unique_touch.
Qed.

(** X10. Two messages sent one after the other to a conversation, with no
    vendor failure, are both in its sub-collection afterwards, under
    different ids, with every earlier message; the conversation shows the
    text of the second, and its updatedAt did not go back. *)
Theorem sendMessage_twice (conversationId sender1 text1 sender2 text2 : string)
    (w : World num) :
  no_faults w ->
  is_Some (conversations (db w) !! conversationId) ->
  let old := default ∅ (messages (db w) !! conversationId) in
  exists (w1 w2 : World num) (id1 id2 : string) (m1 m2 : MessageDoc)
         (c1 c2 : ConversationDoc) (now : gmap string MessageDoc),
    sendMessage conversationId sender1 text1 w = (Ok tt, w1) /\
    sendMessage conversationId sender2 text2 w1 = (Ok tt, w2) /\
    messages (db w2) !! conversationId = Some now /\
    id1 <> id2 /\ old !! id1 = None /\ old !! id2 = None /\
    now !! id1 = Some m1 /\ senderId m1 = sender1 /\ text m1 = text1 /\
    now !! id2 = Some m2 /\ senderId m2 = sender2 /\ text m2 = text2 /\
    (forall id m, old !! id = Some m -> now !! id = Some m) /\
    conversations (db w1) !! conversationId = Some c1 /\
    conversations (db w2) !! conversationId = Some c2 /\
    lastMessageText c2 = text2 /\
    participantIds c2 = participantIds c1 /\
    (updatedAt c1 <= updatedAt c2)%N.
Proof.
  intros Hw [c Hc] old.
  pose proof (first_fault_no_faults _ Hw) as F1.
  pose proof (first_fault_no_faults _ (no_faults_tick _ Hw)) as F2.
  set (mid1 := autoId old).
  set (msgs1 := <[mid1 := newMessage sender1 text1 (clock w)]> old).
  set (wa := with_db (setDocs (messages_c conversationId) msgs1 (db w)) (tick w)).
  set (w1 := with_db (setDocs conversations_c
                        (<[conversationId := touched text1 (clock wa) c]>
                           (conversations (db w))) (db wa)) (tick wa)).
  assert (E1 : sendMessage conversationId sender1 text1 w = (Ok tt, w1)).
  { rewrite sendMessage_run, F1. cbv zeta. fold old mid1 msgs1 wa.
    replace (first_fault wa) with (first_fault (tick w)) by done.
    by rewrite F2, Hc. }
  assert (Hw1 : no_faults w1).
  { apply no_faults_with_db, no_faults_tick, no_faults_with_db, no_faults_tick, Hw. }
  assert (Hm1 : messages (db w1) !! conversationId = Some msgs1).
  { cbn. apply lookup_insert_eq. }
  assert (Hc1 : conversations (db w1) !! conversationId =
                Some (touched text1 (clock wa) c)).
  { cbn. apply lookup_insert_eq. }
  pose proof (first_fault_no_faults _ Hw1) as F3.
  pose proof (first_fault_no_faults _ (no_faults_tick _ Hw1)) as F4.
  set (mid2 := autoId msgs1).
  set (msgs2 := <[mid2 := newMessage sender2 text2 (clock w1)]> msgs1).
  set (wb := with_db (setDocs (messages_c conversationId) msgs2 (db w1)) (tick w1)).
  set (w2 := with_db (setDocs conversations_c
                        (<[conversationId := touched text2 (clock wb)
                                               (touched text1 (clock wa) c)]>
                           (conversations (db w1))) (db wb)) (tick wb)).
  assert (E2 : sendMessage conversationId sender2 text2 w1 = (Ok tt, w2)).
  { rewrite sendMessage_run, F3. cbv zeta. rewrite Hm1.
    change (default ∅ (Some msgs1)) with msgs1. fold mid2 msgs2 wb.
    replace (first_fault wb) with (first_fault (tick w1)) by done.
    by rewrite F4, Hc1. }
  assert (Hfresh1 : old !! mid1 = None) by apply autoId_fresh.
  assert (Hfresh2 : msgs1 !! mid2 = None) by apply autoId_fresh.
  assert (Hne : mid1 <> mid2).
  { intros E. rewrite <- E in Hfresh2. unfold msgs1 in Hfresh2.
    by rewrite lookup_insert_eq in Hfresh2. }
  assert (Hold2 : old !! mid2 = None).
  { unfold msgs1 in Hfresh2. by rewrite lookup_insert_ne in Hfresh2. }
  exists w1, w2, mid1, mid2, (newMessage sender1 text1 (clock w)),
    (newMessage sender2 text2 (clock w1)), (touched text1 (clock wa) c),
    (touched text2 (clock wb) (touched text1 (clock wa) c)), msgs2.
  split; [exact E1|]. split; [exact E2|].
  split; [cbn; apply lookup_insert_eq|].
  split; [done|]. split; [done|]. split; [done|].
  split; [unfold msgs2, msgs1; by rewrite lookup_insert_ne, lookup_insert_eq|].
  split; [done|]. split; [done|].
  split; [apply lookup_insert_eq|]. split; [done|]. split; [done|].
  split.
  { intros id m Hm. unfold msgs2, msgs1.
    rewrite !lookup_insert_ne; [done|congruence..]. }
  split; [exact Hc1|]. split; [cbn; apply lookup_insert_eq|].
  split; [done|]. split; [done|].
  cbn [updatedAt touched]. unfold wb, w1, wa. rewrite !tick_with_db.
  cbn [clock with_db]. etrans; [apply clock_tick|]. apply clock_tick.
Qed.

End ConversationFacts.

(** ** Signing in and up *)

Section AuthFacts.
Context {num : Type} `{JsNumber num} `{Vendor}.

Lemma split_at_0_app (name domain : string) :
  (forall pre post, name <> pre +:+ String "@" post) ->
  split_at_0 (name +:+ String "@" domain) = name.
Proof.
  induction name as [|c name IH]; intros Hno; [done|].
  change (String c name +:+ String "@" domain)
    with (String c (name +:+ String "@" domain)).
  cbn [split_at_0].
  - rewrite bool_decide_eq_false_2 by (intros ->; by apply (Hno "" name)).
    rewrite IH; [done|]. intros pre post ->. by apply (Hno (String c pre) post).
Qed.

Lemma split_at_0_whole (name : string) :
  (forall pre post, name <> pre +:+ String "@" post) -> split_at_0 name = name.
Proof.
  induction name as [|c name IH]; intros Hno; [done|]. cbn [split_at_0].
  rewrite bool_decide_eq_false_2 by (intros ->; by apply (Hno "" name)).
  rewrite IH; [done|]. intros pre post ->. by apply (Hno (String c pre) post).
Qed.

(** X11. The display name convertFirebaseUser gives is never empty: it is
    the vendor's display name if there is one and it is not empty, else the
    part of the email before the first @ (the whole email if it has no @) if
    that part is not empty, else User: so an email that starts with @, an
    empty email and no email all give User.  The email is the vendor's, or
    empty, and the id is the vendor's uid. *)
Theorem convertFirebaseUser_displayName (firebaseUser : FirebaseUser) :
  user_displayName (convertFirebaseUser firebaseUser) <> "" /\
  user_id (convertFirebaseUser firebaseUser) = uid firebaseUser /\
  (forall name, fb_displayName firebaseUser = Some name -> name <> "" ->
     user_displayName (convertFirebaseUser firebaseUser) = name) /\
  (forall name domain,
     (fb_displayName firebaseUser = None \/ fb_displayName firebaseUser = Some "") ->
     fb_email firebaseUser = Some (name +:+ String "@" domain) ->
     name <> "" ->
     (forall pre post, name <> pre +:+ String "@" post) ->
     user_displayName (convertFirebaseUser firebaseUser) = name) /\
  ((fb_displayName firebaseUser = None \/ fb_displayName firebaseUser = Some "") ->
   fb_email firebaseUser = None ->
   convertFirebaseUser firebaseUser =
     {| user_id := uid firebaseUser; user_email := ""; user_displayName := "User" |}) /\
  (forall domain,
     (fb_displayName firebaseUser = None \/ fb_displayName firebaseUser = Some "") ->
     fb_email firebaseUser = Some (String "@" domain) ->
     convertFirebaseUser firebaseUser =
       {| user_id := uid firebaseUser; user_email := String "@" domain;
          user_displayName := "User" |}) /\
  ((fb_displayName firebaseUser = None \/ fb_displayName firebaseUser = Some "") ->
   fb_email firebaseUser = Some "" ->
   convertFirebaseUser firebaseUser =
     {| user_id := uid firebaseUser; user_email := ""; user_displayName := "User" |}) /\
  (forall email,
     (fb_displayName firebaseUser = None \/ fb_displayName firebaseUser = Some "") ->
     fb_email firebaseUser = Some email -> email <> "" ->
     (forall pre post, email <> pre +:+ String "@" post) ->
     convertFirebaseUser firebaseUser =
       {| user_id := uid firebaseUser; user_email := email; user_displayName := email |}) /\
  user_email (convertFirebaseUser firebaseUser) = default "" (fb_email firebaseUser) /\
  user_displayName (convertFirebaseUser firebaseUser) =
    match fb_displayName firebaseUser with
    | Some (String c name) => String c name
    | _ =>
        match split_at_0 <$> fb_email firebaseUser with
        | Some (String c name) => String c name
        | _ => "User"
        end
    end.
Proof.
  destruct firebaseUser as [i em dn]. unfold convertFirebaseUser. cbn.
  split; [|split; [done|split; [|split; [|split; [|split; [|split; [|split; [|split]]]]]]]].
  - unfold or_string.
    destruct dn as [dn|], em as [em|]; cbn; repeat case_bool_decide; done.
  - intros name -> Hne. unfold or_string. by rewrite bool_decide_eq_false_2.
  - intros name domain Hdn -> Hne Hno. cbn. rewrite split_at_0_app by done.
    rewrite bool_decide_eq_false_2 by done. by destruct Hdn as [->| ->].
  - intros Hdn ->. by destruct Hdn as [->| ->].
  - intros domain Hdn ->. by destruct Hdn as [->| ->].
  - intros Hdn ->. by destruct Hdn as [->| ->].
  - intros email Hdn -> Hne Hno. cbn. rewrite split_at_0_whole by done.
    rewrite !bool_decide_eq_false_2 by done. by destruct Hdn as [->| ->].
  - destruct em as [[|c em]|]; done.
  - destruct dn as [[|c dn]|]; cbn; try done;
      destruct em as [em|]; cbn; try done;
      by destruct (split_at_0 em).
Qed.

Lemma signIn_eq (email password : string) (w : World num) :
  signIn email password w =
  match first_fault w with
  | None => (Ok (convertFirebaseUser (credential email password)), tick w)
  | Some e =>
      (Throw (new_Error
         (if code_is e "auth/user-not-found" || code_is e "auth/wrong-password"
          then "Invalid email or password"
          else if code_is e "auth/invalid-email" then "Invalid email address"
          else if code_is e "auth/user-disabled" then "This account has been disabled"
          else if code_is e "auth/too-many-requests"
          then "Too many failed login attempts. Please try again later"
          else "Failed to sign in. Please try again")),
       logged (console_error "Sign in error:" e) (tick w))
  end.
Proof.
  unfold signIn, try_catch, signInWithEmailAndPassword, bind at 1 2.
  rewrite vendor_call_eq. destruct (first_fault w) as [e|]; [|done].
  unfold bind, log, throw. cbn.
  by repeat match goal with |- context [if ?b then _ else _] => destruct b end.
Qed.

(** X12. A failed signIn does not tell an unknown user from a wrong
    password: both codes give Invalid email or password.  An error with a
    code outside the five that signIn knows, or with no code, gives Failed to
    sign in. Please try again.  In every case the error is logged and the
    store is untouched. *)
Theorem signIn_failure_messages (email password : string) (w : World num) (e : JsError) :
  first_fault w = Some e ->
  exists msg,
    signIn email password w =
      (Throw (new_Error msg), logged (console_error "Sign in error:" e) (tick w)) /\
    (err_code e = Some "auth/user-not-found" \/ err_code e = Some "auth/wrong-password" ->
       msg = "Invalid email or password") /\
    (err_code e ∉ [Some "auth/user-not-found"; Some "auth/wrong-password";
                   Some "auth/invalid-email"; Some "auth/user-disabled";
                   Some "auth/too-many-requests"] ->
       msg = "Failed to sign in. Please try again").
Proof.
  intros F. rewrite signIn_eq, F. eexists. split; [reflexivity|]. unfold code_is. split.
  - intros [-> | ->]; done.
  - intros Hno.
    rewrite !bool_decide_eq_false_2; [done|intros E; apply Hno; rewrite E; set_solver..].
Qed.

Lemma signUp_ok (email password displayName : string) (w : World num) :
  no_faults w ->
  let cred := credential email password in
  signUp email password displayName w =
  (Ok (convertFirebaseUser {| uid := uid cred; fb_email := fb_email cred;
                              fb_displayName := Some displayName |}),
   with_db (setDocs users_c
              (<[uid cred := {| ud_email := email; ud_displayName := displayName;
                                ud_createdAt := clock (ticks 2 w) |}]> (users (db w)))
              (db w))
     (ticks 3 w)).
Proof.
  intros Hw cred.
  unfold signUp, try_catch, createUserWithEmailAndPassword, updateProfile.
  unfold bind at 1 2 3. rewrite vendor_call_eq, (first_fault_no_faults _ Hw).
  unfold ret at 1. unfold bind at 1 2. rewrite vendor_call_eq.
  rewrite (first_fault_no_faults _ (no_faults_tick _ Hw)).
  unfold ret at 1. unfold bind at 1, Timestamp_now. unfold bind at 1.
  rewrite setDoc_eq, (first_fault_no_faults _ (no_faults_tick _ (no_faults_tick _ Hw))).
  unfold ret. rewrite !db_tick. reflexivity.
Qed.

Lemma signIn_run (email password : string) (w : World num) :
  signIn email password w =
  match first_fault w with
  | None => (Ok (convertFirebaseUser (credential email password)), tick w)
  | Some e => failed "Sign in error:" (signInMessage e) e (tick w)
  end.
Proof. rewrite signIn_eq. by destruct (first_fault w). Qed.

Lemma signUp_handler (e : JsError) (w : World num) :
  (log (console_error "Sign up error:" e) ;;;
   if code_is e "auth/email-already-in-use"
   then throw (new_Error "Email is already registered")
   else if code_is e "auth/invalid-email"
   then throw (new_Error "Invalid email address")
   else if code_is e "auth/weak-password"
   then throw (new_Error "Password should be at least 6 characters")
   else throw (new_Error "Failed to create account. Please try again")) w =
  failed (A := User) "Sign up error:" (signUpMessage e) e w.
Proof.
  unfold bind, log, throw, failed, signUpMessage, logged.
  by repeat match goal with |- context [if ?b then _ else _] => destruct b end.
Qed.

Lemma signUp_run (email password displayName : string) (w : World num) :
  let cred := credential email password in
  signUp email password displayName w =
  match faultWithin 3 w with
  | Some (e, w1) => failed "Sign up error:" (signUpMessage e) e w1
  | None =>
      (Ok (convertFirebaseUser {| uid := uid cred; fb_email := fb_email cred;
                                  fb_displayName := Some displayName |}),
       with_db (setDocs users_c
                  (<[uid cred := {| ud_email := email; ud_displayName := displayName;
                                    ud_createdAt := clock (ticks 2 w) |}]> (users (db w)))
                  (db w))
         (ticks 3 w))
  end.
Proof.
  intros cred. cbn [faultWithin].
  unfold signUp, try_catch, createUserWithEmailAndPassword, updateProfile.
  unfold bind at 1 2 3. rewrite vendor_call_eq.
  destruct (first_fault w) as [e|]; [apply signUp_handler|].
  unfold ret at 1. unfold bind at 1 2. rewrite vendor_call_eq.
  destruct (first_fault (tick w)) as [e|]; [apply signUp_handler|].
  unfold ret at 1. unfold bind at 1, Timestamp_now. unfold bind at 1.
  rewrite setDoc_eq. destruct (first_fault (tick (tick w))) as [e|]; [apply signUp_handler|].
  unfold ret. rewrite !db_tick. reflexivity.
Qed.

(** X13. After a signUp with no vendor failure, a non-empty display name
    and a credential that carries the email given, the user returned is the
    profile the listing functions attach: the user document is stored under
    the uid with that email and name, nothing else is written, and a listing
    then created for that uid comes back with exactly this user. *)
Theorem signUp_then_profile (email password displayName : string) (w : World num) :
  no_faults w ->
  displayName <> "" -> email <> "" ->
  fb_email (credential email password) = Some email ->
  exists (u : User) (w' : World num),
    signUp email password displayName w = (Ok u, w') /\
    u = {| user_id := uid (credential email password); user_email := email;
           user_displayName := displayName |} /\
    (exists createdAt,
       db w' =
         {| users := <[user_id u := {| ud_email := email; ud_displayName := displayName;
                                       ud_createdAt := createdAt |}]> (users (db w));
            listings := listings (db w); gallery := gallery (db w);
            conversations := conversations (db w); messages := messages (db w) |}) /\
    forall listingData : ListingData num,
      userId listingData = user_id u ->
      exists (l : Listing num) (w'' : World num),
        createListing listingData w' = (Ok l, w'') /\ user l = Some u.
Proof.
  intros Hw Hdn Hem Hcred. rewrite (signUp_ok _ _ _ _ Hw). cbv zeta.
  set (w' := with_db _ _).
  assert (Hw' : no_faults w') by apply no_faults_with_db, (no_faults_ticks 3), Hw.
  eexists _, w'. split; [reflexivity|].
  assert (Hu : convertFirebaseUser
                 {| uid := uid (credential email password);
                    fb_email := fb_email (credential email password);
                    fb_displayName := Some displayName |} =
               {| user_id := uid (credential email password); user_email := email;
                  user_displayName := displayName |}).
  { unfold convertFirebaseUser, or_string. cbn. rewrite Hcred.
    by rewrite !bool_decide_eq_false_2. }
  rewrite Hu. split; [done|]. split; [by eexists|].
  intros listingData Hid. rewrite (createListing_ok _ _ Hw').
  eexists _, _. split; [reflexivity|]. cbn [user]. rewrite Hid. unfold profile. cbn.
  by rewrite lookup_insert_eq.
Qed.

End AuthFacts.

(** ** components/IsoBoard.tsx *)

Section ConversationRuns.
Context {num : Type} `{JsNumber num} `{Vendor}.

Lemma getOrCreateConversation_ok (a b : string) (w : World num) :
  no_faults w ->
  exists (id : string) (w1 : World num) (c : ConversationDoc),
    getOrCreateConversation a b w = (Ok id, w1) /\
    no_faults w1 /\
    conversations (db w1) !! id = Some c /\
    a ∈ participantIds c /\ b ∈ participantIds c /\
    users (db w1) = users (db w) /\ listings (db w1) = listings (db w) /\
    gallery (db w1) = gallery (db w) /\ messages (db w1) = messages (db w).
Proof.
  intros Hw. rewrite (getOrCreateConversation_run a b w Hw).
  destruct (existing a b (conversations (db w))) as [[id c]|] eqn:E.
  - destruct (existing_Some _ _ _ _ _ E) as (Hl & Ha & Hb).
    exists id, (tick w), c. rewrite db_tick. repeat split; try done.
    by apply no_faults_tick.
  - eexists _, _, _. split; [reflexivity|]. split.
    { apply no_faults_with_db, no_faults_tick, no_faults_tick, Hw. }
    split; [cbn; apply lookup_insert_eq|]. cbn. repeat split; set_solver.
Qed.

Lemma sendMessage_ok (conversationId senderId' text' : string) (w : World num)
    (c : ConversationDoc) :
  no_faults w ->
  conversations (db w) !! conversationId = Some c ->
  exists (w' : World num) (now : N) (msgs : gmap string MessageDoc)
         (mid : string) (createdAt : N),
    sendMessage conversationId senderId' text' w = (Ok tt, w') /\
    no_faults w' /\
    conversations (db w') = <[conversationId := touched text' now c]> (conversations (db w)) /\
    messages (db w') !! conversationId = Some msgs /\
    msgs !! mid = Some (newMessage senderId' text' createdAt) /\
    users (db w') = users (db w) /\ listings (db w') = listings (db w) /\
    gallery (db w') = gallery (db w).
Proof.
  intros Hw Hc. rewrite sendMessage_run, (first_fault_no_faults _ Hw). cbv zeta.
  replace (first_fault (with_db _ (tick w))) with (first_fault (tick w)) by done.
  rewrite (first_fault_no_faults _ (no_faults_tick _ Hw)), Hc.
  eexists _, _, _, _, _. split; [reflexivity|]. split.
  { apply no_faults_with_db, no_faults_tick, no_faults_with_db, no_faults_tick, Hw. }
  split; [done|]. split; [cbn; apply lookup_insert_eq|].
  split; [apply lookup_insert_eq|]. done.
Qed.

End ConversationRuns.

Section IsoBoardFacts.
Context {num : Type} `{JsNumber num} `{Vendor}.
Import IsoBoard.

(** X16. handleHelp never messages on behalf of nobody and never lets a
    user message themself: in both cases it only alerts and calls no
    service.  Otherwise, with no vendor failure, it ends with the alert
    Message sent!, a conversation that holds both users and shows the
    greeting as its last message, and the greeting stored in that
    conversation's messages; the sending marker is cleared. *)
Theorem handleHelp_outcomes (user : option User) (request : Listing num)
    (s : IsoBoard.State) (w : World num) :
  (user = None ->
   handleHelp user request s w = (Ok (alert "Please sign in to send messages" s), w)) /\
  (forall u, user = Some u -> user_id u = userId request ->
   handleHelp user request s w = (Ok (alert "You cannot message yourself!" s), w)) /\
  (forall u, user = Some u -> user_id u <> userId request -> no_faults w ->
   exists (s' : IsoBoard.State) (w' : World num) (id : string) (c : ConversationDoc)
          (msgs : gmap string MessageDoc) (mid : string) (m : MessageDoc),
     handleHelp user request s w = (Ok s', w') /\
     alerts s' =
       alerts s ++
       ["Message sent! They will be able to see your message in their conversations."] /\
     sendingMessageId s' = None /\
     requests s' = requests s /\
     conversations (db w') !! id = Some c /\
     user_id u ∈ participantIds c /\ userId request ∈ participantIds c /\
     lastMessageText c = "Hi, I can help with your request for: " +:+ title request /\
     messages (db w') !! id = Some msgs /\ msgs !! mid = Some m /\
     senderId m = user_id u /\
     text m = "Hi, I can help with your request for: " +:+ title request).
Proof.
  split; [|split].
  - by intros ->.
  - intros u -> Hid. unfold handleHelp. by rewrite bool_decide_eq_true_2.
  - intros u -> Hid Hw. unfold handleHelp. rewrite bool_decide_eq_false_2 by done.
    destruct (getOrCreateConversation_ok (user_id u) (userId request) w Hw)
      as (id & w1 & c & E1 & Hw1 & Hc & Ha & Hb & _).
    destruct (sendMessage_ok id (user_id u)
                ("Hi, I can help with your request for: " +:+ title request) w1 c Hw1 Hc)
      as (w2 & now & msgs & mid & t & E2 & _ & Hc2 & Hm & Hmid & _).
    unfold bind at 1, try_catch, bind at 1. rewrite E1. unfold bind at 1. rewrite E2.
    unfold ret. eexists _, w2, id, _, msgs, mid, _.
    split; [reflexivity|]. cbn [alerts sendingMessageId requests setSendingMessageId alert].
    split; [done|]. split; [done|]. split; [done|].
    split; [rewrite Hc2; apply lookup_insert_eq|]. split; [done|]. split; [done|].
    split; [done|]. split; [exact Hm|]. split; [exact Hmid|]. done.
Qed.

End IsoBoardFacts.

Section IsoBoardFloat.
Context `{MathLib} `{Vendor}.
Import IsoBoard.
Local Open Scope float_scope.

(** X17. With no vendor failure, fetchRequests shows exactly the stored
    requests whose distance from latitude 0, longitude 0, as the code
    computes it in binary64, is at most 20000.  That is not every request:
    on an engine where Math.sin(Math.PI / 2) is 1 and Math.atan2(1, 0) is
    Math.PI / 2, the opposite point, at longitude 180, has computed distance
    20015.086796020572, which is more than 20000, so a request placed there
    is never shown. *)
Theorem fetchRequests_within_20000 (s : IsoBoard.State) (w : World float) :
  (js_sin (PI64 / 2) = 1 -> js_atan2 1 0 = PI64 / 2 ->
   haversineDistance Sample.origin Sample.antipode = 0x1.38bc58e10e572p+14 /\
   (0x1.38bc58e10e572p+14 <=? 20000) = false) /\
  (no_faults w ->
   exists (s' : IsoBoard.State) (w' : World float),
     fetchRequests s w = (Ok s', w') /\
     isLoading s' = false /\ error s' = None /\ db w' = db w /\
     (forall l : Listing float,
        l ∈ requests s' <->
        exists id d,
          listings (db w) !! id = Some d /\
          postType (doc_data d) = REQUEST /\
          (haversineDistance Sample.origin (location (doc_data d)) <=? 20000) = true /\
          l = listingOfDoc (users (db w)) (id, d)) /\
     (js_sin (PI64 / 2) = 1 -> js_atan2 1 0 = PI64 / 2 ->
      forall l : Listing float, l ∈ requests s' -> location l <> Sample.antipode)).
Proof.
  split; [intros Hsin Hatan; by rewrite (haversineDistance_antipode Hsin Hatan)|].
  intros Hw.
  destruct (getNearbyListings_ok {| latitude := lit 0 0; longitude := lit 0 0 |}
              (lit 20000 0) w Hw) as [n E].
  unfold fetchRequests. unfold bind at 1, try_catch, bind at 1. rewrite E. unfold ret.
  eexists _, _. split; [reflexivity|]. cbn [isLoading error requests].
  split; [done|]. split; [done|]. split; [apply db_ticks|].
  assert (Hmem : forall l : Listing float,
    l ∈ List.filter (fun l : Listing float => bool_decide (postType l = REQUEST))
          (listingOfDoc (users (db w)) <$>
             List.filter (doc_within {| latitude := lit 0 0; longitude := lit 0 0 |}
                            (lit 20000 0)) (map_to_list (listings (db w)))) <->
    exists id d,
      listings (db w) !! id = Some d /\
      postType (doc_data d) = REQUEST /\
      (haversineDistance Sample.origin (location (doc_data d)) <=? 20000) = true /\
      l = listingOfDoc (users (db w)) (id, d)).
  { intros l. rewrite list_elem_of_In, List.filter_In, <- list_elem_of_In.
    rewrite list_elem_of_fmap, bool_decide_eq_true. split.
    - intros [([id d] & -> & Hin) Hreq].
      apply list_elem_of_In, List.filter_In in Hin as [Hin Hwithin].
      apply list_elem_of_In, elem_of_map_to_list in Hin.
      exists id, d. unfold listingOfDoc in Hreq. cbn [fst snd] in *.
      rewrite listing_data_listingOf in Hreq. done.
    - intros (id & d & Hl & Hreq & Hd & ->). split.
      + exists (id, d). split; [done|].
        apply list_elem_of_In, List.filter_In. split; [|exact Hd].
        by apply list_elem_of_In, elem_of_map_to_list.
      + unfold listingOfDoc. cbn [fst snd]. by rewrite listing_data_listingOf. }
  split; [exact Hmem|].
  intros Hsin Hatan l (id & d & _ & _ & Hd & ->)%Hmem Hanti.
  unfold listingOfDoc in Hanti. cbn [fst snd] in Hanti.
  rewrite listing_data_listingOf in Hanti.
  rewrite Hanti, (haversineDistance_antipode Hsin Hatan) in Hd. discriminate.
Qed.

End IsoBoardFloat.

(** ** components/MapView.tsx *)

Lemma elem_of_filter_bool {A} (f : A -> bool) (x : A) (xs : list A) :
  x ∈ List.filter f xs <-> x ∈ xs /\ f x = true.
Proof. by rewrite !list_elem_of_In, List.filter_In. Qed.

Lemma filter_id {A} (f : A -> bool) (xs : list A) :
  (forall x, x ∈ xs -> f x = true) -> List.filter f xs = xs.
Proof.
  intros Hall. induction xs as [|x xs IH]; [done|]. cbn.
  rewrite Hall by apply list_elem_of_here. f_equal. apply IH.
  intros y Hy. by apply Hall, list_elem_of_further.
Qed.

Section MapViewFacts.
Context {num : Type} `{JsNumber num} `{Vendor}.
Import MapViewActions.

Lemma fetchListings_ok (location : GeoPoint num) (s : MapView.State) (w : World num) :
  no_faults w ->
  exists n,
    fetchListings location s w =
    (Ok (setIsLoading false
           (setListings
              (listingOfDoc (users (db w)) <$>
                 List.filter (doc_within location (lit 15 0))
                   (map_to_list (listings (db w))))
              (setError None (setIsLoading true s)))),
     ticks n w).
Proof.
  intros Hw. destruct (getNearbyListings_ok location (lit 15 0) w Hw) as [n E].
  exists n. unfold fetchListings. cbv zeta.
  unfold bind at 1, try_catch, bind at 1. by rewrite E.
Qed.

Lemma listingTypeTest_true (f : ListingType) (l : Listing num) :
  MapView.listingTypeTest f l = true <-> postType l = REQUEST \/ listingType l = f.
Proof.
  rewrite listingTypeTest_cases. unfold dealTypeTest.
  destruct (postType l); rewrite ?bool_decide_eq_true; intuition discriminate.
Qed.

Lemma applyFilters_elem (ls : list (Listing num)) pf cf lf (l : Listing num) :
  l ∈ MapView.applyFilters ls pf cf lf <->
  l ∈ ls /\
  match pf with Some f => postType l = f | None => True end /\
  match cf with Some f => category l = f | None => True end /\
  match lf with
  | Some f => postType l = REQUEST \/ listingType l = f
  | None => True
  end.
Proof.
  unfold MapView.applyFilters.
  destruct pf as [p|], cf as [c|], lf as [f|];
    rewrite ?elem_of_filter_bool, ?bool_decide_eq_true, ?listingTypeTest_true; tauto.
Qed.

(** X18. The filtering effect of MapView shows exactly the listings that
    pass every filter that is set (the deal-type one on offers only), in
    the order they were fetched; filtering what is shown again changes
    nothing. *)
Theorem applyFilters_exact (ls : list (Listing num)) (pf : option PostType)
    (cf : option Category) (lf : option ListingType) :
  (forall l : Listing num,
     l ∈ MapView.applyFilters ls pf cf lf <->
     l ∈ ls /\
     match pf with Some f => postType l = f | None => True end /\
     match cf with Some f => category l = f | None => True end /\
     match lf with
     | Some f => postType l = REQUEST \/ listingType l = f
     | None => True
     end) /\
  sublist (MapView.applyFilters ls pf cf lf) ls /\
  MapView.applyFilters (MapView.applyFilters ls pf cf lf) pf cf lf =
    MapView.applyFilters ls pf cf lf.
Proof.
  split; [apply applyFilters_elem|]. split.
  - unfold MapView.applyFilters.
    destruct pf, cf, lf; repeat (etrans; [apply filter_sublist|]); done.
  - unfold MapView.applyFilters at 1.
    assert (Hp : forall xs : list (Listing num),
              (forall l, l ∈ xs -> l ∈ MapView.applyFilters ls pf cf lf) ->
              match pf with
              | Some f => List.filter (fun l : Listing num => bool_decide (postType l = f)) xs
              | None => xs
              end = xs).
    { intros xs Hxs. destruct pf as [p|]; [|done]. apply filter_id.
      intros l Hl%Hxs%applyFilters_elem. apply bool_decide_eq_true. tauto. }
    assert (Hc : forall xs : list (Listing num),
              (forall l, l ∈ xs -> l ∈ MapView.applyFilters ls pf cf lf) ->
              match cf with
              | Some f => List.filter (fun l : Listing num => bool_decide (category l = f)) xs
              | None => xs
              end = xs).
    { intros xs Hxs. destruct cf as [c|]; [|done]. apply filter_id.
      intros l Hl%Hxs%applyFilters_elem. apply bool_decide_eq_true. tauto. }
    assert (Hf : forall xs : list (Listing num),
              (forall l, l ∈ xs -> l ∈ MapView.applyFilters ls pf cf lf) ->
              match lf with
              | Some f => List.filter (MapView.listingTypeTest f) xs
              | None => xs
              end = xs).
    { intros xs Hxs. destruct lf as [f|]; [|done]. apply filter_id.
      intros l Hl%Hxs%applyFilters_elem. apply listingTypeTest_true. tauto. }
    cbv zeta. rewrite (Hp _ (fun l Hl => Hl)), (Hc _ (fun l Hl => Hl)).
    apply Hf. done.
Qed.

(** X19. In MapView, deleting a marker does nothing when the question is
    not confirmed.  When it is and no vendor call fails, the listing is
    deleted, the listings are fetched again around the centre, and none of
    them has the deleted id.  When the first vendor call fails nothing is
    deleted, the state stays as it was and the alert shows the message of
    deleteListing. *)
Theorem handleDelete_outcomes (confirmed : bool) (listing : Listing num)
    (s : MapView.State) (w : World num) :
  (confirmed = false -> handleDelete confirmed listing s w = (Ok (s, None), w)) /\
  (confirmed = true -> no_faults w ->
   exists (s' : MapView.State) (w' : World num),
     handleDelete confirmed listing s w = (Ok (s', None), w') /\
     listings (db w') = delete (listing_id listing) (listings (db w)) /\
     MapView.isLoading s' = false /\ MapView.error s' = None /\
     (forall l : Listing num,
        l ∈ MapView.listings s' <->
        exists id d,
          listings (db w) !! id = Some d /\ id <> listing_id listing /\
          doc_within (MapView.center s) (lit 15 0) (id, d) = true /\
          l = listingOfDoc (users (db w)) (id, d))) /\
  (confirmed = true -> forall e, first_fault w = Some e ->
   exists w' : World num,
     handleDelete confirmed listing s w =
       (Ok (s, Some "Failed to delete listing. Please try again."), w') /\
     db w' = db w).
Proof.
  split; [|split].
  - by intros ->.
  - intros -> Hw. unfold handleDelete. cbn [negb].
    set (w1 := with_db
                 (setDocs listings_c
                    (delete (listing_id listing) (listings (db w))) (db w))
                 (tick w)).
    assert (Hw1 : no_faults w1) by apply no_faults_with_db, no_faults_tick, Hw.
    destruct (fetchListings_ok (MapView.center s) s w1 Hw1) as [n E].
    unfold try_catch, bind at 1.
    rewrite deleteListing_eq, (first_fault_no_faults _ Hw). fold w1.
    unfold bind at 1. rewrite E. unfold ret. eexists _, _. split; [reflexivity|].
    rewrite db_ticks. cbn. split; [done|]. split; [done|]. split; [done|].
    intros l. rewrite list_elem_of_fmap. split.
    + intros ([id d] & -> & Hin).
      apply list_elem_of_In, List.filter_In in Hin as [Hin Hwithin].
      apply list_elem_of_In, elem_of_map_to_list in Hin.
      apply lookup_delete_Some in Hin as [Hne Hl].
      exists id, d. done.
    + intros (id & d & Hl & Hne & Hwithin & ->). exists (id, d). split; [done|].
      apply list_elem_of_In, List.filter_In. split; [|done].
      apply list_elem_of_In, elem_of_map_to_list, lookup_delete_Some. done.
  - intros -> e He. unfold handleDelete. cbn [negb].
    unfold try_catch, bind at 1. rewrite deleteListing_eq, He. unfold failed, ret.
    eexists. split; [reflexivity|]. cbn. apply db_tick.
Qed.

End MapViewFacts.

(** ** components/NewListingForm.tsx and components/EditListingForm.tsx *)

Section FormFacts.
Context {num : Type} `{JsNumber num} `{Vendor}.

Lemma uploadImage_ok (file : File) (w : World num) :
  no_faults w ->
  uploadImage file w =
  (Ok (downloadURL ("listings/" +:+ pretty (clock w) +:+ "_" +:+ file_name file)),
   ticks 2 w).
Proof.
  intros Hw. unfold uploadImage, try_catch, uploadBytes, getDownloadURL, Timestamp_now.
  unfold bind at 1 2 3. rewrite (vendor_call_ok _ Hw). unfold ret at 1.
  unfold bind at 1 2. rewrite (vendor_call_ok _ (no_faults_tick _ Hw)). done.
Qed.

Lemma NewListingForm_submit_ok (geocode : string -> M num (GeoPoint num))
    (user : User) (s : NewListingForm.State) (file : File) (geoPoint : GeoPoint num)
    (w w1 : World num) :
  NewListingForm.imageFile s = Some file ->
  geocode (NewListingForm.locationName s) w = (Ok geoPoint, w1) ->
  no_faults w1 ->
  let data :=
    NewListingForm.listingData user (NewListingForm.setStatus true None s)
      (downloadURL ("listings/" +:+ pretty (clock w1) +:+ "_" +:+ file_name file))
      geoPoint in
  NewListingForm.handleSubmit geocode user s w =
    (Ok (NewListingForm.setStatus false None (NewListingForm.setStatus true None s), true),
     with_db (setDocs listings_c
                (<[autoId (listings (db w1)) :=
                     {| doc_data := data; doc_createdAt := clock (ticks 2 w1);
                        doc_updatedAt := None |}]> (listings (db w1)))
                (db w1))
       (ticks 4 w1)).
Proof.
  intros E Hg Hw1 data. unfold NewListingForm.handleSubmit. rewrite E.
  cbv zeta. cbn [NewListingForm.locationName NewListingForm.setStatus].
  unfold bind at 1, try_catch, bind at 1. rewrite Hg. unfold bind at 1.
  rewrite (uploadImage_ok _ _ Hw1). unfold bind at 1.
  rewrite (createListing_ok _ _ (no_faults_ticks 2 _ Hw1)).
  unfold ret. cbn [fst snd NewListingForm.error]. rewrite !db_ticks. reflexivity.
Qed.

(** X20. handleSubmit of NewListingForm.  With no image chosen it only
    sets its message and calls nothing.  Otherwise it never throws and
    always stops the spinner; when it does not report success the store of
    listings is as it was and the form shows An error occurred. Please try
    again.; and when the place is found and no vendor call fails, exactly
    one listing is added, under a fresh id: the fields of the form, the URL
    of the uploaded image, the id of the signed-in user and the point the
    geocoder gave. *)
Theorem NewListingForm_handleSubmit (geocode : string -> M num (GeoPoint num))
    (user : User) (s : NewListingForm.State) (w : World num) :
  (NewListingForm.imageFile s = None ->
   NewListingForm.handleSubmit geocode user s w =
     (Ok (NewListingForm.setStatus (NewListingForm.isLoading s)
            (Some "Please fill all fields and add an image.") s, false), w)) /\
  (forall file, NewListingForm.imageFile s = Some file ->
   (forall q, readonly (geocode q)) ->
   exists (s' : NewListingForm.State) (created : bool) (w' : World num),
     NewListingForm.handleSubmit geocode user s w = (Ok (s', created), w') /\
     NewListingForm.isLoading s' = false /\
     (if created then NewListingForm.error s' = None
      else NewListingForm.error s' = Some "An error occurred. Please try again." /\
           db w' = db w)) /\
  (forall file geoPoint w1, NewListingForm.imageFile s = Some file ->
   geocode (NewListingForm.locationName s) w = (Ok geoPoint, w1) ->
   no_faults w1 ->
   exists (s' : NewListingForm.State) (w' : World num) (id : string),
     NewListingForm.handleSubmit geocode user s w = (Ok (s', true), w') /\
     listings (db w1) !! id = None /\
     listings (db w') =
       <[id := {| doc_data :=
                    {| title := NewListingForm.title s;
                       description := NewListingForm.description s;
                       postType := NewListingForm.postType s;
                       listingType := NewListingForm.listingType s;
                       category := NewListingForm.category s;
                       quantity := NewListingForm.quantity s;
                       imageUrl :=
                         downloadURL ("listings/" +:+ pretty (clock w1) +:+ "_" +:+
                                      file_name file);
                       userId := user_id user;
                       location := geoPoint;
                       locationName := NewListingForm.locationName s |};
                  doc_createdAt := clock (ticks 2 w1);
                  doc_updatedAt := None |}]> (listings (db w1))).
Proof.
  split; [|split].
  - intros E. unfold NewListingForm.handleSubmit. by rewrite E.
  - intros file E Hgeo. unfold NewListingForm.handleSubmit. rewrite E.
    cbv zeta. cbn [NewListingForm.locationName NewListingForm.setStatus].
    unfold bind at 1, try_catch, bind at 1.
    pose proof (Hgeo (NewListingForm.locationName s) w) as Hg.
    destruct (geocode (NewListingForm.locationName s) w) as [[geoPoint|e] w1]; cbn in Hg.
    + unfold bind at 1. pose proof (readonly_uploadImage file w1) as Hu.
      destruct (uploadImage file w1) as [[url|e] w2]; cbn in Hu.
      * unfold bind at 1.
        match goal with |- context [createListing ?d w2] =>
          pose proof (all_or_nothing_createListing d w2) as Hc;
          destruct (createListing d w2) as [[l|e] w3]
        end.
        -- eexists _, true, _. split; [reflexivity|]. done.
        -- eexists _, false, _. split; [reflexivity|]. cbn. split; [done|].
           split; [done|]. congruence.
      * eexists _, false, _. split; [reflexivity|]. cbn. split; [done|].
        split; [done|]. congruence.
    + eexists _, false, _. split; [reflexivity|]. cbn. done.
  - intros file geoPoint w1 E Hg Hw1.
    rewrite (NewListingForm_submit_ok _ _ _ _ _ _ _ E Hg Hw1).
    eexists _, _, _. split; [reflexivity|]. split; [apply autoId_fresh|]. reflexivity.
Qed.

(** X21. handleSubmit of EditListingForm never throws and always stops the
    spinner; when it does not report success the store is as it was.  When
    the place is found, no vendor call fails and the listing exists, the
    stored listing takes the fields of the form and the new point and keeps
    its image, its owner and its creation time; when the listing does not
    exist the form reports the error and creates nothing. *)
Theorem EditListingForm_handleSubmit (geocode : string -> M num (GeoPoint num))
    (listingId : string) (s : EditListingForm.State) (w : World num) :
  ((forall q, readonly (geocode q)) ->
   exists (s' : EditListingForm.State) (updated : bool) (w' : World num),
     EditListingForm.handleSubmit geocode listingId s w = (Ok (s', updated), w') /\
     EditListingForm.isLoading s' = false /\
     (if updated then EditListingForm.error s' = None
      else EditListingForm.error s' = Some "An error occurred. Please try again." /\
           db w' = db w)) /\
  (forall geoPoint w1,
   geocode (EditListingForm.locationName s) w = (Ok geoPoint, w1) ->
   no_faults w1 ->
   match listings (db w1) !! listingId with
   | Some d =>
       exists (s' : EditListingForm.State) (w' : World num),
         EditListingForm.handleSubmit geocode listingId s w = (Ok (s', true), w') /\
         listings (db w') =
           <[listingId :=
               {| doc_data :=
                    {| title := EditListingForm.title s;
                       description := EditListingForm.description s;
                       postType := EditListingForm.postType s;
                       listingType := EditListingForm.listingType s;
                       category := EditListingForm.category s;
                       quantity := EditListingForm.quantity s;
                       imageUrl := imageUrl (doc_data d);
                       userId := userId (doc_data d);
                       location := geoPoint;
                       locationName := EditListingForm.locationName s |};
                  doc_createdAt := doc_createdAt d;
                  doc_updatedAt := Some (clock w1) |}]> (listings (db w1))
   | None =>
       exists (s' : EditListingForm.State) (w' : World num),
         EditListingForm.handleSubmit geocode listingId s w = (Ok (s', false), w') /\
         EditListingForm.error s' = Some "An error occurred. Please try again." /\
         db w' = db w1
   end).
Proof.
  split.
  - intros Hgeo. unfold EditListingForm.handleSubmit.
    cbv zeta. cbn [EditListingForm.locationName EditListingForm.setStatus].
    unfold bind at 1, try_catch, bind at 1.
    pose proof (Hgeo (EditListingForm.locationName s) w) as Hg.
    destruct (geocode (EditListingForm.locationName s) w) as [[geoPoint|e] w1]; cbn in Hg.
    + unfold bind at 1.
      match goal with |- context [updateListing listingId ?d w1] =>
        pose proof (all_or_nothing_updateListing listingId d w1) as Hc;
        destruct (updateListing listingId d w1) as [[l|e] w3]
      end.
      * eexists _, true, _. split; [reflexivity|]. done.
      * eexists _, false, _. split; [reflexivity|]. cbn. split; [done|].
        split; [done|]. congruence.
    + eexists _, false, _. split; [reflexivity|]. cbn. done.
  - intros geoPoint w1 Hg Hw1.
    destruct (listings (db w1) !! listingId) as [d|] eqn:Hd;
      unfold EditListingForm.handleSubmit; cbv zeta;
      cbn [EditListingForm.locationName EditListingForm.setStatus];
      unfold bind at 1, try_catch, bind at 1; rewrite Hg; unfold bind at 1;
      rewrite updateListing_eq, (first_fault_no_faults _ Hw1), Hd; cbv zeta.
    + eexists _, _. split; [reflexivity|]. cbn. by destruct d as [[] ? ?].
    + eexists _, _. split; [reflexivity|]. cbn. split; [done|]. apply db_tick.
Qed.

(** X27. What a user creates shows up in their profile: after a submit of
    NewListingForm that found the place, with no vendor failure, the Profile
    of the same user loads without error and lists the new listing, with the
    title and the point of the form; and every listing it lists is the
    user's own. *)
Theorem submitted_listing_in_profile (geocode : string -> M num (GeoPoint num))
    (user : User) (s : NewListingForm.State) (file : File) (geoPoint : GeoPoint num)
    (profileState : Profile.State) (w w1 : World num) :
  NewListingForm.imageFile s = Some file ->
  geocode (NewListingForm.locationName s) w = (Ok geoPoint, w1) ->
  no_faults w1 ->
  exists (s' : NewListingForm.State) (w' : World num)
         (profileState' : Profile.State) (w'' : World num) (l : Listing num),
    NewListingForm.handleSubmit geocode user s w = (Ok (s', true), w') /\
    Profile.fetchUserListings user profileState w' = (Ok profileState', w'') /\
    Profile.isLoading profileState' = false /\
    Profile.error profileState' = None /\
    l ∈ Profile.listings profileState' /\
    listings (db w1) !! listing_id l = None /\
    title l = NewListingForm.title s /\
    location l = geoPoint /\
    (forall l' : Listing num, l' ∈ Profile.listings profileState' ->
       userId l' = user_id user).
Proof.
  intros E Hg Hw1. rewrite (NewListingForm_submit_ok _ _ _ _ _ _ _ E Hg Hw1). cbv zeta.
  set (doc := {| doc_data := _; doc_createdAt := _; doc_updatedAt := _ |}).
  set (w' := with_db _ _).
  assert (Hw' : no_faults w') by apply no_faults_with_db, (no_faults_ticks 4), Hw1.
  destruct (getListingsForUser_ok (user_id user) w' Hw') as [n En].
  eexists _, w', _, _, (listingOfDoc (users (db w')) (autoId (listings (db w1)), doc)).
  split; [reflexivity|]. split.
  { unfold Profile.fetchUserListings. cbv zeta.
    unfold bind at 1, try_catch, bind at 1. rewrite En. reflexivity. }
  cbn [Profile.isLoading Profile.error Profile.listings].
  split; [done|]. split; [done|]. split.
  { apply list_elem_of_fmap. eexists. split; [reflexivity|].
    apply list_elem_of_In, List.filter_In. split.
    - apply list_elem_of_In, elem_of_map_to_list. cbn. apply lookup_insert_eq.
    - by apply bool_decide_eq_true. }
  unfold listingOfDoc. cbn [fst snd]. rewrite listing_data_listingOf.
  split; [apply autoId_fresh|]. split; [done|]. split; [done|].
  intros l' ([id d] & -> & Hin)%list_elem_of_fmap.
  apply list_elem_of_In, List.filter_In in Hin as [_ Hid].
  apply bool_decide_eq_true in Hid. cbn [fst snd]. by rewrite listing_data_listingOf.
Qed.

End FormFacts.

(** ** components/Auth.tsx *)

Section AuthComponent.
Context {num : Type} `{JsNumber num} `{Vendor}.

Lemma signIn_throws (email password : string) (w w' : World num) (e : JsError) :
  signIn email password w = (Throw e, w') -> err_message e ∈ userMessages.
Proof.
  rewrite signIn_eq. destruct (first_fault w) as [e0|]; [|done].
  intros [= <- _]. cbn [err_message new_Error].
  repeat match goal with |- context [if ?b then _ else _] => destruct b end;
    rewrite list_elem_of_In; simpl; tauto.
Qed.

Lemma signUp_throws (email password displayName : string) (w w' : World num)
    (e : JsError) :
  signUp email password displayName w = (Throw e, w') ->
  err_message e ∈ userMessages /\ db w' = db w.
Proof.
  intros E. split.
  - revert E. unfold signUp, try_catch.
    match goal with |- context [bind ?c ?k w] => destruct (bind c k w) as [[u|e0] w1] end;
      [done|].
    unfold bind, log, throw.
    repeat match goal with |- context [if ?b then _ else _] => destruct b end;
      intros [= <- _]; rewrite list_elem_of_In; simpl; tauto.
  - pose proof (all_or_nothing_signUp email password displayName w) as Ha.
    by rewrite E in Ha.
Qed.

Lemma signUp_returns (email password displayName : string) (w w' : World num) (u : User) :
  signUp email password displayName w = (Ok u, w') ->
  user_id u = uid (credential email password) /\
  exists createdAt,
    users (db w') !! user_id u =
      Some {| ud_email := email; ud_displayName := displayName;
              ud_createdAt := createdAt |}.
Proof.
  unfold signUp, try_catch, createUserWithEmailAndPassword, updateProfile.
  unfold bind at 1 2 3. rewrite vendor_call_eq.
  destruct (first_fault w) as [e|].
  { unfold bind, log, throw.
    by repeat match goal with |- context [if ?b then _ else _] => destruct b end. }
  unfold ret at 1. unfold bind at 1 2. rewrite vendor_call_eq.
  destruct (first_fault (tick w)) as [e|].
  { unfold bind, log, throw.
    by repeat match goal with |- context [if ?b then _ else _] => destruct b end. }
  unfold ret at 1. unfold bind at 1, Timestamp_now. unfold bind at 1.
  rewrite setDoc_eq. destruct (first_fault (tick (tick w))) as [e|].
  { unfold bind, log, throw.
    by repeat match goal with |- context [if ?b then _ else _] => destruct b end. }
  unfold ret. intros [= <- <-]. split; [done|]. eexists. cbn. apply lookup_insert_eq.
Qed.

(** X22. The handlers of the Auth form never throw and always stop the
    spinner.  onLogin is called only when the service call succeeded, with
    the error cleared: after handleLogin with the converted credential, and
    after handleSignUp with a user whose document is stored under the
    vendor's uid with the email and display name typed.  On failure the form
    shows one of the fixed messages of the service layer and the store is as
    it was.  The outcome follows the vendor's replies: handleLogin makes one
    vendor call and calls onLogin exactly when that call succeeds, else it
    shows the message of signIn for the error the vendor gave; handleSignUp
    (for a uid that names a document) calls onLogin exactly when none of its
    three vendor calls fails, else it shows the message of signUp for the
    first error.  handleSignOut of App has no such guard: it clears the user
    when the vendor signs out, and when the vendor fails it throws Failed to
    sign out and gives no new state, so the user stays signed in on
    screen. *)
Theorem Auth_handlers (s : Auth.State) (user : option User) (w : World num) :
  (exists (s' : Auth.State) (r : option User) (w' : World num),
     Auth.handleLogin s w = (Ok (s', r), w') /\
     Auth.isLoading s' = false /\ db w' = db w /\
     match r with
     | Some u =>
         Auth.error s' = "" /\
         u = convertFirebaseUser (credential (Auth.email s) (Auth.password s))
     | None => Auth.error s' ∈ userMessages
     end) /\
  (exists (s' : Auth.State) (r : option User) (w' : World num),
     Auth.handleSignUp s w = (Ok (s', r), w') /\
     Auth.isLoading s' = false /\
     match r with
     | Some u =>
         Auth.error s' = "" /\
         user_id u = uid (credential (Auth.email s) (Auth.password s)) /\
         exists createdAt,
           users (db w') !! user_id u =
             Some {| ud_email := Auth.email s; ud_displayName := Auth.displayName s;
                     ud_createdAt := createdAt |}
     | None => Auth.error s' ∈ userMessages /\ db w' = db w
     end) /\
  App.handleSignOut user w =
    match first_fault w with
    | None => (Ok None, tick w)
    | Some e => failed "Sign out error:" "Failed to sign out" e (tick w)
    end /\
  Auth.handleLogin s w =
    match first_fault w with
    | None =>
        (Ok (Auth.setStatus false "" s,
             Some (convertFirebaseUser (credential (Auth.email s) (Auth.password s)))),
         tick w)
    | Some e =>
        (Ok (Auth.setStatus false (signInMessage e) s, None),
         logged (console_error "Sign in error:" e) (tick w))
    end /\
  (validId (uid (credential (Auth.email s) (Auth.password s))) = true ->
   match faultWithin 3 w with
   | Some (e, w1) =>
       Auth.handleSignUp s w =
         (Ok (Auth.setStatus false (signUpMessage e) s, None),
          logged (console_error "Sign up error:" e) w1)
   | None =>
       exists (u : User) (w' : World num),
         Auth.handleSignUp s w = (Ok (Auth.setStatus false "" s, Some u), w') /\
         user_id u = uid (credential (Auth.email s) (Auth.password s)) /\
         users (db w') !! user_id u =
           Some {| ud_email := Auth.email s; ud_displayName := Auth.displayName s;
                   ud_createdAt := clock (ticks 2 w) |}
   end).
Proof.
  split; [|split; [|split; [|split]]].
  - unfold Auth.handleLogin. cbv zeta. cbn [Auth.email Auth.password Auth.setStatus].
    unfold bind at 1, try_catch, bind at 1.
    pose proof (readonly_signIn (Auth.email s) (Auth.password s) w) as Hr.
    destruct (signIn (Auth.email s) (Auth.password s) w) as [[u|e] w'] eqn:E.
    + eexists _, (Some u), w'. split; [reflexivity|]. split; [done|]. split; [done|].
      split; [done|]. rewrite signIn_eq in E. destruct (first_fault w); congruence.
    + eexists _, None, w'. split; [reflexivity|]. split; [done|]. split; [done|].
      cbn. by eapply signIn_throws.
  - unfold Auth.handleSignUp. cbv zeta.
    cbn [Auth.email Auth.password Auth.displayName Auth.setStatus].
    unfold bind at 1, try_catch, bind at 1.
    destruct (signUp (Auth.email s) (Auth.password s) (Auth.displayName s) w)
      as [[u|e] w'] eqn:E.
    + eexists _, (Some u), w'. split; [reflexivity|]. split; [done|].
      split; [done|]. by eapply signUp_returns.
    + eexists _, None, w'. split; [reflexivity|]. split; [done|].
      cbn. by eapply signUp_throws.
  - unfold App.handleSignOut, signOut, try_catch, firebaseSignOut. unfold bind at 1.
    rewrite vendor_call_eq. by destruct (first_fault w).
  - unfold Auth.handleLogin at 1. cbv zeta.
    cbn [Auth.email Auth.password Auth.setStatus].
    unfold bind at 1, try_catch, bind at 1. rewrite signIn_run.
    by destruct (first_fault w).
  - intros _.
    assert (E : Auth.handleSignUp s w =
                match signUp (Auth.email s) (Auth.password s) (Auth.displayName s) w with
                | (Ok u, w') => (Ok (Auth.setStatus false "" s, Some u), w')
                | (Throw e, w') => (Ok (Auth.setStatus false (err_message e) s, None), w')
                end).
    { unfold Auth.handleSignUp. cbv zeta.
      cbn [Auth.email Auth.password Auth.displayName Auth.setStatus].
      unfold bind at 1, try_catch, bind at 1.
      by destruct (signUp _ _ _ w) as [[u|e] w']. }
    rewrite E, signUp_run. cbv zeta.
    destruct (faultWithin 3 w) as [[e w1]|]; [done|].
    eexists _, _. split; [reflexivity|]. split; [done|]. cbn. apply lookup_insert_eq.
Qed.

End AuthComponent.

(** ** Gallery posts *)

Section GalleryFacts.
Context {num : Type} `{JsNumber num} `{Vendor}.

Lemma gallery_loop (m : gmap string UserDoc) (snapshot : list (string * GalleryDoc)) :
  forall (acc : list GalleryPost) (w : World num),
  users (db w) = m ->
  exists (posts : list GalleryPost) (w' : World num),
    for_of snapshot
      (fun '(id, data) posts =>
         user <- fetchUser_if "Could not fetch user data for gallery post:" (gd_userId data) ;;;
         ret (posts ++ [ {| gallery_id := id; gallery_title := gd_title data;
                            gallery_imageUrl := gd_imageUrl data;
                            gallery_userId := gd_userId data;
                            gallery_user := user;
                            originalListingId := gd_originalListingId data |} ]))
      acc w = (Ok (acc ++ posts), w') /\
    db w' = db w /\
    withoutUser <$> posts = withoutUser ∘ postOfDoc m <$> snapshot /\
    Forall (fun p => gallery_user p = None \/
                     gallery_user p = profile_if m (gallery_userId p)) posts /\
    (no_faults w -> posts = postOfDoc m <$> snapshot).
Proof.
  induction snapshot as [|[id data] snapshot IH]; intros acc w Hm.
  { exists [], w. rewrite app_nil_r. done. }
  cbn [for_of]. unfold bind at 1 2.
  assert (Hu : exists u w1,
            fetchUser_if "Could not fetch user data for gallery post:" (gd_userId data) w =
              (Ok u, w1) /\ db w1 = db w /\
            (u = None \/ u = profile_if m (gd_userId data)) /\
            (no_faults w -> u = profile_if m (gd_userId data) /\ no_faults w1)).
  { unfold fetchUser_if, profile_if. destruct (bool_decide (gd_userId data = "")).
    - exists None, w. split; [done|]. split; [done|]. split; [by left|]. done.
    - rewrite fetchUser_eq. destruct (first_fault w) as [e|] eqn:F.
      + eexists _, _. split; [reflexivity|]. split; [apply db_tick|]. split; [by left|].
        intros Hw. by rewrite (first_fault_no_faults _ Hw) in F.
      + eexists _, _. split; [reflexivity|]. split; [apply db_tick|]. rewrite Hm.
        split; [by right|]. intros Hw. split; [done|]. by apply no_faults_tick. }
  destruct Hu as (u & w1 & -> & Hdb & Hcase & Hok). unfold ret at 1.
  destruct (IH (acc ++ [ {| gallery_id := id; gallery_title := gd_title data;
                            gallery_imageUrl := gd_imageUrl data;
                            gallery_userId := gd_userId data; gallery_user := u;
                            originalListingId := gd_originalListingId data |} ]) w1
              ltac:(by rewrite Hdb))
    as (posts & w' & -> & Hdb' & Hbare & Hall & Hposts).
  eexists (_ :: posts), w'. split; [by rewrite <- app_assoc|].
  split; [congruence|]. split; [cbn; by rewrite Hbare|]. split.
  - constructor; [exact Hcase | exact Hall].
  - intros Hw. destruct (Hok Hw) as [-> Hw1]. cbn. by rewrite (Hposts Hw1).
Qed.

(** X23. Once the gallery has been read, getGalleryPosts returns one post
    per stored document, in snapshot order, with the document's id, title,
    image, user id and original listing, whatever happens to the profile
    reads: a failed read leaves the post without user, it never drops the
    post and never attaches another profile.  With no vendor failure every
    post whose user id is set and stored carries that profile.  If the
    first read of the gallery fails, the function throws its own message. *)
Theorem getGalleryPosts_keeps_every_post (w : World num) :
  match first_fault w with
  | Some e =>
      getGalleryPosts w =
        failed "Error fetching gallery posts:"
          "Failed to fetch gallery posts. Please try again." e (tick w)
  | None =>
      exists (posts : list GalleryPost) (w' : World num),
        getGalleryPosts w = (Ok posts, w') /\
        db w' = db w /\
        withoutUser <$> posts =
          withoutUser ∘ postOfDoc (users (db w)) <$> map_to_list (gallery (db w)) /\
        Forall (fun p => gallery_user p = None \/
                         gallery_user p = profile_if (users (db w)) (gallery_userId p))
          posts /\
        (no_faults w ->
         posts = postOfDoc (users (db w)) <$> map_to_list (gallery (db w)))
  end.
Proof.
  destruct (first_fault w) as [e|] eqn:F; unfold getGalleryPosts, try_catch;
    unfold bind at 1; rewrite getDocs_eq, F; [done|]. cbn [docs gallery_c].
  destruct (gallery_loop (users (db w)) (map_to_list (gallery (db w))) [] (tick w)
              (f_equal users (db_tick w)))
    as (posts & w' & E & Hdb & Hbare & Hall & Hposts).
  rewrite E. exists posts, w'. split; [done|]. split; [by rewrite Hdb, db_tick|].
  split; [done|]. split; [done|]. intros Hw. apply Hposts. by apply no_faults_tick.
Qed.

End GalleryFacts.

(** ** services/geoService.ts inside the forms *)

Section NominatimFacts.
Context {num : Type} `{JsNumber num} `{Vendor}.
Variable parseFloat : string -> num.
Variable encodeURIComponent : string -> string.
Variable fetch : string -> Nominatim.Fetched.

Lemma readonly_Nominatim_geocode (query : string) :
  readonly (Nominatim.geocode parseFloat encodeURIComponent fetch query).
Proof.
  intros w. unfold Nominatim.geocode, try_catch.
  destruct (fetch _) as [e|[] [e| |[|result rest]]]; done.
Qed.

(** X24. The geocoder that asks Nominatim gives the point of the first
    result when the answer is a non-empty array of an ok response.  In every
    other case (the request is rejected, the response is not ok, the body
    does not parse, is null or is empty) it logs the cause and throws one
    and the same message, so Location not found never reaches a caller; and
    NewListingForm then shows An error occurred. Please try again., calls no
    vendor, uploads nothing and stores nothing. *)
Theorem Nominatim_geocode_outcomes (user : User) (s : NewListingForm.State)
    (file : File) (w : World num) :
  let query := NewListingForm.locationName s in
  let geocode := Nominatim.geocode parseFloat encodeURIComponent fetch in
  match fetch (Nominatim.url encodeURIComponent query) with
  | Nominatim.fetch_response true (Nominatim.json_array (result :: _)) =>
      geocode query w =
        (Ok {| latitude := parseFloat (Nominatim.lat result);
               longitude := parseFloat (Nominatim.lon result) |}, w)
  | _ =>
      exists cause : JsError,
        geocode query w =
          failed "Geocoding error:"
            "Failed to geocode location. Please try a different search term." cause w /\
        (NewListingForm.imageFile s = Some file ->
         exists s' : NewListingForm.State,
           NewListingForm.handleSubmit geocode user s w =
             (Ok (s', false),
              logged (console_error ""
                        (new_Error
                           "Failed to geocode location. Please try a different search term."))
                (logged (console_error "Geocoding error:" cause) w)) /\
           NewListingForm.isLoading s' = false /\
           NewListingForm.error s' = Some "An error occurred. Please try again.")
  end.
Proof.
  intros query geocode.
  assert (Hfail : forall cause : JsError,
    geocode query w =
      failed "Geocoding error:"
        "Failed to geocode location. Please try a different search term." cause w ->
    exists cause : JsError,
      geocode query w =
        failed "Geocoding error:"
          "Failed to geocode location. Please try a different search term." cause w /\
      (NewListingForm.imageFile s = Some file ->
       exists s' : NewListingForm.State,
         NewListingForm.handleSubmit geocode user s w =
           (Ok (s', false),
            logged (console_error ""
                      (new_Error
                         "Failed to geocode location. Please try a different search term."))
              (logged (console_error "Geocoding error:" cause) w)) /\
         NewListingForm.isLoading s' = false /\
         NewListingForm.error s' = Some "An error occurred. Please try again.")).
  { intros cause E. exists cause. split; [exact E|]. intros Hfile.
    unfold NewListingForm.handleSubmit. rewrite Hfile. cbv zeta.
    cbn [NewListingForm.locationName NewListingForm.setStatus].
    unfold bind at 1, try_catch at 1, bind at 1. fold query. fold geocode. rewrite E.
    unfold failed. eexists. split; [reflexivity|]. done. }
  destruct (fetch (Nominatim.url encodeURIComponent query))
    as [e|[] [e| |[|result rest]]] eqn:Hf;
    first [ eapply Hfail | idtac ];
    unfold geocode, Nominatim.geocode, try_catch; rewrite Hf; reflexivity.
Qed.

End NominatimFacts.

(** ** components/MessagesView.tsx *)

Section TimestampFacts.
Variable toLocaleDateString : Z -> string.
Local Open Scope Z_scope.

(** X25. The age formatTimestamp shows, for a message sent at [date] and
    read at [now] (milliseconds): Just now below one minute, which includes
    every message dated in the future; then whole minutes from 1 to 59,
    whole hours from 1 to 23 and whole days from 1 to 6, each rounded down;
    and the date itself from seven days on.  A missing timestamp shows
    nothing. *)
Theorem formatTimestamp_ages (date now : Z) :
  let shown := MessagesView.formatTimestamp toLocaleDateString (Some date) now in
  let diff := now - date in
  MessagesView.formatTimestamp toLocaleDateString None now = "" /\
  (diff < 60000 /\ shown = "Just now" \/
   (exists minutes, 1 <= minutes <= 59 /\
      60000 * minutes <= diff < 60000 * (minutes + 1) /\
      shown = pretty minutes +:+ "m ago") \/
   (exists hours, 1 <= hours <= 23 /\
      3600000 * hours <= diff < 3600000 * (hours + 1) /\
      shown = pretty hours +:+ "h ago") \/
   (exists days, 1 <= days <= 6 /\
      86400000 * days <= diff < 86400000 * (days + 1) /\
      shown = pretty days +:+ "d ago") \/
   604800000 <= diff /\ shown = toLocaleDateString date).
Proof.
  intros shown diff. split; [done|]. subst shown.
  unfold MessagesView.formatTimestamp. cbv zeta. fold diff.
  destruct (Z.ltb_spec diff 60000) as [H1|H1]; [by left|]. right.
  destruct (Z.ltb_spec diff 3600000) as [H2|H2].
  { left. exists (diff / 60000). split; [|split; [|done]].
    - pose proof (Z.div_le_lower_bound diff 60000 1). 
      pose proof (Z.div_lt_upper_bound diff 60000 60). lia.
    - pose proof (Z.mul_div_le diff 60000).
      pose proof (Z.mul_succ_div_gt diff 60000). lia. }
  right. destruct (Z.ltb_spec diff 86400000) as [H3|H3].
  { left. exists (diff / 3600000). split; [|split; [|done]].
    - pose proof (Z.div_le_lower_bound diff 3600000 1).
      pose proof (Z.div_lt_upper_bound diff 3600000 24). lia.
    - pose proof (Z.mul_div_le diff 3600000).
      pose proof (Z.mul_succ_div_gt diff 3600000). lia. }
  right. destruct (Z.ltb_spec diff 604800000) as [H4|H4].
  { left. exists (diff / 86400000). split; [|split; [|done]].
    - pose proof (Z.div_le_lower_bound diff 86400000 1).
      pose proof (Z.div_lt_upper_bound diff 86400000 7). lia.
    - pose proof (Z.mul_div_le diff 86400000).
      pose proof (Z.mul_succ_div_gt diff 86400000). lia. }
  right. done.
Qed.

End TimestampFacts.

(** ** The mock service layer *)

Section MockFacts.
Context {num : Type} `{JsNumber num}.

Lemma mockIds_S (n : nat) :
  mockIds (S n) = mockIds n ++ ["listing" +:+ pretty (n + 1)%nat].
Proof.
  unfold mockIds. rewrite seq_S, fmap_app. by replace (n + 1)%nat with (1 + n)%nat by lia.
Qed.

Lemma created_ids (datas : list (ListingData num)) :
  forall (listings : list (Listing num)) (n : nat),
  listing_id <$> listings = mockIds n ->
  listing_id <$> created listings datas = mockIds (n + length datas).
Proof.
  induction datas as [|d datas IH]; intros listings n Hn.
  { cbn. by rewrite Nat.add_0_r. }
  cbn [created foldl length]. replace (n + S (length datas))%nat with (S n + length datas)%nat by lia.
  apply IH. cbn [Mock.createListing snd]. rewrite fmap_app, Hn, mockIds_S. cbn.
  do 4 f_equal. rewrite <- (length_fmap listing_id), Hn. unfold mockIds.
  by rewrite length_fmap, length_seq.
Qed.

Lemma NoDup_mockIds (n : nat) : NoDup (mockIds n).
Proof.
  unfold mockIds. apply NoDup_fmap_2; [|apply NoDup_seq].
  intros i j E. apply (inj pretty). by apply (inj (String.app "listing")) in E.
Qed.

(** X26. In the mock layer, however many listings are created after the
    three it starts with, the ids are listing1, listing2, ... in order: no
    two listings of the array share an id, the listings that were there are
    kept as they were, and each new listing is returned with the data given
    and the mock user of its user id. *)
Theorem Mock_createListing_ids (datas : list (ListingData num)) :
  let listings := created Mock.mockListings datas in
  listing_id <$> listings = mockIds (3 + length datas) /\
  NoDup (listing_id <$> listings) /\
  Mock.mockListings `prefix_of` listings /\
  length listings = (3 + length datas)%nat /\
  forall d : ListingData num,
    exists l : Listing num,
      Mock.createListing listings d = (Ok l, listings ++ [l]) /\
      listing_data l = d /\
      (listing_id l ∉ listing_id <$> listings) /\
      user l = Mock.findUser (userId d).
Proof.
  intros listings.
  assert (Hids : listing_id <$> listings = mockIds (3 + length datas)).
  { by apply created_ids. }
  assert (Hlen : length listings = (3 + length datas)%nat).
  { rewrite <- (length_fmap listing_id), Hids. unfold mockIds.
    by rewrite length_fmap, length_seq. }
  split; [exact Hids|]. split; [rewrite Hids; apply NoDup_mockIds|]. split.
  { subst listings. clear. generalize (@Mock.mockListings num _).
    induction datas as [|d datas IH]; intros ls; [done|]. cbn [created foldl].
    etrans; [|apply IH]. cbn. by apply prefix_app_r. }
  split; [exact Hlen|]. intros d. eexists. split; [reflexivity|]. cbn.
  split; [done|]. split; [|done].
  pose proof (NoDup_mockIds (S (3 + length datas))) as Hnd.
  rewrite mockIds_S, <- Hids, <- Hlen in Hnd.
  apply NoDup_app in Hnd as (_ & Hnot & _). intros Hin. apply (Hnot _ Hin), list_elem_of_here.
Qed.

End MockFacts.

(** ** Error handling, call by call *)

Section ErrorHandling.
Context {num : Type} `{JsNumber num} `{Vendor}.

Lemma never_throws_fetchUser_if label userId :
  never_throws (num := num) (fetchUser_if label userId).
Proof.
  unfold fetchUser_if. destruct (bool_decide _);
    [apply never_throws_ret | apply never_throws_fetchUser].
Qed.

Lemma never_throws_for_of {A S} (xs : list A) (body : A -> S -> M num S) (acc : S) :
  (forall x s, never_throws (body x s)) -> never_throws (for_of xs body acc).
Proof.
  intros Hb. revert acc. induction xs as [|x xs IH]; intros acc;
    [apply never_throws_ret|].
  cbn [for_of]. apply never_throws_bind; [apply Hb | apply IH].
Qed.

Lemma returns_of_never_throws {A} (c : M num A) (w : World num) :
  never_throws c -> exists a w', c w = (Ok a, w').
Proof.
  intros Hc. destruct (Hc w) as [a Ha]. destruct (c w) as [r w'].
  cbn in Ha. subst r. by exists a, w'.
Qed.

Lemma first_fault_with_db d (w : World num) : first_fault (with_db d w) = first_fault w.
Proof. done. Qed.

Lemma signOut_run (w : World num) :
  signOut w =
  match first_fault w with
  | None => (Ok tt, tick w)
  | Some e => failed "Sign out error:" "Failed to sign out" e (tick w)
  end.
Proof.
  unfold signOut, try_catch, firebaseSignOut. rewrite vendor_call_eq.
  by destruct (first_fault w).
Qed.

Lemma uploadImage_run (file : File) (w : World num) :
  uploadImage file w =
  match faultWithin 2 w with
  | Some (e, w1) =>
      failed "Upload error:" "Failed to upload image. Please try again." e w1
  | None =>
      (Ok (downloadURL ("listings/" +:+ pretty (clock w) +:+ "_" +:+ file_name file)),
       ticks 2 w)
  end.
Proof.
  cbn [faultWithin].
  unfold uploadImage, try_catch, uploadBytes, getDownloadURL, Timestamp_now.
  unfold bind at 1 2 3. rewrite vendor_call_eq.
  destruct (first_fault w) as [e|]; [done|].
  unfold ret at 1. unfold bind at 1 2. rewrite vendor_call_eq.
  by destruct (first_fault (tick w)) as [e|].
Qed.

Lemma createListing_run (listingData : ListingData num) (w : World num) :
  match first_fault w with
  | Some e =>
      createListing listingData w =
        failed "Error creating listing:" "Failed to create listing. Please try again."
          e (tick w)
  | None => exists l w', createListing listingData w = (Ok l, w')
  end.
Proof.
  destruct (first_fault w) as [e|] eqn:F;
    unfold createListing, try_catch, bind at 1 2, Timestamp_now;
    rewrite addDoc_eq, F; [done|].
  unfold bind at 1. rewrite fetchUser_eq.
  destruct (first_fault (with_db _ _)); eexists _, _; reflexivity.
Qed.

Lemma getGalleryPosts_run (w : World num) :
  match first_fault w with
  | Some e =>
      getGalleryPosts w =
        failed "Error fetching gallery posts:"
          "Failed to fetch gallery posts. Please try again." e (tick w)
  | None => exists posts w', getGalleryPosts w = (Ok posts, w')
  end.
Proof.
  destruct (first_fault w) as [e|] eqn:F; unfold getGalleryPosts, try_catch;
    unfold bind at 1; rewrite getDocs_eq, F; [done|]. cbn [docs gallery_c].
  destruct (gallery_loop (users (db w)) (map_to_list (gallery (db w))) [] (tick w)
              (f_equal users (db_tick w))) as (posts & w' & E & _).
  rewrite E. by exists posts, w'.
Qed.

Lemma getListingsForUser_run (userId' : string) (w : World num) :
  match first_fault w with
  | Some e =>
      getListingsForUser userId' w =
        failed "Error fetching user listings:"
          "Failed to fetch your listings. Please try again." e (tick w)
  | None => exists ls w', getListingsForUser userId' w = (Ok ls, w')
  end.
Proof.
  destruct (first_fault w) as [e|] eqn:F; unfold getListingsForUser, try_catch;
    unfold bind at 1; rewrite getDocs_where_eq, F; [done|].
  match goal with |- context [for_of ?xs ?body ?acc ?w0] =>
    destruct (returns_of_never_throws (for_of xs body acc) w0) as (ls & w' & E)
  end.
  { apply never_throws_for_of. intros [id d] acc. cbv zeta.
    apply never_throws_bind; [apply never_throws_fetchUser_if|].
    intros u. apply never_throws_ret. }
  rewrite E. by exists ls, w'.
Qed.


End ErrorHandling.

(** * More examples

    The further properties at sample inputs. *)

Section MoreExamples.
Import Sample.
#[local] Existing Instance Sample.vendor.
#[local] Existing Instance Sample.math.
Local Open Scope float_scope.

Lemma no_faults_quiet (d : Firestore float) : no_faults (world d []).
Proof. constructor. Qed.

Lemma sendMessage_leaves_message_behind_witness :
  exists w' : World float,
    sendMessage "c9" "alice" "hello" (world emptyStore []) =
      (Throw (new_Error "Failed to send message. Please try again."), w') /\
    is_Some (messages (db w') !! "c9").
Proof.
  destruct (sendMessage_leaves_message_behind "c9" "alice" "hello" (world emptyStore [])
              eq_refl eq_refl (or_intror (lookup_empty _)))
    as (w' & E & _ & Hm & _).
  exists w'. split; [exact E|]. rewrite Hm. by eexists.
Defined.

Lemma createListing_then_listed_witness :
  exists (l : Listing float) (w1 : World float),
    createListing (denim origin) (world emptyStore []) = (Ok l, w1) /\
    listing_data l = denim origin.
Proof.
  destruct (createListing_then_listed (denim origin) (world emptyStore [])
              (no_faults_quiet _))
    as (l & w1 & ls & w2 & E & Hd & _).
  by exists l, w1.
Defined.

Lemma getListingsForUser_exact_witness :
  (exists (ls : list (Listing float)) (w' : World float),
     getListingsForUser "bob" (world Cases.listingStore []) = (Ok ls, w') /\
     NoDup (listing_id <$> ls)) /\
  getListingsForUser "bob" (world Cases.listingStore [mkReply (Some unavailable) 40]) =
    failed "Error fetching user listings:"
      "Failed to fetch your listings. Please try again." unavailable
      (tick (world Cases.listingStore [mkReply (Some unavailable) 40])).
Proof.
  split.
  - destruct (getListingsForUser_exact "bob" (world Cases.listingStore [])) as [Hok _].
    destruct (Hok (no_faults_quiet _)) as (ls & w' & E & _ & _ & _ & Hnd).
    by exists ls, w'.
  - destruct (getListingsForUser_exact "bob"
                (world Cases.listingStore [mkReply (Some unavailable) 40])) as [_ Hfail].
    exact (Hfail unavailable eq_refl).
Defined.

Lemma deleteListing_removes_witness :
  exists w' : World float,
    deleteListing "l1" (world Cases.listingStore []) = (Ok tt, w') /\
    listings (db w') = delete "l1" (listings Cases.listingStore).
Proof.
  destruct (deleteListing_removes "l1" (world Cases.listingStore [])) as [Hok _].
  destruct (Hok eq_refl eq_refl) as (w' & E & Hdb & _).
  exists w'. split; [exact E|]. by rewrite Hdb.
Defined.

Lemma updateListing_patches_witness :
  exists (w' : World float) (d' : ListingDoc float),
    updateListing "l1" Cases.retitle (world Cases.listingStore []) = (Ok tt, w') /\
    listings (db w') !! "l1" = Some d' /\
    title (doc_data d') = "ISO: Silk, any colour" /\
    userId (doc_data d') = "bob".
Proof.
  pose proof (updateListing_patches "l1" Cases.retitle (world Cases.listingStore [])
                eq_refl) as Hp.
  change (listings (db (world Cases.listingStore []))) with
    ({[ "l1" := Cases.silkDoc ]} : gmap string (ListingDoc float)) in Hp.
  rewrite lookup_singleton_eq in Hp.
  destruct Hp as (w' & d' & E & Hl & _ & _ & _ & _ & _ & _ & Ht & _ & _ & _ & _ & _ & _ &
                  Hu & _).
  exists w', d'. split; [exact E|]. rewrite Hl, lookup_insert_eq. by rewrite Ht, Hu.
Defined.


Lemma conversations_stay_unique_witness :
  unique_conversations (conversations Cases.twoChats) /\
  (exists (id : string) (w' : World float),
     getOrCreateConversation "bob" "carol" (world Cases.twoChats []) = (Ok id, w') /\
     conversations Cases.twoChats !! id = None /\
     is_Some (conversations (db w') !! id) /\
     unique_conversations (conversations (db w'))) /\
  (exists w' : World float,
     sendMessage "c1" "alice" "hello" (world Cases.twoChats []) = (Ok tt, w') /\
     unique_conversations (conversations (db w'))).
Proof.
  assert (Hu : unique_conversations (conversations (db (world Cases.twoChats [])))).
  { intros a b i j c d Hab Hi Hj Hac Hbc Had Hbd.
    change (conversations (db (world Cases.twoChats []))) with
      (<["c2" := {| participantIds := ["alice"; "carol"];
                    lastMessageText := ""; updatedAt := 6%N |}]>
         ({[ "c1" := {| participantIds := ["alice"; "bob"];
                        lastMessageText := "hi"; updatedAt := 5%N |} ]}
            : gmap string ConversationDoc)) in Hi, Hj.
    apply lookup_insert_Some in Hi as [[<- <-]|[_ [<- <-]%lookup_singleton_Some]];
      apply lookup_insert_Some in Hj as [[<- <-]|[_ [<- <-]%lookup_singleton_Some]];
      try done; cbn [participantIds] in *;
      rewrite !elem_of_cons, !elem_of_nil in Hac, Hbc, Had, Hbd;
      destruct Hac as [->|[->|[]]], Hbc as [->|[->|[]]];
      destruct Had as [?|[?|[]]], Hbd as [?|[?|[]]]; done. }
  destruct (conversations_stay_unique (world Cases.twoChats []) Hu) as [Hget Hsend].
  split; [exact Hu|]. split.
  - destruct (getOrCreateConversation_ok "bob" "carol" (world Cases.twoChats [])
                (no_faults_quiet _)) as (id & w' & c & E & _ & Hc & _).
    pose proof (Hget "bob" "carol") as Hafter. rewrite E in Hafter.
    exists id, w'. split; [exact E|]. split; [|split; [by eexists | exact Hafter]].
    rewrite getOrCreateConversation_eq in E. injection E as <- _. reflexivity.
  - destruct (sendMessage_ok "c1" "alice" "hello" (world Cases.twoChats [])
                {| participantIds := ["alice"; "bob"];
                   lastMessageText := "hi"; updatedAt := 5%N |} (no_faults_quiet _)
                eq_refl) as (w' & now & msgs & mid & t & E & _).
    pose proof (Hsend "c1" "alice" "hello") as Hafter. rewrite E in Hafter.
    by exists w'.
Defined.

Lemma sendMessage_twice_witness :
  exists w1 w2 : World float,
    sendMessage "c1" "alice" "hello" (world chatStore []) = (Ok tt, w1) /\
    sendMessage "c1" "bob" "hi there" w1 = (Ok tt, w2).
Proof.
  destruct (sendMessage_twice "c1" "alice" "hello" "bob" "hi there" (world chatStore [])
              (no_faults_quiet _) ltac:(by eexists))
    as (w1 & w2 & id1 & id2 & m1 & m2 & c1 & c2 & now & E1 & E2 & _).
  by exists w1, w2.
Defined.

Lemma convertFirebaseUser_displayName_witness :
  user_displayName
    (convertFirebaseUser
       {| uid := "u1"; fb_email := Some "alice@example.com";
          fb_displayName := Some "Alice" |}) = "Alice" /\
  convertFirebaseUser
    {| uid := "u2"; fb_email := Some "@example.com"; fb_displayName := None |} =
    {| user_id := "u2"; user_email := "@example.com"; user_displayName := "User" |}.
Proof.
  split.
  - destruct (convertFirebaseUser_displayName
                {| uid := "u1"; fb_email := Some "alice@example.com";
                   fb_displayName := Some "Alice" |})
      as (_ & _ & Hname & _).
    by apply Hname.
  - destruct (convertFirebaseUser_displayName
                {| uid := "u2"; fb_email := Some "@example.com"; fb_displayName := None |})
      as (_ & _ & _ & _ & _ & Hat & _).
    apply (Hat "example.com"); [by left | done].
Defined.

Lemma signIn_failure_messages_witness :
  exists w' : World float,
    signIn "alice@example.com" "guess"
      (world emptyStore [mkReply (Some Cases.wrongPassword) 30]) =
    (Throw (new_Error "Invalid email or password"), w').
Proof.
  destruct (signIn_failure_messages "alice@example.com" "guess"
              (world emptyStore [mkReply (Some Cases.wrongPassword) 30])
              Cases.wrongPassword eq_refl)
    as (msg & E & Hwrong & _).
  rewrite (Hwrong (or_intror eq_refl)) in E. by eexists.
Defined.

Lemma signUp_then_profile_witness :
  exists (u : User) (w' : World float),
    signUp "alice@example.com" "secret1" "Alice" (world emptyStore []) = (Ok u, w') /\
    user_displayName u = "Alice".
Proof.
  destruct (signUp_then_profile "alice@example.com" "secret1" "Alice" (world emptyStore [])
              (no_faults_quiet _) ltac:(done) ltac:(done) eq_refl)
    as (u & w' & E & -> & _).
  by eexists _, w'.
Defined.

Lemma handleHelp_outcomes_witness :
  exists (s' : IsoBoard.State) (w' : World float),
    IsoBoard.handleHelp (Some Cases.alice) Cases.silkListing Cases.board
      (world emptyStore []) = (Ok s', w') /\
    IsoBoard.alerts s' =
      ["Message sent! They will be able to see your message in their conversations."].
Proof.
  destruct (handleHelp_outcomes (Some Cases.alice) Cases.silkListing Cases.board
              (world emptyStore [])) as (_ & _ & Hsend).
  destruct (Hsend Cases.alice eq_refl ltac:(done) (no_faults_quiet _))
    as (s' & w' & id & c & msgs & mid & m & E & Ha & _).
  by exists s', w'.
Defined.

Lemma fetchRequests_within_20000_witness :
  (exists (s' : IsoBoard.State) (w' : World float),
     IsoBoard.fetchRequests Cases.board (world Cases.listingStore []) = (Ok s', w') /\
     IsoBoard.requests s' = []) /\
  (exists (s' : IsoBoard.State) (w' : World float) (l : Listing float),
     IsoBoard.fetchRequests Cases.board (world Cases.nearStore []) = (Ok s', w') /\
     l ∈ IsoBoard.requests s' /\ listing_id l = "l0").
Proof.
  split.
  - destruct (fetchRequests_within_20000 Cases.board (world Cases.listingStore []))
      as [Hfar Hshown].
    destruct (Hfar eq_refl eq_refl) as [Hdist _].
    destruct (Hshown (no_faults_quiet _)) as (s' & w' & E & _ & _ & _ & Hmem & _).
    exists s', w'. split; [exact E|].
    destruct (IsoBoard.requests s') as [|l ls]; [done|]. exfalso.
    destruct (proj1 (Hmem l) (list_elem_of_here _ _)) as (id & d & Hl & _ & Hd & _).
    change (listings (db (world Cases.listingStore []))) with
      ({[ "l1" := Cases.silkDoc ]} : gmap string (ListingDoc float)) in Hl.
    apply lookup_singleton_Some in Hl as [_ <-].
    change (location (doc_data Cases.silkDoc)) with antipode in Hd.
    rewrite Hdist in Hd. discriminate.
  - destruct (fetchRequests_within_20000 Cases.board (world Cases.nearStore []))
      as [_ Hshown].
    destruct (Hshown (no_faults_quiet _)) as (s' & w' & E & _ & _ & _ & Hmem & _).
    exists s', w', (listingOfDoc (users Cases.nearStore) ("l0", Cases.nearDoc)).
    split; [exact E|]. split; [|reflexivity].
    apply Hmem. exists "l0", Cases.nearDoc. repeat split; reflexivity.
Defined.

Lemma handleDelete_outcomes_witness :
  exists (s' : MapView.State) (w' : World float),
    MapViewActions.handleDelete true Cases.silkListing MapView.initialState
      (world Cases.listingStore []) = (Ok (s', None), w') /\
    listings (db w') = delete "l1" (listings Cases.listingStore).
Proof.
  destruct (handleDelete_outcomes true Cases.silkListing MapView.initialState
              (world Cases.listingStore [])) as (_ & Hok & _).
  destruct (Hok eq_refl (no_faults_quiet _)) as (s' & w' & E & Hdb & _).
  by exists s', w'.
Defined.

Lemma NewListingForm_handleSubmit_witness :
  exists (s' : NewListingForm.State) (w' : World float) (newId : string),
    NewListingForm.handleSubmit (Nominatim.geocode Cases.readFloat Cases.unreserved Cases.found)
      Cases.alice Cases.newForm (world emptyStore []) = (Ok (s', true), w') /\
    is_Some (listings (db w') !! newId).
Proof.
  destruct (NewListingForm_handleSubmit (Nominatim.geocode Cases.readFloat Cases.unreserved Cases.found)
              Cases.alice Cases.newForm (world emptyStore [])) as (_ & _ & Hok).
  destruct (Hok Cases.photo _ _ eq_refl eq_refl (no_faults_quiet _))
    as (s' & w' & i & E & _ & Hdb).
  exists s', w', i. split; [exact E|]. rewrite Hdb, lookup_insert_eq. by eexists.
Defined.

Lemma EditListingForm_handleSubmit_witness :
  exists (s' : EditListingForm.State) (w' : World float) (d' : ListingDoc float),
    EditListingForm.handleSubmit (Nominatim.geocode Cases.readFloat Cases.unreserved Cases.found)
      "l1" Cases.editForm (world Cases.listingStore []) = (Ok (s', true), w') /\
    listings (db w') !! "l1" = Some d' /\
    userId (doc_data d') = "bob" /\ doc_createdAt d' = 7%N.
Proof.
  destruct (EditListingForm_handleSubmit
              (Nominatim.geocode Cases.readFloat Cases.unreserved Cases.found)
              "l1" Cases.editForm (world Cases.listingStore [])) as (_ & Hok).
  pose proof (Hok _ _ eq_refl (no_faults_quiet _)) as Hp.
  change (listings (db (world Cases.listingStore []))) with
    ({[ "l1" := Cases.silkDoc ]} : gmap string (ListingDoc float)) in Hp.
  rewrite lookup_singleton_eq in Hp. destruct Hp as (s' & w' & E & Hdb).
  eexists s', w', _. split; [exact E|]. rewrite Hdb, lookup_insert_eq. done.
Defined.

Lemma getGalleryPosts_keeps_every_post_witness :
  (exists w' : World float,
     getGalleryPosts (world Cases.galleryStore []) = (Ok [Cases.scarfPost], w')) /\
  (exists (posts : list GalleryPost) (w' : World float),
     getGalleryPosts
       (world Cases.galleryStore [mkReply None 20; mkReply (Some unavailable) 40]) =
       (Ok posts, w') /\
     withoutUser <$> posts = [withoutUser Cases.scarfPost]).
Proof.
  split.
  - pose proof (getGalleryPosts_keeps_every_post (world Cases.galleryStore [])) as Hp.
    change (first_fault (world Cases.galleryStore [])) with (@None JsError) in Hp.
    cbv iota in Hp. destruct Hp as (posts & w' & E & _ & _ & _ & Hposts).
    rewrite (Hposts (no_faults_quiet _)) in E.
    change (gallery (db (world Cases.galleryStore []))) with
      ({[ "g1" := Cases.scarf ]} : gmap string GalleryDoc) in E.
    rewrite map_to_list_singleton in E. exists w'. rewrite E. reflexivity.
  - pose proof (getGalleryPosts_keeps_every_post
                  (world Cases.galleryStore
                     [mkReply None 20; mkReply (Some unavailable) 40])) as Hp.
    change (first_fault (world Cases.galleryStore
                           [mkReply None 20; mkReply (Some unavailable) 40]))
      with (@None JsError) in Hp.
    cbv iota in Hp. destruct Hp as (posts & w' & E & _ & Hbare & _).
    exists posts, w'. split; [exact E|]. rewrite Hbare.
    change (gallery (db (world Cases.galleryStore
                           [mkReply None 20; mkReply (Some unavailable) 40]))) with
      ({[ "g1" := Cases.scarf ]} : gmap string GalleryDoc).
    by rewrite map_to_list_singleton.
Defined.

Lemma Nominatim_geocode_outcomes_witness :
  exists (s' : NewListingForm.State) (w' : World float),
    NewListingForm.handleSubmit (Nominatim.geocode Cases.readFloat Cases.unreserved Cases.notFound)
      Cases.alice Cases.newForm (world emptyStore []) = (Ok (s', false), w') /\
    NewListingForm.error s' = Some "An error occurred. Please try again.".
Proof.
  pose proof (Nominatim_geocode_outcomes Cases.readFloat Cases.unreserved Cases.notFound Cases.alice
                Cases.newForm Cases.photo (world emptyStore [])) as Hp.
  cbv zeta in Hp. unfold Cases.notFound at 1 in Hp. cbv beta iota in Hp.
  destruct Hp as (cause & _ & Hform).
  destruct (Hform eq_refl) as (s' & E & _ & He).
  by eexists s', _.
Defined.

Lemma submitted_listing_in_profile_witness :
  exists (s' : NewListingForm.State) (w' : World float)
         (profileState' : Profile.State) (w'' : World float),
    NewListingForm.handleSubmit (Nominatim.geocode Cases.readFloat Cases.unreserved Cases.found)
      Cases.alice Cases.newForm (world emptyStore []) = (Ok (s', true), w') /\
    Profile.fetchUserListings Cases.alice Cases.profilePage w' = (Ok profileState', w'') /\
    Profile.listings profileState' <> [].
Proof.
  destruct (submitted_listing_in_profile
              (Nominatim.geocode Cases.readFloat Cases.unreserved Cases.found)
              Cases.alice Cases.newForm Cases.photo _ Cases.profilePage
              (world emptyStore []) _ eq_refl eq_refl (no_faults_quiet _))
    as (s' & w' & p' & w'' & l & E1 & E2 & _ & _ & Hin & _).
  exists s', w', p', w''. split; [exact E1|]. split; [exact E2|].
  intros Hnil. rewrite Hnil in Hin. by apply not_elem_of_nil in Hin.
Defined.


Lemma Auth_handlers_witness :
  (exists (u : User) (w' : World float),
     Auth.handleSignUp Cases.signUpForm (world emptyStore []) =
       (Ok (Auth.setStatus false "" Cases.signUpForm, Some u), w') /\
     user_id u = "uid-alice@example.com") /\
  Auth.handleLogin Cases.signUpForm
    (world emptyStore [mkReply (Some Cases.wrongPassword) 30]) =
    (Ok (Auth.setStatus false "Invalid email or password" Cases.signUpForm, None),
     logged (console_error "Sign in error:" Cases.wrongPassword)
       (tick (world emptyStore [mkReply (Some Cases.wrongPassword) 30]))).
Proof.
  split.
  - destruct (Auth_handlers Cases.signUpForm None (world emptyStore []))
      as (_ & _ & _ & _ & Hup).
    destruct (Hup eq_refl) as (u & w' & E & Hid & _). by exists u, w'.
  - destruct (Auth_handlers Cases.signUpForm None
                (world emptyStore [mkReply (Some Cases.wrongPassword) 30]))
      as (_ & _ & _ & Hin & _).
    exact Hin.
Defined.

End MoreExamples.
